(** * Schema validator and record store of the food-data CRUD application

    A shallow embedding of [database/schema.py] (class [SchemaValidator]) and
    [database/db_manager.py] (class [DatabaseManager]).

    Conventions of the embedding.
    - A Python [dict] is an association list in insertion order; assignment
      to an existing key replaces the value in place, assignment to a new key
      appends.
    - A finite Python float is held as the rational it denotes, and NaN and
      the two infinities are separate constructors.  Which float an integer
      or a text converts to, when the conversion of an integer overflows,
      and which integers [str] converts, is the host's answer ([Builtins]).
    - Text is held as the bytes of its UTF-8 encoding.
    - A raised exception is the [Raise] outcome of the state-and-error monad
      [M]; the state reached when the exception left the function is kept.
    - Objects that the code mutates or shares (data frames, the per-row error
      dictionaries) live in a heap and are handled through references.
    - The SQL statements are given their meaning on a store of two lists of
      rows.  What the statements and the row handling ask of the database
      engine, and engines answer differently, is collected in [engine]; the
      module connects to DuckDB.  The conversion of a bound value to the type
      of its column is the engine's as well ([Casts]); the theorems hold for
      every engine that satisfies its laws.  A table is named as
      [_initialize_db] writes it. *)

From Stdlib Require Import String Ascii List ZArith QArith Bool Arith Lia.
From Stdlib Require Import DecimalString.
Import ListNotations.
Local Close Scope Q_scope.
Local Open Scope string_scope.
Local Open Scope list_scope.

Set Implicit Arguments.

(** ** Exceptions and the state-and-error monad *)

Inductive exn :=
| UnknownTable (table : string)            (* ValueError("Unknown table: ...") *)
| MissingColumns (cols : list string)      (* ValueError("Missing required columns: ...") *)
| MissingCsvColumn (col : string)          (* ValueError("Required column ... missing from CSV") *)
| ValueError
| TypeError
| AttributeError
| OverflowError
| IndexError
| ConstraintError                          (* engine: NOT NULL or PRIMARY KEY violated *)
| ConversionError                          (* engine: value not of the column's type *)
| CatalogError                             (* engine: no such table or function *)
| BinderError                              (* engine: no such column, column assigned twice *)
| ParserError.                             (* engine: statement not in the grammar *)

Inductive result (A : Type) :=
| Ok (a : A)
| Raise (e : exn).
Arguments Ok {A} a.
Arguments Raise {A} e.

Definition M (S A : Type) : Type := S -> result A * S.

Definition ret {S A} (a : A) : M S A := fun s => (Ok a, s).
Definition raise {S A} (e : exn) : M S A := fun s => (Raise e, s).
Definition bind {S A B} (m : M S A) (k : A -> M S B) : M S B :=
  fun s => match m s with
           | (Ok a, s') => k a s'
           | (Raise e, s') => (Raise e, s')
           end.
Definition get_state {S} : M S S := fun s => (Ok s, s).
Definition put_state {S} (s : S) : M S unit := fun _ => (Ok tt, s).
Definition lift {S A} (r : result A) : M S A := fun s => (r, s).

Declare Scope py_scope.
Delimit Scope py_scope with py.
Notation "x <- m ;; k" := (bind m (fun x => k))
  (at level 61, m at next level, right associativity) : py_scope.
Notation "m ;;; k" := (bind m (fun _ => k))
  (at level 61, right associativity) : py_scope.

(** [for x in xs: body x] *)
Fixpoint for_each {S A} (xs : list A) (body : A -> M S unit) : M S unit :=
  match xs with
  | [] => ret tt
  | x :: xs' => bind (body x) (fun _ => for_each xs' body)
  end.

(** [enumerate(xs)] from index [i] on. *)
Fixpoint enumerate_from {A} (i : nat) (xs : list A) : list (nat * A) :=
  match xs with
  | [] => []
  | x :: xs' => (i, x) :: enumerate_from (S i) xs'
  end.
Definition enumerate {A} (xs : list A) := enumerate_from 0 xs.

(** ** Python dictionaries *)

Section Dict.
Variable V : Type.

Definition dict := list (string * V).

Fixpoint dict_get (k : string) (d : dict) : option V :=
  match d with
  | [] => None
  | (k', v) :: d' => if String.eqb k k' then Some v else dict_get k d'
  end.

Fixpoint dict_set (k : string) (v : V) (d : dict) : dict :=
  match d with
  | [] => [(k, v)]
  | (k', v') :: d' =>
      if String.eqb k k' then (k, v) :: d' else (k', v') :: dict_set k v d'
  end.

Definition dict_mem (k : string) (d : dict) : bool :=
  match dict_get k d with Some _ => true | None => false end.

Definition dict_keys (d : dict) : list string := map fst d.
End Dict.

Arguments dict_get {V} k d.
Arguments dict_set {V} k v d.
Arguments dict_mem {V} k d.
Arguments dict_keys {V} d.

Definition str_in (k : string) (ks : list string) : bool :=
  existsb (String.eqb k) ks.

(** Keys of a dictionary are pairwise distinct. *)
Fixpoint unique_keys (ks : list string) : bool :=
  match ks with
  | [] => true
  | k :: ks' => negb (str_in k ks') && unique_keys ks'
  end.

(** ** Python values *)

Inductive pyfloat :=
| FNaN
| FInf (negative : bool)
| FFin (q : Q).

Inductive value :=
| VNone
| VBool (b : bool)
| VInt (z : Z)
| VFloat (f : pyfloat)
| VStr (s : string).

(** The type objects [str], [float], [int], [bool] that the loader stores in
    a rule under the key ['type']. *)
Inductive pytype := TyStr | TyFloat | TyInt | TyBool.

(** What a YAML or TOML document holds, and what a processed rule holds:
    scalars, sequences, mappings and, after processing, type objects. *)
#[warnings="-register-all"]
Inductive config :=
| CVal (v : value)
| CType (t : pytype)
| CList (l : list config)
| CMap (m : list (string * config)).

Definition table_schema := dict config.       (* field -> rules *)
Definition schemas := dict table_schema.      (* table -> field -> rules *)

Definition pytype_eqb (a b : pytype) : bool :=
  match a, b with
  | TyStr, TyStr | TyFloat, TyFloat | TyInt, TyInt | TyBool, TyBool => true
  | _, _ => false
  end.

(** [expected_type == t] for a type object [t]. *)
Definition is_type (c : option config) (t : pytype) : bool :=
  match c with
  | Some (CType t') => pytype_eqb t' t
  | _ => false
  end.

(** Truth value of a Python object. *)
Definition truthy_value (v : value) : bool :=
  match v with
  | VNone => false
  | VBool b => b
  | VInt z => negb (Z.eqb z 0)
  | VFloat FNaN => true
  | VFloat (FInf _) => true
  | VFloat (FFin q) => negb (Qeq_bool q 0)
  | VStr s => negb (String.eqb s "")
  end.

Definition truthy (c : config) : bool :=
  match c with
  | CVal v => truthy_value v
  | CType _ => true
  | CList l => match l with [] => false | _ => true end
  | CMap m => match m with [] => false | _ => true end
  end.

(** [str.lower()], as far as a comparison with the type names and the file
    extensions of the loader can tell: the letters A to Z are mapped, and a
    character outside ASCII never becomes one of the letters of those
    names. *)
Definition lower_char (c : ascii) : ascii :=
  let n := nat_of_ascii c in
  if (65 <=? n)%nat && (n <=? 90)%nat then ascii_of_nat (n + 32) else c.

Fixpoint lower (s : string) : string :=
  match s with
  | EmptyString => EmptyString
  | String c s' => String (lower_char c) (lower s')
  end.

(** ** Loading the schema ([_load_schema], [_get_default_schema]) *)

(** What the file system and the YAML or TOML loader answer for the path
    given to the validator. *)
Record source := {
  src_exists : bool;         (* os.path.exists(schema_file) *)
  src_ext : string;          (* os.path.splitext(schema_file)[1] *)
  src_load : result config   (* open() followed by yaml.safe_load or
                                toml.load, whichever the extension selects *)
}.

Definition str_rule (required : bool) : config :=
  CMap [("type", CType TyStr); ("required", CVal (VBool required))].

Definition float_rule_min0 : config :=
  CMap [("type", CType TyFloat); ("required", CVal (VBool false));
        ("min", CVal (VInt 0))].

Definition _get_default_schema : schemas :=
  [("food_consumption",
    [("commodity", str_rule true);
     ("age_group", str_rule true);
     ("mean_consumption_chronic", float_rule_min0);
     ("mean_consumption_acute", float_rule_min0);
     ("percentile_97_chronic", float_rule_min0);
     ("percentile_97_acute", float_rule_min0);
     ("notes", str_rule false)])].

(** The chain of comparisons on [type_str]; [None] when no branch is taken,
    in which case [processed_rules['type']] keeps the text of the file. *)
Definition convert_type_name (type_str : string) : option config :=
  if (type_str =? "str") || (type_str =? "string") then Some (CType TyStr)
  else if type_str =? "float" then Some (CType TyFloat)
  else if (type_str =? "int") || (type_str =? "integer") then Some (CType TyInt)
  else if (type_str =? "bool") || (type_str =? "boolean") then Some (CType TyBool)
  else if type_str =? "date" then Some (CVal (VStr "date"))
  else if type_str =? "datetime" then Some (CVal (VStr "datetime"))
  else None.

Definition is_type_key (c : config) : bool :=
  match c with
  | CVal (VStr s) => s =? "type"
  | _ => false
  end.

(** Body of the inner loop for one [rules] object. *)
Definition process_rules (rules : config) : result config :=
  match rules with
  | CMap m =>                                   (* rules.copy() *)
      match dict_get "type" m with              (* 'type' in rules *)
      | None => Ok (CMap m)
      | Some (CVal (VStr t)) =>
          match convert_type_name (lower t) with
          | Some ty => Ok (CMap (dict_set "type" ty m))
          | None => Ok (CMap m)
          end
      | Some _ => Raise AttributeError          (* no .lower() *)
      end
  | CList l =>                                  (* a list has .copy() too *)
      if existsb is_type_key l
      then Raise TypeError                      (* rules['type'] on a list *)
      else Ok (CList l)
  | _ => Raise AttributeError                   (* no .copy() *)
  end.

Fixpoint process_fields (fields : list (string * config))
    (processed_table : table_schema) : result table_schema :=
  match fields with
  | [] => Ok processed_table
  | (field, rules) :: rest =>
      match process_rules rules with
      | Ok processed_rules =>
          process_fields rest (dict_set field processed_rules processed_table)
      | Raise e => Raise e
      end
  end.

Fixpoint process_tables (tables : list (string * config))
    (processed_schema : schemas) : result schemas :=
  match tables with
  | [] => Ok processed_schema
  | (table_name, table) :: rest =>
      match table with
      | CMap fields =>                          (* table_schema.items() *)
          match process_fields fields [] with
          | Ok processed_table =>
              process_tables rest
                (dict_set table_name processed_table processed_schema)
          | Raise e => Raise e
          end
      | _ => Raise AttributeError
      end
  end.

Definition process_schema (raw_schema : config) : result schemas :=
  match raw_schema with
  | CMap tables => process_tables tables []    (* raw_schema.items() *)
  | _ => Raise AttributeError
  end.

Definition supported_ext (file_ext : string) : bool :=
  (file_ext =? ".yaml") || (file_ext =? ".yml") || (file_ext =? ".toml").

Definition _load_schema (src : source) : result schemas :=
  if negb (src_exists src) then Ok _get_default_schema
  else
    let file_ext := lower (src_ext src) in
    let attempt :=                              (* the body of [try] *)
      match src_load src with
      | Raise e => Raise e
      | Ok raw_schema =>
          if supported_ext file_ext then process_schema raw_schema
          else Ok _get_default_schema
      end in
    match attempt with
    | Ok s => Ok s
    | Raise _ => Ok _get_default_schema         (* except Exception *)
    end.

(** ** Built-in conversions of the host language *)

(** Reading a number from text, converting an integer to a float and
    printing a float are left to the host language and to pandas; the
    validator uses them through this interface.  The printed form of a float
    is never the empty text.  The last field tells the versions of pandas
    apart: [astype(str)] turns a missing value into text up to pandas 2 and
    leaves it missing from pandas 3 on; the repository pins neither. *)
Class Builtins := {
  float_of_int : Z -> option pyfloat;         (* float(int); None: OverflowError *)
  parse_float : string -> option pyfloat;     (* float(text); None: ValueError *)
  parse_int : string -> option Z;             (* int(text); None: ValueError *)
  to_numeric_text : string -> option pyfloat; (* pd.to_numeric on a text cell *)
  str_float : pyfloat -> string;              (* str(float) *)
  int_has_text : Z -> bool;                   (* str(int); false: ValueError,
                                                 the integer has more digits
                                                 than the host converts *)
  str_float_nonempty : forall f, str_float f <> "";
  str_keeps_missing : bool                    (* astype(str) keeps NaN and None *)
}.

Section Conversions.
Context {B : Builtins}.

(** [float(v)] *)
Definition py_float (v : value) : result value :=
  match v with
  | VNone => Raise TypeError
  | VBool b => Ok (VFloat (FFin (if b then 1 else 0)))
  | VInt z =>
      match float_of_int z with
      | Some f => Ok (VFloat f)
      | None => Raise OverflowError            (* int too large *)
      end
  | VFloat f => Ok (VFloat f)
  | VStr s =>
      match parse_float s with
      | Some f => Ok (VFloat f)
      | None => Raise ValueError
      end
  end.

(** [int(v)]; a finite float is truncated towards zero. *)
Definition py_int (v : value) : result value :=
  match v with
  | VNone => Raise TypeError
  | VBool b => Ok (VInt (if b then 1 else 0))
  | VInt z => Ok (VInt z)
  | VFloat FNaN => Raise ValueError
  | VFloat (FInf _) => Raise OverflowError
  | VFloat (FFin q) => Ok (VInt (Z.quot (Qnum q) (Zpos (Qden q))))
  | VStr s =>
      match parse_int s with
      | Some z => Ok (VInt z)
      | None => Raise ValueError
      end
  end.

(** The text of [str(v)] *)
Definition py_str (v : value) : string :=
  match v with
  | VNone => "None"
  | VBool b => if b then "True" else "False"
  | VInt z => NilZero.string_of_int (Z.to_int z)
  | VFloat f => str_float f
  | VStr s => s
  end.

(** [str(v)]: the host refuses an integer of too many digits. *)
Definition py_to_str (v : value) : result value :=
  match v with
  | VInt z => if int_has_text z then Ok (VStr (py_str v)) else Raise ValueError
  | _ => Ok (VStr (py_str v))
  end.
End Conversions.

(** Numeric reading of a value that takes part in [<] and [>]. *)
Definition num_of (v : value) : option pyfloat :=
  match v with
  | VBool b => Some (FFin (if b then 1 else 0))
  | VInt z => Some (FFin (inject_Z z))
  | VFloat f => Some f
  | _ => None
  end.

Definition float_lt (a b : pyfloat) : bool :=
  match a, b with
  | FNaN, _ | _, FNaN => false
  | FInf true, FInf true => false
  | FInf true, _ => true
  | _, FInf true => false
  | FInf false, _ => false
  | _, FInf false => true
  | FFin x, FFin y => match Qcompare x y with Lt => true | _ => false end
  end.

(** [a < b] and [a > b] where [b] comes from a rule; mixing text with a
    number, or comparing with a sequence, a mapping, a type or [None],
    raises [TypeError]. *)
Definition py_lt (a : value) (b : config) : result bool :=
  match b with
  | CVal vb =>
      match a, vb with
      | VStr x, VStr y => Ok (String.ltb x y)
      | _, _ =>
          match num_of a, num_of vb with
          | Some x, Some y => Ok (float_lt x y)
          | _, _ => Raise TypeError
          end
      end
  | _ => Raise TypeError
  end.

Definition py_gt (a : value) (b : config) : result bool :=
  match b with
  | CVal vb =>
      match a, vb with
      | VStr x, VStr y => Ok (String.ltb y x)
      | _, _ =>
          match num_of a, num_of vb with
          | Some x, Some y => Ok (float_lt y x)
          | _, _ => Raise TypeError
          end
      end
  | _ => Raise TypeError
  end.

(** ** Validation messages *)

(** The f-strings of the validator, kept as their parts. *)
Inductive message :=
| IsRequired (field : string)                 (* "{field} is required" *)
| MustBeValid (field : string) (ty : pytype)  (* "{field} must be a valid {type}" *)
| AtLeast (field : string) (bound : config)   (* "{field} must be at least {min}" *)
| AtMost (field : string) (bound : config)    (* "{field} must be at most {max}" *)
| NotANumber (col : string)                   (* "{col} must be a valid number" *)
| CannotBeEmpty (col : string).               (* "{col} cannot be empty" *)

Definition errors := dict message.
Definition record := dict value.

(** ** [validate_record] *)

(** [rules.get('required', False)] as a condition. *)
Definition is_required (rules : dict config) : bool :=
  match dict_get "required" rules with
  | Some c => truthy c
  | None => false
  end.

(** [field not in record or record[field] is None or record[field] == ''] *)
Definition is_missing (r : record) (field : string) : bool :=
  match dict_get field r with
  | None => true
  | Some VNone => true
  | Some (VStr s) => s =? ""
  | Some _ => false
  end.

(** [isinstance(v, (int, float))]; [bool] is a subclass of [int]. *)
Definition is_number (v : value) : bool :=
  match v with
  | VBool _ | VInt _ | VFloat _ => true
  | _ => false
  end.

Definition item (r : record) (field : string) : value :=
  match dict_get field r with
  | Some v => v
  | None => VNone
  end.

Section ValidateRecord.
Context {B : Builtins}.
Local Open Scope py_scope.

(** The conversion selected by [expected_type], when there is one. *)
Definition conversion (expected_type : option config)
  : option (pytype * (value -> result value)) :=
  if is_type expected_type TyFloat then Some (TyFloat, py_float)
  else if is_type expected_type TyInt then Some (TyInt, py_int)
  else if is_type expected_type TyStr
       then Some (TyStr, py_to_str)
  else None.

(** The bound checks at the end of the loop body. *)
Definition check_bounds (field : string) (rules : dict config)
    (expected_type : option config) (errs : errors) : M record errors :=
  r <- get_state ;;
  if (is_type expected_type TyInt || is_type expected_type TyFloat)
     && is_number (item r field)
  then
    errs1 <- match dict_get "min" rules with
             | Some bound =>
                 below <- lift (py_lt (item r field) bound) ;;
                 ret (if below : bool
                      then dict_set field (AtLeast field bound) errs
                      else errs)
             | None => ret errs
             end ;;
    match dict_get "max" rules with
    | Some bound =>
        above <- lift (py_gt (item r field) bound) ;;
        ret (if above : bool
             then dict_set field (AtMost field bound) errs1
             else errs1)
    | None => ret errs1
    end
  else ret errs.

(** One turn of [for field, rules in schema.items()]. *)
Definition validate_field (field : string) (rules : config) (errs : errors)
  : M record errors :=
  match rules with
  | CMap rules =>
      r <- get_state ;;
      if is_required rules && is_missing r field
      then ret (dict_set field (IsRequired field) errs)       (* continue *)
      else if is_missing r field then ret errs                (* continue *)
      else
        let expected_type := dict_get "type" rules in
        let truthy_type :=
          match expected_type with Some c => truthy c | None => false end in
        match (if truthy_type then conversion expected_type else None) with
        | Some (ty, convert) =>
            match convert (item r field) with
            | Ok v =>
                put_state (dict_set field v r) ;;;
                check_bounds field rules expected_type errs
            | Raise ValueError | Raise TypeError =>
                ret (dict_set field (MustBeValid field ty) errs) (* continue *)
            | Raise e => raise e
            end
        | None => check_bounds field rules expected_type errs
        end
  | _ => raise AttributeError                                 (* rules.get *)
  end.

Fixpoint validate_fields (schema : table_schema) (errs : errors)
  : M record errors :=
  match schema with
  | [] => ret errs
  | (field, rules) :: rest =>
      errs' <- validate_field field rules errs ;;
      validate_fields rest errs'
  end.

Definition validate_record (sch : schemas) (table_name : string)
  : M record errors :=
  match dict_get table_name sch with
  | None => raise (UnknownTable table_name)
  | Some schema => validate_fields schema []
  end.
End ValidateRecord.

(** ** Data frames and the heap of shared objects *)

(** A frame is its columns in order, each a name and the cells of the
    column; the cells of a frame read from CSV are missing values, numbers
    and text. *)
Definition frame := dict (list value).

Definition ref := nat.

Record heap := {
  frames : list frame;      (* data frame objects *)
  dicts : list errors       (* dictionary objects of [row_errors] *)
}.

Fixpoint replace_nth {A} (n : nat) (x : A) (l : list A) : list A :=
  match l, n with
  | [], _ => []
  | _ :: l', O => x :: l'
  | y :: l', S n' => y :: replace_nth n' x l'
  end.

Definition frame_at (h : heap) (df : ref) : frame := nth df (frames h) [].
Definition dict_at (h : heap) (d : ref) : errors := nth d (dicts h) [].

Definition read_frame (df : ref) : M heap frame :=
  fun h => (Ok (frame_at h df), h).

Definition new_frame (fr : frame) : M heap ref :=
  fun h => (Ok (length (frames h)),
            {| frames := frames h ++ [fr]; dicts := dicts h |}).

Definition write_frame (df : ref) (fr : frame) : M heap unit :=
  fun h => (Ok tt, {| frames := replace_nth df fr (frames h);
                      dicts := dicts h |}).

(** [{}] *)
Definition new_dict : M heap ref :=
  fun h => (Ok (length (dicts h)),
            {| frames := frames h; dicts := dicts h ++ [[]] |}).

(** [d[key] = msg] on the dictionary object behind [d]. *)
Definition dict_store (d : ref) (key : string) (msg : message) : M heap unit :=
  fun h => (Ok tt, {| frames := frames h;
                      dicts := replace_nth d (dict_set key msg (dict_at h d))
                                 (dicts h) |}).

(** [df.copy()] *)
Definition copy (df : ref) : M heap ref :=
  bind (read_frame df) new_frame.

(** [len(df)] *)
Definition frame_len (fr : frame) : nat :=
  match fr with
  | [] => 0
  | (_, cells) :: _ => length cells
  end.

(** [df[col]] for a column of the frame. *)
Definition column (fr : frame) (col : string) : list value :=
  match dict_get col fr with
  | Some cells => cells
  | None => []
  end.

(** [df[col] = cells] *)
Definition set_column (df : ref) (col : string) (cells : list value)
  : M heap unit :=
  bind (read_frame df) (fun fr => write_frame df (dict_set col cells fr)).

(** [pd.isna(v)] *)
Definition isna (v : value) : bool :=
  match v with
  | VNone | VFloat FNaN => true
  | _ => false
  end.

(** The white space of ASCII: U+0009 to U+000D and U+001C to U+0020. *)
Definition is_space_char (c : ascii) : bool :=
  let n := nat_of_ascii c in
  ((9 <=? n) && (n <=? 13) || (28 <=? n) && (n <=? 32))%nat.

(** The white space of Unicode beyond ASCII, by the bytes of its encoding:
    U+0085 and U+00A0 take two bytes; U+1680, U+2000 to U+200A, U+2028,
    U+2029, U+202F, U+205F and U+3000 take three. *)
Definition is_space2 (a b : nat) : bool :=
  ((a =? 194) && ((b =? 133) || (b =? 160)))%nat.

Definition is_space3 (a b c : nat) : bool :=
  ((a =? 225) && (b =? 154) && (c =? 128)
   || (a =? 226) && (b =? 128)
      && ((128 <=? c) && (c <=? 138) || (c =? 168) || (c =? 169) || (c =? 175))
   || (a =? 226) && (b =? 129) && (c =? 159)
   || (a =? 227) && (b =? 128) && (c =? 128))%nat.

Fixpoint all_space (s : string) : bool :=
  match s with
  | EmptyString => true
  | String a s1 =>
      if is_space_char a then all_space s1
      else
        match s1 with
        | String b s2 =>
            if is_space2 (nat_of_ascii a) (nat_of_ascii b) then all_space s2
            else
              match s2 with
              | String c s3 =>
                  is_space3 (nat_of_ascii a) (nat_of_ascii b) (nat_of_ascii c)
                  && all_space s3
              | EmptyString => false
              end
        | EmptyString => false
        end
  end.

(** [s.isspace()]: the text is not empty and all its characters are white
    space. *)
Definition isspace (s : string) : bool :=
  match s with
  | EmptyString => false
  | _ => all_space s
  end.

Section Columns.
Context {B : Builtins}.

(** [pd.to_numeric(cells, errors='coerce')] *)
Definition to_numeric_cell (v : value) : value :=
  match v with
  | VNone => VFloat FNaN
  | VStr s =>
      match to_numeric_text s with
      | Some f => VFloat f
      | None => VFloat FNaN
      end
  | _ => v
  end.
Definition to_numeric (cells : list value) : list value :=
  map to_numeric_cell cells.

(** [cells.astype(str)]: every cell becomes its text; a missing value does so
    up to pandas 2 and stays missing, as NaN, from pandas 3 on. *)
Definition astype_str_cell (v : value) : value :=
  if isna v
  then if str_keeps_missing then VFloat FNaN else VStr (py_str v)
  else VStr (py_str v).
Definition astype_str (cells : list value) : list value :=
  map astype_str_cell cells.

(** [cells.fillna('')] *)
Definition fillna_empty (cells : list value) : list value :=
  map (fun v => if isna v then VStr "" else v) cells.
End Columns.

(** A loop that carries a local variable. *)
Fixpoint for_acc {S A C} (xs : list A) (body : A -> C -> M S C) (acc : C)
  : M S C :=
  match xs with
  | [] => ret acc
  | x :: xs' => bind (body x acc) (for_acc xs' body)
  end.

(** [rules.get(key)] on whatever the schema holds for a field. *)
Definition rules_dict (rules : config) : result (dict config) :=
  match rules with
  | CMap m => Ok m
  | _ => Raise AttributeError
  end.

(** [[col for col, rules in schema.items() if rules.get('required', False)]] *)
Fixpoint required_columns (schema : table_schema) : result (list string) :=
  match schema with
  | [] => Ok []
  | (col, rules) :: rest =>
      match rules_dict rules with
      | Raise e => Raise e
      | Ok m =>
          match required_columns rest with
          | Raise e => Raise e
          | Ok cols => Ok (if is_required m then col :: cols else cols)
          end
      end
  end.

(** [row_errors[i][col] = msg] *)
Definition row_error (row_errors : list ref) (i : nat) (col : string)
    (msg : message) : M heap unit :=
  match nth_error row_errors i with
  | Some d => dict_store d col msg
  | None => raise IndexError
  end.

Section ValidateDataframe.
Context {B : Builtins}.
Local Open Scope py_scope.

(** [for i, val in enumerate(cells): if test val: row_errors[i][col] = msg;
    has_errors = True], where [test] may raise. *)
Definition mark_rows (row_errors : list ref) (col : string) (msg : message)
    (test : value -> result bool) (cells : list value) (has_errors : bool)
  : M heap bool :=
  for_acc (enumerate cells)
    (fun '(i, val) has_errors =>
       hit <- lift (test val) ;;
       if hit : bool
       then row_error row_errors i col msg ;;; ret true
       else ret has_errors)
    has_errors.

(** One turn of [for col, rules in schema.items()] in
    [validate_dataframe]. *)
Definition validate_column (validated_df : ref) (row_errors : list ref)
    (col : string) (rules : config) (has_errors : bool) : M heap bool :=
  rules <- lift (rules_dict rules) ;;
  fr <- read_frame validated_df ;;
  if negb (dict_mem col fr) then
    if is_required rules then
      for_each (seq 0 (length row_errors))
        (fun i => row_error row_errors i col (IsRequired col)) ;;;
      ret true
    else ret has_errors
  else
    let expected_type := dict_get "type" rules in
    if is_type expected_type TyFloat then
      set_column validated_df col (to_numeric (column fr col)) ;;;
      fr <- read_frame validated_df ;;
      has_errors <-
        (if is_required rules
         then mark_rows row_errors col (NotANumber col)
                (fun val => Ok (isna val)) (column fr col) has_errors
         else ret has_errors) ;;
      has_errors <-
        match dict_get "min" rules with
        | Some min_val =>
            mark_rows row_errors col (AtLeast col min_val)
              (fun val => if isna val then Ok false else py_lt val min_val)
              (column fr col) has_errors
        | None => ret has_errors
        end ;;
      match dict_get "max" rules with
      | Some max_val =>
          mark_rows row_errors col (AtMost col max_val)
            (fun val => if isna val then Ok false else py_gt val max_val)
            (column fr col) has_errors
      | None => ret has_errors
      end
    else if is_type expected_type TyStr then
      set_column validated_df col (astype_str (column fr col)) ;;;
      fr <- read_frame validated_df ;;
      if is_required rules
      then mark_rows row_errors col (CannotBeEmpty col)
             (fun val => match val with
                         | VStr s => Ok ((s =? "") || isspace s)
                         | _ => Raise AttributeError
                         end)
             (column fr col) has_errors
      else ret has_errors
    else ret has_errors.

Definition validate_dataframe (sch : schemas) (table_name : string)
    (df : ref) : M heap (ref * list ref * bool) :=
  match dict_get table_name sch with
  | None => raise (UnknownTable table_name)
  | Some schema =>
      validated_df <- copy df ;;
      required <- lift (required_columns schema) ;;
      fr <- read_frame validated_df ;;
      let missing_columns :=
        filter (fun col => negb (dict_mem col fr)) required in
      match missing_columns with
      | _ :: _ => raise (MissingColumns missing_columns)
      | [] =>
          d <- new_dict ;;                      (* the one [{}] ... *)
          let row_errors := repeat d (frame_len fr) in  (* ... n times *)
          has_errors <-
            for_acc schema
              (fun '(col, rules) has_errors =>
                 validate_column validated_df row_errors col rules
                   has_errors)
              false ;;
          ret (validated_df, row_errors, has_errors)
      end
  end.

(** One turn of the conversion loop of [clean_dataframe_for_import]. *)
Definition clean_column (clean_df : ref) (col : string) (rules : config)
  : M heap unit :=
  fr <- read_frame clean_df ;;
  if dict_mem col fr then
    rules <- lift (rules_dict rules) ;;
    let expected_type := dict_get "type" rules in
    if is_type expected_type TyFloat then
      set_column clean_df col (to_numeric (column fr col))
    else if is_type expected_type TyStr then
      set_column clean_df col (astype_str (fillna_empty (column fr col)))
    else ret tt
  else ret tt.

Definition clean_dataframe_for_import (sch : schemas) (table_name : string)
    (df : ref) : M heap ref :=
  match dict_get table_name sch with
  | None => raise (UnknownTable table_name)
  | Some schema =>
      clean_df <- copy df ;;
      let valid_columns := dict_keys schema in
      fr <- read_frame clean_df ;;
      clean_df <- new_frame
                    (filter (fun '(col, _) => str_in col valid_columns) fr) ;;
      for_each schema
        (fun '(col, rules) => clean_column clean_df col rules) ;;;
      ret clean_df
  end.
End ValidateDataframe.

(** ** The record store ([DatabaseManager]) *)

(** A stored cell is a Python value or a timestamp; [Val VNone] is NULL.  As
    a value of a document, [Time t] is the text of the timestamp. *)
Inductive cell :=
| Val (v : value)
| Time (t : Z).

(** A row of [food_consumption]: column name and cell, in column order. *)
Definition row := dict cell.

(** A cell of the column [record_data]: NULL, the document of an object with
    cells for values, which is what [delete_record] writes, or a document
    that is no object. *)
Inductive json :=
| JNull
| JObject (document : row)
| JOther.

(** A row of [deleted_records]; no column of the table is declared NOT
    NULL. *)
Record tombstone := {
  original_id : cell;
  table_name : cell;
  record_data : json;
  deleted_at : cell
}.

Record store := {
  food_consumption : list row;
  deleted_records : list tombstone
}.

(** The statements and the row handling of [DatabaseManager] rely on four
    things that differ between database engines and their drivers. *)
Record engine := {
  rowid_alias : bool;    (* an omitted [INTEGER PRIMARY KEY] is filled in by
                            the engine and [last_insert_rowid()] exists *)
  row_keys : bool;       (* a fetched row has [keys()] *)
  delete_limit : bool;   (* [DELETE ... ORDER BY ... LIMIT] is in the grammar *)
  time_as_text : bool    (* a timestamp is fetched as text *)
}.

(** The engine the module connects to ([duckdb.connect]): a primary key has
    no default unless one is declared, [last_insert_rowid] is not among its
    functions, [fetchone()] gives a tuple, [DELETE] takes neither [ORDER BY]
    nor [LIMIT], and a timestamp is fetched as a [datetime] object. *)
Definition duckdb : engine :=
  {| rowid_alias := false; row_keys := false;
     delete_limit := false; time_as_text := false |}.

(** An engine on which every construct used by the module is available. *)
Definition rowid_engine : engine :=
  {| rowid_alias := true; row_keys := true;
     delete_limit := true; time_as_text := true |}.

(** The column types of [_initialize_db]. *)
Inductive sqltype := INTEGER | TEXT | FLOAT | TIMESTAMP.

(** The range of [INTEGER] on DuckDB, 32 bits. *)
Definition in_int32 (z : Z) : bool :=
  ((- 2 ^ 31 <=? z) && (z <? 2 ^ 31))%Z.

(** A parameter of a statement is converted to the type of the column it is
    bound to, or the statement is refused: a number for a [TEXT] column is
    stored as text, a float for a [FLOAT] column in single precision, an
    integer beyond 32 bits is refused.  What a conversion gives, and the
    exception of a refusal, are the engine's.  The laws are what the
    statements here rely on: [None] is NULL in every type, text is stored in
    a [TEXT] column as it is, an integer that an [INTEGER] column takes is
    stored as that integer and one within 32 bits is taken, and the text of a
    timestamp, which a document holds, is stored as that timestamp. *)
Class Casts := {
  cast : sqltype -> cell -> result cell;
  to_json : cell -> result json;          (* a value bound to [record_data] *)
  document_json : row -> result json;     (* the text of [json.dumps] bound to
                                             [record_data] *)
  converts_unused : bool;                 (* the parameters of an UPDATE are
                                             converted also when no row is
                                             updated *)
  cast_null : forall t, cast t (Val VNone) = Ok (Val VNone);
  cast_text : forall s, cast TEXT (Val (VStr s)) = Ok (Val (VStr s));
  cast_integer : forall z c,
    cast INTEGER (Val (VInt z)) = Ok c -> c = Val (VInt z);
  cast_int32 : forall z,
    in_int32 z = true -> cast INTEGER (Val (VInt z)) = Ok (Val (VInt z));
  cast_timestamp : forall t, cast TIMESTAMP (Time t) = Ok (Time t)
}.

(** Columns of [food_consumption], from [_initialize_db]. *)
Definition food_columns : list string :=
  ["id"; "commodity"; "age_group"; "mean_consumption_chronic";
   "mean_consumption_acute"; "percentile_97_chronic"; "percentile_97_acute";
   "notes"; "version"; "created_at"; "updated_at"].

Definition column_type (col : string) : sqltype :=
  if (col =? "id") || (col =? "version") then INTEGER
  else if (col =? "commodity") || (col =? "age_group") || (col =? "notes")
  then TEXT
  else if (col =? "created_at") || (col =? "updated_at") then TIMESTAMP
  else FLOAT.

(** Columns of [deleted_records]. *)
Definition log_columns : list string :=
  ["original_id"; "table_name"; "record_data"; "deleted_at"].

Definition not_null_columns : list string := ["id"; "commodity"; "age_group"].

Definition is_null (c : cell) : bool :=
  match c with
  | Val VNone => true
  | _ => false
  end.

Definition field_of (r : row) (col : string) : cell :=
  match dict_get col r with
  | Some c => c
  | None => Val VNone
  end.

Definition row_id (r : row) : option Z :=
  match field_of r "id" with
  | Val (VInt z) => Some z
  | _ => None
  end.

Definition has_id (record_id : Z) (r : row) : bool :=
  match row_id r with
  | Some z => Z.eqb z record_id
  | None => false
  end.

(** [SELECT * FROM food_consumption WHERE id = ?] then [fetchone()] *)
Definition select_by_id (rows : list row) (record_id : Z) : option row :=
  find (has_id record_id) rows.

(** 1 + the largest id in use. *)
Definition next_rowid (rows : list row) : Z :=
  1 + fold_right (fun r m => match row_id r with
                             | Some z => Z.max z m
                             | None => m
                             end) 0%Z rows.

(** The value a column takes when the statement does not give one. *)
Definition column_default (e : engine) (rows : list row) (now : Z)
    (col : string) : cell :=
  if col =? "id" then
    if rowid_alias e then Val (VInt (next_rowid rows)) else Val VNone
  else if col =? "version" then Val (VInt 1)
  else if (col =? "created_at") || (col =? "updated_at") then Time now
  else Val VNone.

Definition violates_not_null (r : row) : bool :=
  existsb (fun col => is_null (field_of r col)) not_null_columns.

(** The parameters of a statement as Python passes them; [None] is NULL. *)
Definition bind_values (record_data : record) : row :=
  map (fun '(k, v) => (k, Val v)) record_data.

Fixpoint ids_unique (rows : list row) : bool :=
  match rows with
  | [] => true
  | r :: rest =>
      match row_id r with
      | Some z => negb (existsb (has_id z) rest) && ids_unique rest
      | None => false
      end
  end.

Definition assign (assignments : row) (r : row) : row :=
  fold_left (fun r '(col, c) => dict_set col c r) assignments r.

(** [current_version + 1]; the column is [INTEGER], so the cell is an
    integer or NULL. *)
Definition successor (current_version : cell) : result cell :=
  match current_version with
  | Val (VInt v) => Ok (Val (VInt (v + 1)))
  | _ => Raise TypeError
  end.

(** [record.keys()] *)
Definition keys_of (e : engine) (r : row) : result (list string) :=
  if row_keys e then Ok (dict_keys r)
  else Raise AttributeError.                    (* a tuple has no keys() *)

(** [json.dumps(...)]: a [datetime] object is not serialisable. *)
Definition json_dumps (e : engine) (r : row) : result row :=
  if time_as_text e
     || forallb (fun '(_, c) => match c with Time _ => false | _ => true end) r
  then Ok r
  else Raise TypeError.

(** [json.loads(deleted_record[0])] and the [keys()] of what it gives. *)
Definition json_loads (j : json) : result row :=
  match j with
  | JObject document => Ok document
  | JNull => Raise TypeError               (* json.loads(None) *)
  | JOther => Raise AttributeError         (* no keys() *)
  end.

Definition matches (id : Z) (tbl : string) (t : tombstone) : bool :=
  match original_id t, table_name t with
  | Val (VInt z), Val (VStr name) => Z.eqb z id && (name =? tbl)
  | _, _ => false
  end.

(** The time of a deletion; NULL gives none. *)
Definition time_of (c : cell) : option Z :=
  match c with
  | Time t => Some t
  | _ => None
  end.

(** [ORDER BY deleted_at DESC]: the second time goes before the first; NULL
    goes last. *)
Definition goes_before (first second : option Z) : bool :=
  match first, second with
  | Some a, Some b => (a <? b)%Z
  | None, Some _ => true
  | _, None => false
  end.

(** Position of the row that [WHERE original_id = ? AND table_name = ?
    ORDER BY deleted_at DESC LIMIT 1] selects; among rows deleted at the same
    instant the one stored first is taken. *)
Fixpoint latest_from (id : Z) (tbl : string) (i : nat) (ts : list tombstone)
    (best : option (nat * option Z)) : option (nat * option Z) :=
  match ts with
  | [] => best
  | t :: rest =>
      let best' :=
        if matches id tbl t then
          match best with
          | Some (_, at_) =>
              if goes_before at_ (time_of (deleted_at t))
              then Some (i, time_of (deleted_at t)) else best
          | None => Some (i, time_of (deleted_at t))
          end
        else best in
      latest_from id tbl (S i) rest best'
  end.

Definition latest (id : Z) (tbl : string) (ts : list tombstone) : option nat :=
  match latest_from id tbl 0 ts None with
  | Some (i, _) => Some i
  | None => None
  end.

Fixpoint remove_nth {A} (n : nat) (l : list A) : list A :=
  match l, n with
  | [], _ => []
  | _ :: l', O => l'
  | x :: l', S n' => x :: remove_nth n' l'
  end.

(** [current[name]] on a fetched row; a tuple takes integer indices only. *)
Definition subscript (e : engine) (r : row) (name : string) : result cell :=
  if row_keys e then
    match dict_get name r with
    | Some c => Ok c
    | None => Raise IndexError
    end
  else Raise TypeError.

(** What [SELECT * FROM table] gives; the columns are those of the table. *)
Inductive contents :=
| FoodRows (rows : list row)
| DeletedRows (ts : list tombstone).

(** [row.to_dict()] for row [i] of [df.iterrows()]: column name to the cell
    of the row, a later column of the same name replacing the value. *)
Definition row_to_dict (df : frame) (i : nat) : record :=
  fold_left (fun d '(col, cells) => dict_set col (nth i cells VNone) d) df [].

(** The columns kept by the filter of [import_csv_data]. *)
Definition import_columns : list string :=
  ["commodity"; "age_group"; "mean_consumption_chronic";
   "mean_consumption_acute"; "percentile_97_chronic"; "percentile_97_acute";
   "notes"].

Local Open Scope py_scope.

Definition get_record_by_id (tbl : string) (record_id : Z)
  : M store (option row) :=
  st <- get_state ;;
  if tbl =? "food_consumption"
  then ret (select_by_id (food_consumption st) record_id)
  else if tbl =? "deleted_records" then raise BinderError (* no column id *)
  else raise CatalogError.

(** [SELECT last_insert_rowid()] then [fetchone()[0]]; at its one call site
    the statement follows an insertion, whose row is the last of the table. *)
Definition last_insert_rowid (e : engine) : M store Z :=
  st <- get_state ;;
  if rowid_alias e then
    match row_id (last (food_consumption st) []) with
    | Some z => ret z
    | None => ret 0%Z
    end
  else raise CatalogError.

(** First statement of [update_record]:
    [SELECT version ... WHERE id = ?], [fetchone()[0]]. *)
Definition read_version (record_id : Z) : M store cell :=
  st <- get_state ;;
  match select_by_id (food_consumption st) record_id with
  | None => raise TypeError                     (* None[0] *)
  | Some r => ret (field_of r "version")
  end.

Definition get_all_records (tbl : string) : M store contents :=
  st <- get_state ;;
  if tbl =? "food_consumption" then ret (FoodRows (food_consumption st))
  else if tbl =? "deleted_records" then ret (DeletedRows (deleted_records st))
  else raise CatalogError.

(** The list holds the one pair of version and time of update. *)
Definition get_versions (e : engine) (tbl : string) (record_id : Z)
  : M store (list (cell * cell)) :=
  current <- get_record_by_id tbl record_id ;;
  match current with
  | Some r =>
      version <- lift (subscript e r "version") ;;
      updated_at <- lift (subscript e r "updated_at") ;;
      ret [(version, updated_at)]
  | None => ret []
  end.

Section Statements.
Context {K : Casts}.

(** The parameters of a statement on [food_consumption], each converted to
    the type of its column. *)
Fixpoint convert (given : row) : result row :=
  match given with
  | [] => Ok []
  | (col, c) :: rest =>
      match cast (column_type col) c with
      | Ok c' =>
          match convert rest with
          | Ok rest' => Ok ((col, c') :: rest')
          | Raise ex => Raise ex
          end
      | Raise ex => Raise ex
      end
  end.

(** [INSERT INTO food_consumption (columns) VALUES (values)]: the statement
    is parsed and bound, the values are converted, and the row is checked
    against the constraints of the table. *)
Definition insert_food (e : engine) (given : row) (now : Z) : M store unit :=
  st <- get_state ;;
  let rows := food_consumption st in
  match given with
  | [] => raise ParserError                             (* [()] *)
  | _ =>
      if negb (forallb (fun col => str_in col food_columns) (dict_keys given))
      then raise BinderError
      else
        given <- lift (convert given) ;;
        let given :=
          if rowid_alias e && is_null (field_of given "id")
          then filter (fun '(col, _) => negb (col =? "id")) given
          else given in
        let r := map (fun col =>
                        (col, match dict_get col given with
                              | Some c => c
                              | None => column_default e rows now col
                              end)) food_columns in
        if violates_not_null r then raise ConstraintError
        else
          match row_id r with
          | None => raise ConversionError
          | Some z =>
              if existsb (has_id z) rows then raise ConstraintError
              else put_state {| food_consumption := rows ++ [r];
                                deleted_records := deleted_records st |}
          end
  end.

(** The value of a column of [deleted_records]: the converted parameter, or
    the default of the column when the statement does not name it. *)
Definition given_or {A} (given : row) (col : string)
    (conversion : cell -> result A) (default : A) : result A :=
  match dict_get col given with
  | Some c => conversion c
  | None => Ok default
  end.

(** [INSERT INTO deleted_records (columns) VALUES (values)] *)
Definition insert_log (given : row) (now : Z) : M store unit :=
  st <- get_state ;;
  match given with
  | [] => raise ParserError                             (* [()] *)
  | _ =>
      if negb (forallb (fun col => str_in col log_columns) (dict_keys given))
      then raise BinderError
      else
        id <- lift (given_or given "original_id" (cast INTEGER) (Val VNone)) ;;
        name <- lift (given_or given "table_name" (cast TEXT) (Val VNone)) ;;
        data <- lift (given_or given "record_data" to_json JNull) ;;
        at_ <- lift (given_or given "deleted_at" (cast TIMESTAMP) (Time now)) ;;
        put_state {| food_consumption := food_consumption st;
                     deleted_records :=
                       deleted_records st ++
                       [{| original_id := id; table_name := name;
                           record_data := data; deleted_at := at_ |}] |}
  end.

(** [INSERT INTO {table_name} (columns) VALUES (values)] *)
Definition insert_into (e : engine) (tbl : string) (given : row) (now : Z)
  : M store unit :=
  if tbl =? "food_consumption" then insert_food e given now
  else if tbl =? "deleted_records" then insert_log given now
  else
    match given with
    | [] => raise ParserError                           (* [()] *)
    | _ => raise CatalogError
    end.

(** The result is [None] when the function falls off its end. *)
Definition add_record (e : engine) (tbl : string) (record_data : record)
    (now : Z) : M store (option Z) :=
  if tbl =? "food_consumption" then
    insert_food e (bind_values record_data) now ;;;
    new_id <- last_insert_rowid e ;;
    ret (Some new_id)
  else ret None.

(** Second statement of [update_record]:
    [UPDATE food_consumption SET ..., version = ?, updated_at =
    CURRENT_TIMESTAMP WHERE id = ?]. *)
Definition write_update (record_id : Z) (record_data : record)
    (current_version : cell) (now : Z) : M store unit :=
  next <- lift (successor current_version) ;;
  st <- get_state ;;
  match record_data with
  | [] => raise ParserError                     (* [SET , version = ?] *)
  | _ =>
      let parameters := bind_values record_data ++ [("version", next)] in
      let columns := dict_keys parameters ++ ["updated_at"] in
      if negb (forallb (fun col => str_in col food_columns) columns)
         || negb (unique_keys columns)
      then raise BinderError
      else if converts_unused
              || existsb (has_id record_id) (food_consumption st)
      then
        converted <- lift (convert parameters) ;;
        let assignments := converted ++ [("updated_at", Time now)] in
        let rows :=
          map (fun r => if has_id record_id r then assign assignments r else r)
            (food_consumption st) in
        if existsb violates_not_null rows || negb (ids_unique rows)
        then raise ConstraintError
        else put_state {| food_consumption := rows;
                          deleted_records := deleted_records st |}
      else ret tt
  end.

Definition update_record (tbl : string) (record_id : Z)
    (record_data : record) (now : Z) : M store unit :=
  if tbl =? "food_consumption" then
    current_version <- read_version record_id ;;
    write_update record_id record_data current_version now
  else ret tt.

Definition delete_record (e : engine) (tbl : string) (record_id : Z)
    (now : Z) : M store bool :=
  found <- get_record_by_id tbl record_id ;;
  match found with
  | Some r =>
      keys <- lift (keys_of e r) ;;
      record_json <- lift (json_dumps e (combine keys (map snd r))) ;;
      id <- lift (cast INTEGER (Val (VInt record_id))) ;;
      name <- lift (cast TEXT (Val (VStr tbl))) ;;
      data <- lift (document_json record_json) ;;
      st <- get_state ;;
      put_state {| food_consumption := food_consumption st;
                   deleted_records :=
                     deleted_records st ++
                     [{| original_id := id; table_name := name;
                         record_data := data; deleted_at := Time now |}] |} ;;;
      st <- get_state ;;
      put_state {| food_consumption :=
                     filter (fun r => negb (has_id record_id r))
                       (food_consumption st);
                   deleted_records := deleted_records st |} ;;;
      ret true
  | None => ret false
  end.

Definition undo_delete (e : engine) (id : Z) (tbl : string) (now : Z)
  : M store bool :=
  st <- get_state ;;
  match latest id tbl (deleted_records st) with
  | Some i =>
      match nth_error (deleted_records st) i with
      | Some t =>
          record_data <- lift (json_loads (record_data t)) ;;
          insert_into e tbl record_data now ;;;
          st <- get_state ;;
          if delete_limit e then
            put_state {| food_consumption := food_consumption st;
                         deleted_records :=
                           match latest id tbl (deleted_records st) with
                           | Some j => remove_nth j (deleted_records st)
                           | None => deleted_records st
                           end |} ;;;
            ret true
          else raise ParserError
      | None => ret false
      end
  | None => ret false
  end.

(** The second loop of [import_csv_data], over the row numbers [rows];
    [clock i] is the time at which row [i] is inserted. *)
Definition import_rows (e : engine) (tbl : string) (df : frame)
    (clock : nat -> Z) (rows : list nat) : M store unit :=
  for_each rows
    (fun i =>
       let record_data :=
         filter (fun '(k, _) => str_in k import_columns) (row_to_dict df i) in
       add_record e tbl record_data (clock i) ;;; ret tt).

Definition import_csv_data (e : engine) (tbl : string) (df : frame)
    (clock : nat -> Z) : M store bool :=
  if tbl =? "food_consumption" then
    for_each ["commodity"; "age_group"]
      (fun col => if dict_mem col df then ret tt
                  else raise (MissingCsvColumn col)) ;;;
    import_rows e tbl df clock (seq 0 (frame_len df)) ;;;
    ret true
  else ret false.
End Statements.

(** ** [format_validation_message] ([components/utils.py]) *)

(** [str(n)] for a natural number. *)
Definition str_nat (n : nat) : string := NilZero.string_of_uint (Nat.to_uint n).

Definition valid_message : string :=
  "<div class='alert alert-success'>Data is valid.</div>".

(** [1 for errors in validation_errors if errors], summed. *)
Definition count_errors (validation_errors : list (dict string)) : nat :=
  length (filter (fun errors => match errors with [] => false | _ => true end)
            validation_errors).

(** The text of one list item: the row number and its messages. *)
Definition row_item (i : nat) (errors : dict string) : string :=
  String.append "<li>Row "
    (String.append (str_nat (i + 1))
       (String.append ": "
          (String.append
             (String.concat ", "
                (map (fun '(field, error) =>
                        String.append field (String.append ": " error))
                   errors))
             "</li>"))).

(** The loop over [enumerate(validation_errors)], carrying [message] and
    [error_shown]. *)
Fixpoint show_rows (rows : list (nat * dict string)) (message : string)
    (error_shown : nat) : string * nat :=
  match rows with
  | [] => (message, error_shown)
  | (i, errors) :: rest =>
      match errors with
      | _ :: _ =>
          if (error_shown <? 5)%nat
          then show_rows rest (String.append message (row_item i errors))
                 (error_shown + 1)
          else show_rows rest message error_shown
      | [] => show_rows rest message error_shown
      end
  end.

Definition format_validation_message (validation_errors : list (dict string))
  : string :=
  match validation_errors with
  | [] => valid_message
  | _ =>
      let error_count := count_errors validation_errors in
      if (error_count =? 0)%nat then valid_message
      else
        let message :=
          String.append "<div class='alert alert-danger'><strong>"
            (String.append (str_nat error_count)
               " validation errors found:</strong><ul>") in
        let '(message, error_shown) :=
          show_rows (enumerate validation_errors) message 0 in
        let message :=
          if (error_shown <? error_count)%nat
          then String.append message
                 (String.append "<li>...and "
                    (String.append (str_nat (error_count - error_shown))
                       " more errors</li>"))
          else message in
        String.append message "</ul></div>"
  end.

(** ** The entry form and the bulk import ([components/data_entry.py]) *)

(** What the handlers put in [validation_messages]. *)
Inductive notice :=
| ValidationErrors (errs : errors)   (* the list of messages *)
| RecordAdded                        (* "Record added successfully!" *)
| AddFailed (e : exn)                (* "Error adding record: ..." *)
| PreviewWarnings                    (* "Some data may need correction" *)
| PreviewValid                       (* "Data validated successfully" *)
| PreviewFailed (e : exn)            (* "Validation error: ..." *)
| NothingToImport                    (* "No data to import" *)
| ImportBlocked                      (* "Cannot import data with validation errors" *)
| Imported (n : nat)                 (* "Successfully imported n records!" *)
| ImportRefused                      (* "Failed to import data." *)
| ImportFailed (e : exn).            (* "Error importing data: ..." *)

(** The values of the seven inputs of the form. *)
Record form := {
  in_commodity : value;
  in_age_group : value;
  in_mean_consumption_chronic : value;
  in_mean_consumption_acute : value;
  in_percentile_97_chronic : value;
  in_percentile_97_acute : value;
  in_notes : value
}.

Definition form_record (f : form) : record :=
  [("commodity", in_commodity f);
   ("age_group", in_age_group f);
   ("mean_consumption_chronic", in_mean_consumption_chronic f);
   ("mean_consumption_acute", in_mean_consumption_acute f);
   ("percentile_97_chronic", in_percentile_97_chronic f);
   ("percentile_97_acute", in_percentile_97_acute f);
   ("notes", in_notes f)].

Section Handlers.
Context {B : Builtins} {K : Casts}.

(** [handle_add_record]: the record is validated, and coerced, in place and
    then handed to the store; an exception of the store is caught and shown,
    an exception of the validator is not caught. *)
Definition handle_add_record (e : engine) (sch : schemas) (f : form) (now : Z)
  : M store notice :=
  fun st =>
    match validate_record sch "food_consumption" (form_record f) with
    | (Raise ex, _) => (Raise ex, st)
    | (Ok errs, coerced) =>
        match errs with
        | _ :: _ => (Ok (ValidationErrors errs), st)
        | [] =>
            match add_record e "food_consumption" coerced now st with
            | (Ok _, st') => (Ok RecordAdded, st')
            | (Raise ex, st') => (Ok (AddFailed ex), st')
            end
        end
    end.

(** The reactive values of the module, the heap of frames and dictionaries
    they refer to, and the store. *)
Record session := {
  objects : heap;
  database : store;
  preview_data : ref;
  validation_errors : list ref
}.

(** [df.empty]: no column or no row. *)
Definition frame_empty (fr : frame) : bool :=
  match fr with
  | [] => true
  | _ => (frame_len fr =? 0)%nat
  end.

(** [preview_csv_data] from the point where the text has been parsed into
    the frame [df]. *)
Definition preview_csv_data (sch : schemas) (df : ref) : M session notice :=
  fun s =>
    match validate_dataframe sch "food_consumption" df (objects s) with
    | (Ok (validated_df, row_errors, has_errors), h) =>
        (Ok (if has_errors : bool then PreviewWarnings else PreviewValid),
         {| objects := h; database := database s;
            preview_data := validated_df;
            validation_errors := row_errors |})
    | (Raise ex, h) =>
        (Ok (PreviewFailed ex),
         {| objects := h; database := database s;
            preview_data := preview_data s;
            validation_errors := validation_errors s |})
    end.

(** [any(errors for errors in validation_errors() if errors)] *)
Definition any_errors (h : heap) (row_errors : list ref) : bool :=
  existsb (fun d => match dict_at h d with [] => false | _ => true end)
    row_errors.

(** The handler [import_csv_data] of the module. *)
Definition handle_import (e : engine) (sch : schemas) (clock : nat -> Z)
  : M session notice :=
  fun s =>
    if frame_empty (frame_at (objects s) (preview_data s))
    then (Ok NothingToImport, s)
    else if any_errors (objects s) (validation_errors s)
    then (Ok ImportBlocked, s)
    else
      match clean_dataframe_for_import sch "food_consumption"
              (preview_data s) (objects s) with
      | (Raise ex, h) =>
          (Ok (ImportFailed ex),
           {| objects := h; database := database s;
              preview_data := preview_data s;
              validation_errors := validation_errors s |})
      | (Ok clean_df, h) =>
          match import_csv_data e "food_consumption" (frame_at h clean_df)
                  clock (database s) with
          | (Raise ex, st) =>
              (Ok (ImportFailed ex),
               {| objects := h; database := st;
                  preview_data := preview_data s;
                  validation_errors := validation_errors s |})
          | (Ok true, st) =>
              match new_frame [] h with
              | (_, h') =>
                  (Ok (Imported (frame_len (frame_at h clean_df))),
                   {| objects := h'; database := st;
                      preview_data := length (frames h);
                      validation_errors := validation_errors s |})
              end
          | (Ok false, st) =>
              (Ok ImportRefused,
               {| objects := h; database := st;
                  preview_data := preview_data s;
                  validation_errors := validation_errors s |})
          end
      end.
End Handlers.


(** * Notions used in the statements *)

(** The type names that the loader converts. *)
Definition known_type_name (type_str : string) : bool :=
  match convert_type_name type_str with
  | Some _ => true
  | None => false
  end.

(** What [is_missing] looks at. *)
Definition missing_value (ov : option value) : bool :=
  match ov with
  | None => true
  | Some VNone => true
  | Some (VStr s) => s =? ""
  | Some _ => false
  end.

(** The outcome of [check_bounds] as a function of the value at [field]. *)
Definition bounds_outcome (field : string) (rules : dict config)
    (et : option config) (errs : errors) (v : value) : result errors :=
  if (is_type et TyInt || is_type et TyFloat) && is_number v then
    match (match dict_get "min" rules with
           | Some bound =>
               match py_lt v bound with
               | Ok below =>
                   Ok (if below then dict_set field (AtLeast field bound) errs
                       else errs)
               | Raise e => Raise e
               end
           | None => Ok errs
           end) with
    | Ok errs1 =>
        match dict_get "max" rules with
        | Some bound =>
            match py_gt v bound with
            | Ok above =>
                Ok (if above then dict_set field (AtMost field bound) errs1
                    else errs1)
            | Raise e => Raise e
            end
        | None => Ok errs1
        end
    | Raise e => Raise e
    end
  else Ok errs.

(** [m] does not touch the first [n] frame objects, and frees none. *)
Definition keeps_frames {A} (n : nat) (m : M heap A) : Prop :=
  forall h res h',
    m h = (res, h') -> (n <= length (frames h))%nat ->
    firstn n (frames h') = firstn n (frames h) /\
    (length (frames h) <= length (frames h'))%nat.

(** [m] keeps the frames below [n] and returns a reference that is not
    below [n]. *)
Definition fresh_ref (n : nat) (m : M heap ref) : Prop :=
  keeps_frames n m /\
  forall h c h',
    m h = (Ok c, h') -> (n <= length (frames h))%nat -> (n <= c)%nat.

Definition is_mapping (rules : config) : bool :=
  match rules with
  | CMap _ => true
  | _ => false
  end.

(** Numeric, as [validate_record] uses the word: the declared type is [int]
    or [float] ([expected_type in (int, float)]). *)
Definition numeric_type (rules : dict config) : bool :=
  is_type (dict_get "type" rules) TyInt
  || is_type (dict_get "type" rules) TyFloat.

Definition is_text (v : value) : bool :=
  match v with
  | VStr _ => true
  | _ => false
  end.

Section CleanNotions.
Context {B : Builtins}.

(** The cells that the conversion loop of [clean_dataframe_for_import]
    leaves in a column with rules [rules]. *)
Definition cleaned (rules : dict config) (cells : list value) : list value :=
  if is_type (dict_get "type" rules) TyFloat then to_numeric cells
  else if is_type (dict_get "type" rules) TyStr
       then astype_str (fillna_empty cells)
  else cells.

(** The conversion loop on the frame itself. *)
Fixpoint clean_frame (schema : table_schema) (fr : frame) : frame :=
  match schema with
  | [] => fr
  | (col, CMap rules) :: rest =>
      clean_frame rest
        (if dict_mem col fr
         then dict_set col (cleaned rules (column fr col)) fr
         else fr)
  | _ :: rest => clean_frame rest fr
  end.
End CleanNotions.

Definition with_frame (h : heap) (df : ref) (fr : frame) : heap :=
  {| frames := replace_nth df fr (frames h); dicts := dicts h |}.

(** The version stored for a record, when the record is in the table. *)
Definition version_of (st : store) (record_id : Z) : option cell :=
  option_map (fun r => field_of r "version")
    (select_by_id (food_consumption st) record_id).

(** The row that an UPDATE statement with the converted parameters
    [converted] writes. *)
Definition updated (converted : row) (now : Z) (r : row) : row :=
  assign (converted ++ [("updated_at", Time now)]) r.

(** The parameters of the UPDATE statement of [update_record]. *)
Definition update_parameters (record_data : record) (n : Z) : row :=
  bind_values record_data ++ [("version", Val (VInt (n + 1)))].

(** A parameter that every engine stores as it is in the column [col]:
    NULL, text in a [TEXT] column, an integer within 32 bits in an [INTEGER]
    column, the text of a timestamp in a [TIMESTAMP] column. *)
Definition stored_as_given (col : string) (c : cell) : bool :=
  match c, column_type col with
  | Val VNone, _ => true
  | Val (VInt z), INTEGER => in_int32 z
  | Val (VStr _), TEXT => true
  | Time _, TIMESTAMP => true
  | _, _ => false
  end.

(** The exception with which DuckDB refuses the INSERT of a record that
    gives no [id]: that of the first value it does not convert, and the
    violated constraint when it converts them all. *)
Definition refusal {K : Casts} (record_data : record) : exn :=
  match convert (bind_values record_data) with
  | Ok _ => ConstraintError
  | Raise ex => ex
  end.

(** ** Data of the examples *)

(** A host for the examples: numerals are signed decimal integers, an
    integer converts to the nearest double, [str] converts an integer of up
    to 4300 digits, a float prints as its numerator, a slash and its
    denominator, and [astype(str)] is that of pandas 2. *)
Definition read_integer (s : string) : option Z :=
  option_map Z.of_int (NilZero.int_of_string s).

(** The double nearest to an integer, ties to even; [None] beyond the range
    of doubles. *)
Definition nearest_double (z : Z) : option pyfloat :=
  let a := Z.abs z in
  let n := Z.log2 a in
  let rounded :=
    if (n <? 53)%Z then a
    else
      let shift := (n - 52)%Z in
      let q := Z.shiftr a shift in
      let rest := (a - Z.shiftl q shift)%Z in
      let half := Z.shiftl 1 (shift - 1) in
      let q' := if (half <? rest)%Z || ((rest =? half)%Z && Z.odd q)
                then (q + 1)%Z else q in
      Z.shiftl q' shift in
  if (2 ^ 1024 <=? rounded)%Z then None
  else Some (FFin (inject_Z (Z.sgn z * rounded))).

(** [float(text)] for a decimal integer: beyond the range the result is an
    infinity. *)
Definition read_float (s : string) : option pyfloat :=
  match read_integer s with
  | Some z =>
      Some (match nearest_double z with
            | Some f => f
            | None => FInf (z <? 0)%Z
            end)
  | None => None
  end.

Definition print_float (f : pyfloat) : string :=
  match f with
  | FNaN => "nan"
  | FInf negative => if negative then "-inf" else "inf"
  | FFin q =>
      String.append (NilZero.string_of_int (Z.to_int (Qnum q)))
        (String "/" (NilZero.string_of_uint (Pos.to_uint (Qden q))))
  end.

#[export] Instance example_builtins : Builtins := {|
  float_of_int := nearest_double;
  parse_float := read_float;
  parse_int := read_integer;
  to_numeric_text := read_float;
  str_float := print_float;
  int_has_text := fun z => (Z.abs z <? 10 ^ 4300)%Z;
  str_float_nonempty :=
    ltac:(intros [|[|]|q]; simpl; try discriminate;
          destruct (NilZero.string_of_int (Z.to_int (Qnum q))); discriminate);
  str_keeps_missing := false
|}.

(** An engine for the examples: a value of the type of its column is stored
    as it is, an integer when it is within 32 bits, and every other value is
    refused; a document is stored as it is. *)
Definition example_cast (t : sqltype) (c : cell) : result cell :=
  match t, c with
  | _, Val VNone => Ok c
  | INTEGER, Val (VInt z) => if in_int32 z then Ok c else Raise ConversionError
  | TEXT, Val (VStr _) => Ok c
  | FLOAT, Val (VFloat _) => Ok c
  | TIMESTAMP, Time _ => Ok c
  | _, _ => Raise ConversionError
  end.

#[export] Instance example_casts : Casts := {|
  cast := example_cast;
  to_json := fun c => match c with
                      | Val VNone => Ok JNull
                      | _ => Raise ConversionError
                      end;
  document_json := fun document => Ok (JObject document);
  converts_unused := false;
  cast_null := ltac:(intros []; reflexivity);
  cast_text := ltac:(reflexivity);
  cast_integer :=
    ltac:(intros z c; unfold example_cast; destruct (in_int32 z);
          intros H; [now injection H as <-|discriminate H]);
  cast_int32 := ltac:(intros z H; unfold example_cast; now rewrite H);
  cast_timestamp := ltac:(reflexivity)
|}.

(** A schema file that exists, parses, and gives one rule the type name
    [decimal]. *)
Definition decimal_source : source :=
  {| src_exists := true;
     src_ext := ".yaml";
     src_load :=
       Ok (CMap [("food_consumption",
                  CMap [("commodity",
                         CMap [("type", CVal (VStr "decimal"));
                               ("required", CVal (VBool true))])])]) |}.

(** A file with an extension that the loader does not read. *)
Definition text_source : source :=
  {| src_exists := true; src_ext := ".txt"; src_load := Ok (CVal VNone) |}.

Definition food_schema : table_schema :=
  [("commodity", str_rule true);
   ("age_group", str_rule true);
   ("mean_consumption_chronic", float_rule_min0);
   ("mean_consumption_acute", float_rule_min0);
   ("percentile_97_chronic", float_rule_min0);
   ("percentile_97_acute", float_rule_min0);
   ("notes", str_rule false)].

(** A record as the entry form supplies it, and the same record after
    validation. *)
Definition entered : record :=
  [("commodity", VStr "Almonds"); ("age_group", VInt 7);
   ("mean_consumption_chronic", VStr "3"); ("notes", VNone)].

Definition entered_coerced : record :=
  [("commodity", VStr "Almonds"); ("age_group", VStr "7");
   ("mean_consumption_chronic", VFloat (FFin (inject_Z 3))); ("notes", VNone)].

(** Three rows: the first lacks the commodity, the second has a negative
    consumption, the third is in order. *)
Definition three_rows : frame :=
  [("commodity", [VStr ""; VStr "Rice"; VStr "Almonds"]);
   ("age_group", [VStr "Adults"; VStr "Adults"; VStr "Adults"]);
   ("mean_consumption_chronic", [VInt 1; VInt (-5); VInt 2])].

Definition three_rows_heap : heap := {| frames := [three_rows]; dicts := [] |}.

(** A batch with a column that the schema does not know. *)
Definition upload : frame :=
  [("commodity", [VStr "Almonds"; VNone]);
   ("source", [VStr "survey"; VStr "survey"]);
   ("age_group", [VStr "Adults"; VInt 7]);
   ("mean_consumption_chronic", [VStr "3"; VStr "n/a"])].

Definition upload_heap : heap := {| frames := [upload]; dicts := [] |}.

(** A table with a column declared [integer]. *)
Definition stock_schemas : schemas :=
  [("stock", [("count", CMap [("type", CType TyInt)])])].

Definition stock_heap : heap :=
  {| frames := [[("count", [VStr "abc"; VInt 3])]]; dicts := [] |}.

Definition almonds : record :=
  [("commodity", VStr "Almonds"); ("age_group", VStr "Adults")].

Definition empty_store : store :=
  {| food_consumption := []; deleted_records := [] |}.

Definition almonds_row (version : Z) : row :=
  [("id", Val (VInt 1)); ("commodity", Val (VStr "Almonds"));
   ("age_group", Val (VStr "Adults"));
   ("mean_consumption_chronic", Val VNone);
   ("mean_consumption_acute", Val VNone);
   ("percentile_97_chronic", Val VNone);
   ("percentile_97_acute", Val VNone);
   ("notes", Val VNone); ("version", Val (VInt version));
   ("created_at", Time 100); ("updated_at", Time 100)].

Definition one_record : store :=
  {| food_consumption := [almonds_row 1]; deleted_records := [] |}.

Definition tomb (version at_ : Z) : tombstone :=
  {| original_id := Val (VInt 1); table_name := Val (VStr "food_consumption");
     record_data := JObject (almonds_row version); deleted_at := Time at_ |}.

(** The record was deleted at 200 with version 1, and again at 400 with
    version 2. *)
Definition two_tombstones : store :=
  {| food_consumption := []; deleted_records := [tomb 1 200; tomb 2 400] |}.

Definition restored_latest : store :=
  {| food_consumption := [almonds_row 2];
     deleted_records := [tomb 1 200; tomb 2 400] |}.

(** ** Definitions used in the statements about the rest of the code *)


(** Column names of a frame, each with the number of its cells. *)
Definition shape (fr : frame) : list (string * nat) :=
  map (fun '(col, cells) => (col, length cells)) fr.

Definition is_required_message (msg : message) : bool :=
  match msg with
  | IsRequired _ => true
  | _ => false
  end.

(** What the column loop of [validate_dataframe] keeps true: the copy has
    the shape [sh], the dictionary [d] exists, holds no "is required"
    message, is written only when there are rows, and is empty exactly as
    long as the flag is down. *)
Definition batch_invariant (vdf d : ref) (sh : list (string * nat)) (n : nat)
    (has_errors : bool) (h : heap) : Prop :=
  shape (frame_at h vdf) = sh /\
  (vdf < length (frames h))%nat /\
  (d < length (dicts h))%nat /\
  (has_errors = true <-> dict_at h d <> []) /\
  (dict_at h d <> [] -> (0 < n)%nat) /\
  forallb (fun '(_, msg) => negb (is_required_message msg)) (dict_at h d) = true.


(** The cells of a column meet the rules of the column, as far as
    [validate_dataframe] tests them: a float column holds numbers, none
    missing when it is required and none outside its bounds; a text column
    holds text, which is neither empty nor blank when it is required, and,
    where [astype(str)] keeps missing values, an optional text column may
    hold them. *)
Definition column_in_order {B : Builtins} (rules : dict config)
    (cells : list value) : Prop :=
  if is_type (dict_get "type" rules) TyFloat then
    (forall v, In v cells -> is_number v = true) /\
    (is_required rules = true -> forall v, In v cells -> isna v = false) /\
    (forall lo v, dict_get "min" rules = Some lo -> In v cells ->
                  isna v = false -> py_lt v lo = Ok false) /\
    (forall hi v, dict_get "max" rules = Some hi -> In v cells ->
                  isna v = false -> py_gt v hi = Ok false)
  else if is_type (dict_get "type" rules) TyStr then
    forall v, In v cells ->
      (exists s, v = VStr s /\
                 (is_required rules = true -> s <> "" /\ isspace s = false)) \/
      (str_keeps_missing = true /\ is_required rules = false /\
       v = VFloat FNaN)
  else True.


(** The dictionary [import_csv_data] passes to [add_record] for row [i]. *)
Definition import_record (df : frame) (i : nat) : record :=
  filter (fun '(k, _) => str_in k import_columns) (row_to_dict df i).


(** [if errors]: the mapping of a row holds a message. *)
Definition has_messages (errors : dict string) : bool :=
  match errors with
  | [] => false
  | _ => true
  end.

(** The list items of the first five rows that have messages. *)
Definition shown_items (validation_errors : list (dict string)) : list string :=
  map (fun '(i, errors) => row_item i errors)
    (firstn 5 (filter (fun '(_, errors) => has_messages errors)
                 (enumerate validation_errors))).

Definition join (parts : list string) : string :=
  fold_right String.append "" parts.

(** The rules object of the document and the one of the loaded schema: the
    same keys in the same order and the same entries, but for [type], which
    holds the type object when the document names a type the loader knows,
    and the text of the document when it names another. *)
Definition same_but_type (rules processed : config) : Prop :=
  match rules, processed with
  | CMap m, CMap m' =>
      dict_keys m' = dict_keys m /\
      (forall k, k <> "type" -> dict_get k m' = dict_get k m) /\
      dict_get "type" m'
      = match dict_get "type" m with
        | Some (CVal (VStr t)) =>
            match convert_type_name (lower t) with
            | Some ty => Some ty
            | None => Some (CVal (VStr t))
            end
        | other => other
        end
  | CList l, CList l' => l' = l
  | _, _ => False
  end.

(** A document with two tables. *)
Definition two_tables : list (string * config) :=
  [("food_consumption",
    CMap [("commodity", CMap [("type", CVal (VStr "String"));
                              ("required", CVal (VBool true))]);
          ("mean_consumption_chronic",
           CMap [("type", CVal (VStr "float")); ("min", CVal (VInt 0))])]);
   ("stock", CMap [("count", CMap [("type", CVal (VStr "integer"))])])].

(** A record with a field the schema does not have. *)
Definition entered_with_source : record := ("source", VStr "survey") :: entered.

(** A record without age group and with a negative consumption. *)
Definition incomplete : record :=
  [("commodity", VStr "Almonds"); ("mean_consumption_chronic", VStr "-3")].

(** The session in which the three rows have been read for a preview. *)
Definition three_rows_session : session :=
  {| objects := three_rows_heap; database := empty_store;
     preview_data := 0; validation_errors := [] |}.

(** ** The display module ([components/data_display.py]) *)

(** An entry of the list [deleted_records] of the module. *)
Record listed := {
  listed_id : Z;
  listed_commodity : cell;
  listed_age_group : cell
}.

(** The store and the reactive list of deletions. *)
Record display := {
  stored : store;
  deleted : list listed
}.

(** A call of a method of [db] from a handler. *)
Definition on_store {A} (m : M store A) : M display A :=
  fun s =>
    match m (stored s) with
    | (res, st) => (res, {| stored := st; deleted := deleted s |})
    end.

(** What the handlers put in [status_message]. *)
Inductive status :=
| NoStatus                      (* the input is falsy: nothing is done *)
| RecordDeleted                 (* "Record deleted successfully. ..." *)
| DeleteFailed                  (* "Failed to delete record." *)
| RecordRestored                (* "Record restored successfully." *)
| RestoreFailed                 (* "Failed to restore record." *)
| NothingToRestore              (* "No deleted records to restore." *)
| RecordUpdated.                (* "Record updated successfully." *)

Local Open Scope py_scope.

Section Display.
Context {K : Casts}.

(** [{'id': record_id, 'commodity': record['commodity'],
    'age_group': record['age_group']}] *)
Definition list_entry (e : engine) (record_id : Z) (record : option row)
  : result listed :=
  match record with
  | Some r =>
      match subscript e r "commodity" with
      | Ok commodity =>
          match subscript e r "age_group" with
          | Ok age_group =>
              Ok {| listed_id := record_id; listed_commodity := commodity;
                    listed_age_group := age_group |}
          | Raise ex => Raise ex
          end
      | Raise ex => Raise ex
      end
  | None => Raise TypeError                     (* None['commodity'] *)
  end.

(** [handle_delete_record]; a falsy [input.delete_record()] is [None].
    [load_data], called at the end, reads the table into the value that is
    shown and writes neither the database nor the list. *)
Definition handle_delete_record (e : engine) (record_id : option Z) (now : Z)
  : M display status :=
  match record_id with
  | None => ret NoStatus
  | Some record_id =>
      record <- on_store (get_record_by_id "food_consumption" record_id) ;;
      success <- on_store (delete_record e "food_consumption" record_id now) ;;
      if success : bool then
        entry <- lift (list_entry e record_id record) ;;
        s <- get_state ;;
        put_state {| stored := stored s; deleted := deleted s ++ [entry] |} ;;;
        ret RecordDeleted
      else ret DeleteFailed
  end.

(** [handle_undo_delete]: the last entry of the list is the one restored. *)
Definition handle_undo_delete (e : engine) (now : Z) : M display status :=
  s <- get_state ;;
  match deleted s with
  | [] => ret NothingToRestore
  | first :: _ =>
      let record := last (deleted s) first in   (* deleted[-1] *)
      success <-
        on_store (undo_delete e (listed_id record) "food_consumption" now) ;;
      if success : bool then
        s <- get_state ;;
        put_state {| stored := stored s;
                     deleted := removelast (deleted s) |} ;;;  (* deleted.pop() *)
        ret RecordRestored
      else ret RestoreFailed
  end.

(** [save_edited_record]: the seven inputs of the dialog go to
    [update_record] as they are; a falsy [input.edit_record_id()] is
    [None]. *)
Definition save_edited_record (record_id : option Z) (edited : form)
    (now : Z) : M display status :=
  match record_id with
  | None => ret NoStatus
  | Some record_id =>
      on_store (update_record "food_consumption" record_id
                  (form_record edited) now) ;;;
      ret RecordUpdated
  end.
End Display.

(** ** The application *)

(** The two modules work on one database. *)
Record app := {
  entry : session;
  deleted_list : list listed
}.

(** What the user does. *)
Inductive event :=
| AddRecord (f : form) (now : Z)
| PreviewCsv (df : frame)
| ImportCsv (clock : nat -> Z)
| SaveEdit (record_id : option Z) (edited : form) (now : Z)
| DeleteRecord (record_id : option Z) (now : Z)
| UndoDelete (now : Z).

Definition with_database (s : session) (st : store) : session :=
  {| objects := objects s; database := st;
     preview_data := preview_data s;
     validation_errors := validation_errors s |}.

(** A handler of the display module run in the application. *)
Definition in_display {A} (m : M display A) (a : app) : app :=
  match m {| stored := database (entry a); deleted := deleted_list a |} with
  | (_, d) => {| entry := with_database (entry a) (stored d);
                 deleted_list := deleted d |}
  end.

Section Application.
Context {B : Builtins} {K : Casts}.

(** The state after the handler of an event has run.  A handler that raises
    ends there: what it has written by then stays. *)
Definition react (e : engine) (sch : schemas) (a : app) (ev : event) : app :=
  match ev with
  | AddRecord f now =>
      {| entry := with_database (entry a)
                    (snd (handle_add_record e sch f now (database (entry a))));
         deleted_list := deleted_list a |}
  | PreviewCsv df =>
      match new_frame df (objects (entry a)) with
      | (_, h) =>
          {| entry :=
               snd (preview_csv_data sch (length (frames (objects (entry a))))
                      {| objects := h; database := database (entry a);
                         preview_data := preview_data (entry a);
                         validation_errors := validation_errors (entry a) |});
             deleted_list := deleted_list a |}
      end
  | ImportCsv clock =>
      {| entry := snd (handle_import e sch clock (entry a));
         deleted_list := deleted_list a |}
  | SaveEdit record_id edited now =>
      in_display (save_edited_record record_id edited now) a
  | DeleteRecord record_id now =>
      in_display (handle_delete_record e record_id now) a
  | UndoDelete now =>
      in_display (handle_undo_delete e now) a
  end.

Definition run (e : engine) (sch : schemas) (events : list event) (a : app)
  : app :=
  fold_left (react e sch) events a.
End Application.

(** The ids in the table, in the order of the rows. *)
Definition record_ids (st : store) : list (option Z) :=
  map row_id (food_consumption st).

(** The form filled in with a commodity and an age group only. *)
Definition almonds_form : form :=
  {| in_commodity := VStr "Almonds"; in_age_group := VStr "Adults";
     in_mean_consumption_chronic := VNone; in_mean_consumption_acute := VNone;
     in_percentile_97_chronic := VNone; in_percentile_97_acute := VNone;
     in_notes := VStr "" |}.

(** The application with the one record of almonds, nothing listed. *)
Definition almonds_app : app :=
  {| entry := {| objects := {| frames := []; dicts := [] |};
                 database := one_record;
                 preview_data := 0; validation_errors := [] |};
     deleted_list := [] |}.










(** * Properties *)

(** ** Dictionaries and lists *)

Section DictFacts.
Variable V : Type.
Implicit Types (d : dict V) (k : string) (v : V).

Lemma dict_get_set_eq k v d : dict_get k (dict_set k v d) = Some v.
Proof.
  induction d as [|[k' v'] d IH]; simpl.
  - now rewrite String.eqb_refl.
  - destruct (String.eqb k k') eqn:E; simpl.
    + now rewrite String.eqb_refl.
    + now rewrite E.
Qed.

Lemma dict_get_set_neq k k' v d :
  k' <> k -> dict_get k' (dict_set k v d) = dict_get k' d.
Proof.
  intros Hne. induction d as [|[k0 v0] d IH]; simpl.
  - destruct (String.eqb_spec k' k); congruence.
  - destruct (String.eqb_spec k k0) as [->|Hk]; simpl.
    + destruct (String.eqb_spec k' k0); congruence.
    + destruct (String.eqb_spec k' k0); congruence.
Qed.

Lemma dict_set_unchanged k v d : dict_get k d = Some v -> dict_set k v d = d.
Proof.
  induction d as [|[k' v'] d IH]; simpl; [discriminate|].
  destruct (String.eqb_spec k k') as [->|Hk]; intros H.
  - congruence.
  - now rewrite IH.
Qed.

Lemma dict_set_not_nil k v d : dict_set k v d <> [].
Proof.
  destruct d as [|[k' v'] d]; simpl; [discriminate|].
  destruct (String.eqb k k'); discriminate.
Qed.

Lemma dict_keys_set_present k v d :
  dict_mem k d = true -> dict_keys (dict_set k v d) = dict_keys d.
Proof.
  unfold dict_mem, dict_keys.
  induction d as [|[k' v'] d IH]; simpl; [discriminate|].
  destruct (String.eqb_spec k k') as [->|Hk]; simpl; intros H.
  - reflexivity.
  - now rewrite IH.
Qed.

Lemma dict_get_absent k d : ~ In k (dict_keys d) -> dict_get k d = None.
Proof.
  induction d as [|[k' v'] d IH]; simpl; [reflexivity|].
  intros H. destruct (String.eqb_spec k k') as [->|Hk]; [tauto|].
  apply IH. tauto.
Qed.

Lemma dict_mem_In k d : dict_mem k d = true <-> In k (dict_keys d).
Proof.
  unfold dict_mem, dict_keys. induction d as [|[k' v'] d IH]; simpl.
  - split; [discriminate|tauto].
  - destruct (String.eqb_spec k k') as [->|Hne].
    + split; auto.
    + rewrite IH. split; [tauto|]. intros [H|H]; [congruence|assumption].
Qed.

Lemma dict_get_filter_keys (keep : string -> bool) k d :
  dict_get k (filter (fun '(c, _) => keep c) d) =
  if keep k then dict_get k d else None.
Proof.
  induction d as [|[k' v'] d IH]; simpl.
  - now destruct (keep k).
  - destruct (keep k') eqn:Ek; simpl.
    + destruct (String.eqb_spec k k') as [->|Hk]; [now rewrite Ek|assumption].
    + destruct (String.eqb_spec k k') as [->|Hk];
        [now rewrite Ek in *|assumption].
Qed.

Lemma dict_keys_filter_keys (keep : string -> bool) d :
  dict_keys (filter (fun '(c, _) => keep c) d) = filter keep (dict_keys d).
Proof.
  unfold dict_keys. induction d as [|[k' v'] d IH]; simpl; [reflexivity|].
  destruct (keep k'); simpl; now rewrite IH.
Qed.
End DictFacts.

Lemma str_in_In k ks : str_in k ks = true <-> In k ks.
Proof.
  unfold str_in. rewrite existsb_exists. split.
  - intros [x [Hin Heq]]. apply String.eqb_eq in Heq. now subst.
  - intros H. exists k. split; [assumption|apply String.eqb_refl].
Qed.

Lemma unique_keys_cons k ks :
  unique_keys (k :: ks) = true -> ~ In k ks /\ unique_keys ks = true.
Proof.
  simpl. intros H. apply andb_true_iff in H as [H1 H2]. split; [|assumption].
  intros Hin. apply str_in_In in Hin. rewrite Hin in H1. discriminate.
Qed.

Lemma replace_nth_length {A} (n : nat) (x : A) (l : list A) :
  length (replace_nth n x l) = length l.
Proof.
  revert n. induction l as [|y l IH]; intros [|n]; simpl; auto.
Qed.

Lemma firstn_replace_nth {A} (n k : nat) (x : A) (l : list A) :
  (n <= k)%nat -> firstn n (replace_nth k x l) = firstn n l.
Proof.
  revert n k. induction l as [|y l IH]; intros [|n] [|k] H; simpl; auto;
    try lia.
  f_equal. apply IH. lia.
Qed.

Lemma nth_firstn_below {A} (n k : nat) (l : list A) (d : A) :
  (k < n)%nat -> nth k (firstn n l) d = nth k l d.
Proof.
  revert n k. induction l as [|y l IH]; intros [|n] [|k] H; simpl; auto;
    try lia.
  apply IH. lia.
Qed.

Lemma nth_replace_nth {A} (n : nat) (x d : A) (l : list A) :
  (n < length l)%nat -> nth n (replace_nth n x l) d = x.
Proof.
  revert n. induction l as [|y l IH]; intros [|n] H; simpl in *; auto;
    try lia.
  apply IH. lia.
Qed.

Lemma replace_nth_same {A} (n : nat) (d : A) (l : list A) :
  replace_nth n (nth n l d) l = l.
Proof.
  revert n. induction l as [|y l IH]; intros [|n]; simpl; auto.
  now rewrite IH.
Qed.

Lemma replace_nth_twice {A} (n : nat) (x y : A) (l : list A) :
  replace_nth n y (replace_nth n x l) = replace_nth n y l.
Proof.
  revert n. induction l as [|z l IH]; intros [|n]; simpl; auto.
  now rewrite IH.
Qed.

Lemma bind_ok {S A C} (m : M S A) (k : A -> M S C) s c s' :
  bind m k s = (Ok c, s') ->
  exists a s1, m s = (Ok a, s1) /\ k a s1 = (Ok c, s').
Proof.
  unfold bind. destruct (m s) as [[a|e] s1]; [eauto|discriminate].
Qed.

(** ** Schema loading *)

Lemma load_schema_total (src : source) :
  exists s, _load_schema src = Ok s.
Proof.
  unfold _load_schema.
  destruct (src_exists src); simpl; [|eauto].
  destruct (src_load src) as [raw|e]; [|eauto].
  destruct (supported_ext (lower (src_ext src))); [|eauto].
  destruct (process_schema raw); eauto.
Qed.

Lemma unknown_type_name_kept (m : dict config) (t : string) :
  dict_get "type" m = Some (CVal (VStr t)) ->
  known_type_name (lower t) = false ->
  process_rules (CMap m) = Ok (CMap m).
Proof.
  intros Hget Hknown. unfold process_rules. rewrite Hget.
  unfold known_type_name in Hknown.
  destruct (convert_type_name (lower t)); [discriminate|reflexivity].
Qed.

(** C7, as stated, fails: a rule with an unsupported type name does not send
    the loader to the built-in schema; the loaded schema is returned with the
    name kept as text. *)
Lemma load_schema_unsupported_type_not_default :
  known_type_name (lower "decimal") = false /\
  _load_schema decimal_source =
    Ok [("food_consumption",
         [("commodity", CMap [("type", CVal (VStr "decimal"));
                              ("required", CVal (VBool true))])])] /\
  _load_schema decimal_source <> Ok _get_default_schema.
Proof.
  split; [reflexivity|]. split; [reflexivity|].
  vm_compute. discriminate.
Qed.

(** C7, amended: loading never raises.  It returns the built-in schema when
    the file is missing, when its extension is not [.yaml], [.yml] or
    [.toml], when opening or parsing raises, and when processing the parsed
    document raises; otherwise it returns the processed document, in which a
    rule with an unsupported type name keeps that name as text.  The built-in
    schema has the one table [food_consumption] with required text fields
    [commodity] and [age_group], four optional float fields with minimum 0,
    and the optional text field [notes]. *)
Theorem load_schema_never_raises (src : source) :
  (exists s, _load_schema src = Ok s) /\
  ((src_exists src = false \/
    supported_ext (lower (src_ext src)) = false \/
    (exists e, src_load src = Raise e) \/
    (exists raw e, src_load src = Ok raw /\ process_schema raw = Raise e)) ->
   _load_schema src = Ok _get_default_schema) /\
  (forall raw s,
     src_exists src = true ->
     supported_ext (lower (src_ext src)) = true ->
     src_load src = Ok raw -> process_schema raw = Ok s ->
     _load_schema src = Ok s) /\
  (forall m t,
     dict_get "type" m = Some (CVal (VStr t)) ->
     known_type_name (lower t) = false ->
     process_rules (CMap m) = Ok (CMap m)) /\
  _get_default_schema =
    [("food_consumption",
      [("commodity", str_rule true); ("age_group", str_rule true);
       ("mean_consumption_chronic", float_rule_min0);
       ("mean_consumption_acute", float_rule_min0);
       ("percentile_97_chronic", float_rule_min0);
       ("percentile_97_acute", float_rule_min0);
       ("notes", str_rule false)])] /\
  str_rule true =
    CMap [("type", CType TyStr); ("required", CVal (VBool true))] /\
  str_rule false =
    CMap [("type", CType TyStr); ("required", CVal (VBool false))] /\
  float_rule_min0 =
    CMap [("type", CType TyFloat); ("required", CVal (VBool false));
          ("min", CVal (VInt 0))].
Proof.
  split; [apply load_schema_total|].
  split.
  - unfold _load_schema.
    intros [H|[H|[[e H]|[raw [e [H1 H2]]]]]].
    + rewrite H. reflexivity.
    + destruct (src_exists src); [|reflexivity]. simpl. rewrite H.
      destruct (src_load src); reflexivity.
    + destruct (src_exists src); [|reflexivity]. simpl. rewrite H. reflexivity.
    + destruct (src_exists src); [|reflexivity]. simpl. rewrite H1.
      destruct (supported_ext (lower (src_ext src))); [|reflexivity].
      rewrite H2. reflexivity.
  - split.
    + intros raw s He Hx Hl Hp. unfold _load_schema.
      rewrite He, Hl, Hx. simpl. rewrite Hp. reflexivity.
    + split; [apply unknown_type_name_kept | repeat split].
Qed.

Lemma load_schema_never_raises_witness :
  src_exists text_source = true /\
  supported_ext (lower (src_ext text_source)) = false /\
  _load_schema text_source = Ok _get_default_schema.
Proof.
  split; [reflexivity|]. split; [reflexivity|].
  apply (load_schema_never_raises text_source).
  right. left. reflexivity.
Defined.


(** ** [validate_record] *)

Lemma string_of_int_nonempty z : NilZero.string_of_int (Z.to_int z) <> "".
Proof.
  destruct (Z.to_int z) as [d|d]; simpl.
  - destruct d; simpl; discriminate.
  - discriminate.
Qed.

Section RecordFacts.
Context {B : Builtins}.

Lemma py_str_empty v : py_str v = "" -> v = VStr "".
Proof.
  destruct v as [|b|z|f|s]; simpl; intros H.
  - discriminate.
  - destruct b; discriminate.
  - now apply string_of_int_nonempty in H.
  - now apply str_float_nonempty in H.
  - now subst.
Qed.

Lemma py_to_str_ok v v' : py_to_str v = Ok v' -> v' = VStr (py_str v).
Proof.
  destruct v as [|b|z|f|s]; cbn [py_to_str]; try (intros H; now injection H).
  destruct (int_has_text z); [intros H; now injection H|discriminate].
Qed.


Lemma is_missing_get r field : is_missing r field = missing_value (dict_get field r).
Proof. reflexivity. Qed.

Lemma conversion_idempotent et ty convert v v' :
  conversion et = Some (ty, convert) ->
  convert v = Ok v' ->
  missing_value (Some v) = false ->
  convert v' = Ok v' /\ missing_value (Some v') = false.
Proof.
  unfold conversion. intros Hc Hv Hm.
  destruct (is_type et TyFloat).
  { injection Hc as <- <-.
    destruct v as [|b|z|f|s]; simpl in Hv; try discriminate.
    - injection Hv as <-. now split.
    - destruct (float_of_int z); [|discriminate]. injection Hv as <-. now split.
    - injection Hv as <-. now split.
    - destruct (parse_float s); [|discriminate]. injection Hv as <-. now split. }
  destruct (is_type et TyInt).
  { injection Hc as <- <-.
    destruct v as [|b|z|f|s]; simpl in Hv; try discriminate.
    - injection Hv as <-. now split.
    - injection Hv as <-. now split.
    - destruct f as [|n|q]; try discriminate. injection Hv as <-. now split.
    - destruct (parse_int s); [|discriminate]. injection Hv as <-. now split. }
  destruct (is_type et TyStr); [|discriminate].
  injection Hc as <- <-. apply py_to_str_ok in Hv. subst v'.
  split; [reflexivity|].
  simpl. destruct (String.eqb_spec (py_str v) ""); [|reflexivity].
  apply py_str_empty in e. subst v. simpl in Hm. discriminate.
Qed.

(** [check_bounds] reads the record at [field] only and leaves it as it is. *)
Lemma check_bounds_state field rules et errs r :
  check_bounds field rules et errs r =
  (bounds_outcome field rules et errs (item r field), r).
Proof.
  unfold check_bounds, bounds_outcome, bind, get_state, lift, ret.
  destruct ((is_type et TyInt || is_type et TyFloat) && is_number (item r field));
    [|reflexivity].
  destruct (dict_get "min" rules) as [lo|].
  - destruct (py_lt (item r field) lo) as [b|e]; [|reflexivity].
    destruct (dict_get "max" rules) as [hi|]; [|reflexivity].
    destruct (py_gt (item r field) hi) as [c|e]; reflexivity.
  - destruct (dict_get "max" rules) as [hi|]; [|reflexivity].
    destruct (py_gt (item r field) hi) as [c|e]; reflexivity.
Qed.

(** A turn of the loop never empties the error mapping. *)
Lemma bounds_outcome_keeps_errors field rules et errs v errs' :
  bounds_outcome field rules et errs v = Ok errs' -> errs <> [] -> errs' <> [].
Proof.
  unfold bounds_outcome.
  destruct ((is_type et TyInt || is_type et TyFloat) && is_number v).
  2:{ intros H; injection H as <-. auto. }
  intros H Hne.
  assert (Hmin : forall errs1,
    (match dict_get "min" rules with
     | Some bound =>
         match py_lt v bound with
         | Ok below => Ok (if below then dict_set field (AtLeast field bound) errs else errs)
         | Raise e => Raise e
         end
     | None => Ok errs
     end) = Ok errs1 -> errs1 <> []).
  { intros errs1. destruct (dict_get "min" rules) as [lo|].
    - destruct (py_lt v lo) as [[|]|]; intros H1; try discriminate H1;
        injection H1 as <-; try apply dict_set_not_nil; assumption.
    - intros H1; injection H1 as <-. assumption. }
  destruct (match dict_get "min" rules with Some _ => _ | None => _ end)
    as [errs1|] eqn:E1; [|discriminate].
  specialize (Hmin errs1 eq_refl).
  destruct (dict_get "max" rules) as [hi|].
  - destruct (py_gt v hi) as [[|]|]; try discriminate H;
      injection H as <-; try apply dict_set_not_nil; assumption.
  - injection H as <-. assumption.
Qed.

Lemma check_bounds_keeps_errors field rules et errs r errs' r' :
  check_bounds field rules et errs r = (Ok errs', r') -> errs <> [] -> errs' <> [].
Proof.
  rewrite check_bounds_state. intros H. injection H as H _.
  eapply bounds_outcome_keeps_errors; eauto.
Qed.

Lemma validate_field_keeps_errors field rules errs r errs' r' :
  validate_field field rules errs r = (Ok errs', r') -> errs <> [] -> errs' <> [].
Proof.
  unfold validate_field. destruct rules as [| | |m]; try discriminate.
  unfold bind, get_state, ret, put_state, raise.
  destruct (is_required m && is_missing r field).
  { intros H _; injection H as <- <-. apply dict_set_not_nil. }
  destruct (is_missing r field).
  { intros H; injection H as <- <-. auto. }
  destruct (if match dict_get "type" m with Some c => truthy c | None => false end
            then conversion (dict_get "type" m) else None) as [[ty convert]|].
  - destruct (convert (item r field)) as [v|e].
    + apply check_bounds_keeps_errors.
    + destruct e; try discriminate; intros H _; injection H as <- <-;
        apply dict_set_not_nil.
  - apply check_bounds_keeps_errors.
Qed.

Lemma validate_fields_keeps_errors schema errs r errs' r' :
  validate_fields schema errs r = (Ok errs', r') -> errs <> [] -> errs' <> [].
Proof.
  revert errs r. induction schema as [|[field rules] rest IH]; simpl; intros errs r.
  - unfold ret. intros H; injection H as <- <-. auto.
  - unfold bind. destruct (validate_field field rules errs r) as [[e1|x] r1] eqn:E;
      [|discriminate].
    intros H Hne. eapply IH; [exact H|].
    eapply validate_field_keeps_errors; eauto.
Qed.

(** A turn of the loop touches the record at its own field only. *)
Lemma validate_field_frame field rules errs r res r' other :
  validate_field field rules errs r = (res, r') ->
  other <> field -> dict_get other r' = dict_get other r.
Proof.
  unfold validate_field. destruct rules as [| | |m];
    try (unfold raise; intros H; injection H as <- <-; reflexivity).
  unfold bind, get_state, ret, put_state, raise.
  destruct (is_required m && is_missing r field).
  { intros H; injection H as <- <-. reflexivity. }
  destruct (is_missing r field).
  { intros H; injection H as <- <-. reflexivity. }
  destruct (if match dict_get "type" m with Some c => truthy c | None => false end
            then conversion (dict_get "type" m) else None) as [[ty convert]|].
  - destruct (convert (item r field)) as [v|e].
    + rewrite check_bounds_state. intros H Hne. injection H as <- <-.
      now apply dict_get_set_neq.
    + destruct e; intros H; injection H as <- <-; reflexivity.
  - rewrite check_bounds_state. intros H; injection H as <- <-. reflexivity.
Qed.

Lemma validate_fields_frame schema errs r res r' other :
  validate_fields schema errs r = (res, r') ->
  ~ In other (dict_keys schema) -> dict_get other r' = dict_get other r.
Proof.
  revert errs r. induction schema as [|[field rules] rest IH]; simpl; intros errs r.
  - unfold ret. intros H; injection H as <- <-. reflexivity.
  - unfold bind. destruct (validate_field field rules errs r) as [[e1|x] r1] eqn:E.
    + intros H Hn. rewrite (IH _ _ H) by tauto.
      eapply validate_field_frame; [exact E|]. intros ->. tauto.
    + intros H Hn. injection H as <- <-.
      eapply validate_field_frame; [exact E|]. intros ->. tauto.
Qed.

Lemma item_of_get r1 r2 field :
  dict_get field r1 = dict_get field r2 -> item r1 field = item r2 field.
Proof. unfold item. now intros ->. Qed.

(** A field that passed passes again, and its value is not changed again. *)
Lemma validate_field_again field rules r rm rb :
  validate_field field rules [] r = (Ok [], rm) ->
  dict_get field rb = dict_get field rm ->
  validate_field field rules [] rb = (Ok [], rb).
Proof.
  unfold validate_field. destruct rules as [| | |m]; try discriminate.
  unfold bind, get_state, ret, put_state, raise.
  rewrite !is_missing_get.
  destruct (is_required m && missing_value (dict_get field r)) eqn:Ereq.
  { intros H; injection H as H _. discriminate H. }
  destruct (missing_value (dict_get field r)) eqn:Emiss.
  { intros H; injection H as <-. intros ->. rewrite Emiss, Ereq. reflexivity. }
  rewrite andb_false_r in Ereq. clear Ereq.
  assert (Hpresent : exists v, dict_get field r = Some v /\ item r field = v).
  { unfold item. destruct (dict_get field r) as [v|]; [eauto|discriminate]. }
  destruct Hpresent as [v [Hget Hitem]]. rewrite Hitem.
  destruct (if match dict_get "type" m with Some c => truthy c | None => false end
            then conversion (dict_get "type" m) else None) as [[ty convert]|] eqn:Econv.
  - destruct (convert v) as [v'|e] eqn:Ev.
    2:{ destruct e; try discriminate;
        intros H; injection H as H _; discriminate H. }
    rewrite check_bounds_state. intros H Hrb. injection H as Hres Hrm.
    assert (Hc : conversion (dict_get "type" m) = Some (ty, convert)).
    { destruct (match dict_get "type" m with Some c => truthy c | None => false end);
        [assumption|discriminate]. }
    rewrite Hget in Emiss.
    destruct (conversion_idempotent _ _ Hc Ev Emiss) as [Hagain Hnm].
    subst rm. rewrite dict_get_set_eq in Hrb.
    rewrite Hrb, Hnm, andb_false_r.
    assert (Hib : item rb field = v') by (unfold item; now rewrite Hrb).
    rewrite Hib, Hagain, (dict_set_unchanged _ _ Hrb).
    rewrite check_bounds_state, Hib. f_equal.
    rewrite <- Hres. unfold item. now rewrite dict_get_set_eq.
  - rewrite check_bounds_state. intros H Hrb. injection H as Hres Hrm. subst rm.
    rewrite Hrb, Emiss, andb_false_r.
    rewrite check_bounds_state. f_equal. rewrite <- Hres.
    now rewrite (item_of_get rb r field Hrb).
Qed.

Lemma validate_fields_again schema :
  unique_keys (dict_keys schema) = true ->
  forall r r1, validate_fields schema [] r = (Ok [], r1) ->
  forall rb, (forall f, In f (dict_keys schema) -> dict_get f rb = dict_get f r1) ->
  validate_fields schema [] rb = (Ok [], rb).
Proof.
  induction schema as [|[field rules] rest IH]; intros Hu r r1 Hrun rb Hrb.
  - reflexivity.
  - simpl in Hu. apply unique_keys_cons in Hu as [Hnotin Hu].
    simpl in Hrun. unfold bind in Hrun.
    destruct (validate_field field rules [] r) as [[e1|x] rm] eqn:E; [|discriminate].
    assert (e1 = []).
    { destruct e1 as [|p e1]; [reflexivity|].
      exfalso. eapply validate_fields_keeps_errors; [exact Hrun|discriminate|reflexivity]. }
    subst e1.
    assert (Hf : dict_get field rb = dict_get field rm).
    { rewrite Hrb by (simpl; auto).
      eapply validate_fields_frame; eauto. }
    simpl. unfold bind.
    rewrite (validate_field_again _ _ _ _ E Hf).
    eapply IH; eauto.
    intros f Hin. apply Hrb. simpl. auto.
Qed.

(** C6: on a registered table, a record for which [validate_record] returns
    the empty error mapping is left, coerced in place, in a state on which
    [validate_record] returns the empty mapping again, and which it does not
    change any more.  (The fields of a table are the keys of a dictionary,
    hence distinct.) *)
Theorem validate_record_idempotent (sch : schemas) (table_name : string)
    (schema : table_schema) (r r1 : record) :
  dict_get table_name sch = Some schema ->
  unique_keys (dict_keys schema) = true ->
  validate_record sch table_name r = (Ok [], r1) ->
  validate_record sch table_name r1 = (Ok [], r1).
Proof.
  unfold validate_record. unfold schemas, table_schema in *.
  intros -> Hu Hrun.
  eapply validate_fields_again; eauto.
Qed.
End RecordFacts.

Lemma validate_record_idempotent_witness :
  dict_get "food_consumption" _get_default_schema = Some food_schema /\
  unique_keys (dict_keys food_schema) = true /\
  validate_record _get_default_schema "food_consumption" entered
    = (Ok [], entered_coerced) /\
  validate_record _get_default_schema "food_consumption" entered_coerced
    = (Ok [], entered_coerced).
Proof.
  assert (H1 : dict_get "food_consumption" _get_default_schema
               = Some food_schema) by reflexivity.
  assert (H2 : unique_keys (dict_keys food_schema) = true) by reflexivity.
  assert (H3 : validate_record _get_default_schema "food_consumption" entered
               = (Ok [], entered_coerced)) by reflexivity.
  split; [exact H1|]. split; [exact H2|]. split; [exact H3|].
  exact (validate_record_idempotent _ _ _ H1 H2 H3).
Defined.


(** ** Batch operations leave the frames they are given alone *)

Lemma keeps_ret {A} n (a : A) : keeps_frames n (ret a).
Proof. intros h res h' H _. injection H as <- <-. auto. Qed.

Lemma keeps_raise {A} n e : keeps_frames n (@raise heap A e).
Proof. intros h res h' H _. injection H as <- <-. auto. Qed.

Lemma keeps_lift {A} n (r : result A) : keeps_frames n (lift r).
Proof. intros h res h' H _. injection H as <- <-. auto. Qed.

Lemma keeps_bind {A C} n (m : M heap A) (k : A -> M heap C) :
  keeps_frames n m -> (forall a, keeps_frames n (k a)) ->
  keeps_frames n (bind m k).
Proof.
  intros Hm Hk h res h' H Hn. unfold bind in H.
  destruct (m h) as [[a|e] h1] eqn:E.
  - destruct (Hm _ _ _ E Hn) as [H1 H2].
    destruct (Hk a _ _ _ H) as [H3 H4]; [lia|].
    split; [congruence|lia].
  - injection H as <- <-. eapply Hm; eauto.
Qed.

Lemma keeps_for_each {A} n (xs : list A) (body : A -> M heap unit) :
  (forall x, keeps_frames n (body x)) -> keeps_frames n (for_each xs body).
Proof.
  intros Hb. induction xs as [|x xs IH]; simpl.
  - apply keeps_ret.
  - apply keeps_bind; auto.
Qed.

Lemma keeps_for_acc {A C} n (xs : list A) (body : A -> C -> M heap C) acc :
  (forall x c, keeps_frames n (body x c)) -> keeps_frames n (for_acc xs body acc).
Proof.
  intros Hb. revert acc. induction xs as [|x xs IH]; intros acc; simpl.
  - apply keeps_ret.
  - apply keeps_bind; auto.
Qed.

Lemma keeps_read_frame n df : keeps_frames n (read_frame df).
Proof. intros h res h' H _. injection H as <- <-. auto. Qed.

Lemma keeps_new_frame n fr : keeps_frames n (new_frame fr).
Proof.
  intros h res h' H Hn. injection H as <- <-. simpl. split.
  - rewrite firstn_app.
    replace (n - length (frames h))%nat with 0%nat by lia.
    simpl. apply app_nil_r.
  - rewrite length_app. lia.
Qed.

Lemma keeps_write_frame n df fr :
  (n <= df)%nat -> keeps_frames n (write_frame df fr).
Proof.
  intros Hdf h res h' H Hn. injection H as <- <-. simpl. split.
  - now apply firstn_replace_nth.
  - rewrite replace_nth_length. lia.
Qed.

Lemma keeps_new_dict n : keeps_frames n new_dict.
Proof. intros h res h' H _. injection H as <- <-. auto. Qed.

Lemma keeps_dict_store n d key msg : keeps_frames n (dict_store d key msg).
Proof. intros h res h' H _. injection H as <- <-. auto. Qed.

Lemma keeps_bind_fresh {C} n (m : M heap ref) (k : ref -> M heap C) :
  fresh_ref n m -> (forall c, (n <= c)%nat -> keeps_frames n (k c)) ->
  keeps_frames n (bind m k).
Proof.
  intros [Hm Hc] Hk h res h' H Hn. unfold bind in H.
  destruct (m h) as [[a|e] h1] eqn:E.
  - destruct (Hm _ _ _ E Hn) as [H1 H2].
    destruct (Hk a (Hc _ _ _ E Hn) _ _ _ H) as [H3 H4]; [lia|].
    split; [congruence|lia].
  - injection H as <- <-. eapply Hm; eauto.
Qed.

Lemma fresh_new_frame n fr : fresh_ref n (new_frame fr).
Proof.
  split; [apply keeps_new_frame|].
  intros h c h' H Hn. injection H as <- _. assumption.
Qed.

Lemma fresh_copy n df : fresh_ref n (copy df).
Proof.
  split.
  - unfold copy. apply keeps_bind; [apply keeps_read_frame|].
    intros fr. apply keeps_new_frame.
  - intros h c h' H Hn. injection H as <- _. assumption.
Qed.

Create HintDb keeps.
#[local] Hint Resolve keeps_ret keeps_raise keeps_lift keeps_read_frame
  keeps_new_frame keeps_new_dict keeps_dict_store keeps_write_frame : keeps.

Ltac keeps_step :=
  first
    [ apply keeps_bind; [|intros ?]
    | apply keeps_for_each; intros ?
    | apply keeps_for_acc; intros ? ?
    | solve [auto with keeps] ].

Lemma keeps_copy n df : keeps_frames n (copy df).
Proof. unfold copy. apply keeps_bind; auto with keeps. Qed.

Lemma keeps_set_column n df col cells :
  (n <= df)%nat -> keeps_frames n (set_column df col cells).
Proof. intros H. unfold set_column. apply keeps_bind; auto with keeps. Qed.

Lemma keeps_row_error n row_errors i col msg :
  keeps_frames n (row_error row_errors i col msg).
Proof. unfold row_error. destruct (nth_error row_errors i); auto with keeps. Qed.

#[local] Hint Resolve keeps_copy keeps_set_column keeps_row_error : keeps.

Section FrameFacts.
Context {B : Builtins}.

Lemma keeps_mark_rows n row_errors col msg test cells flag :
  keeps_frames n (mark_rows row_errors col msg test cells flag).
Proof.
  unfold mark_rows. apply keeps_for_acc. intros [i val] c.
  apply keeps_bind; [auto with keeps|]. intros [|]; repeat keeps_step.
Qed.

Lemma keeps_validate_column n vdf row_errors col rules flag :
  (n <= vdf)%nat ->
  keeps_frames n (validate_column vdf row_errors col rules flag).
Proof.
  intros Hn. unfold validate_column.
  apply keeps_bind; [auto with keeps|]. intros m.
  apply keeps_bind; [auto with keeps|]. intros fr.
  destruct (negb (dict_mem col fr)).
  { destruct (is_required m); repeat keeps_step. }
  destruct (is_type (dict_get "type" m) TyFloat).
  { apply keeps_bind; [auto with keeps|]. intros _.
    apply keeps_bind; [auto with keeps|]. intros fr'.
    apply keeps_bind.
    { destruct (is_required m); [apply keeps_mark_rows|auto with keeps]. }
    intros f1. apply keeps_bind.
    { destruct (dict_get "min" m); [apply keeps_mark_rows|auto with keeps]. }
    intros f2.
    destruct (dict_get "max" m); [apply keeps_mark_rows|auto with keeps]. }
  destruct (is_type (dict_get "type" m) TyStr); [|auto with keeps].
  apply keeps_bind; [auto with keeps|]. intros _.
  apply keeps_bind; [auto with keeps|]. intros fr'.
  destruct (is_required m); [apply keeps_mark_rows|auto with keeps].
Qed.

Lemma keeps_clean_column n cdf col rules :
  (n <= cdf)%nat -> keeps_frames n (clean_column cdf col rules).
Proof.
  intros Hn. unfold clean_column.
  apply keeps_bind; [auto with keeps|]. intros fr.
  destruct (dict_mem col fr); [|auto with keeps].
  apply keeps_bind; [auto with keeps|]. intros m.
  destruct (is_type (dict_get "type" m) TyFloat); [auto with keeps|].
  destruct (is_type (dict_get "type" m) TyStr); auto with keeps.
Qed.

Lemma keeps_validate_dataframe n sch table_name df :
  keeps_frames n (validate_dataframe sch table_name df).
Proof.
  unfold validate_dataframe.
  destruct (dict_get table_name sch) as [schema|]; [|auto with keeps].
  apply keeps_bind_fresh; [apply fresh_copy|]. intros vdf Hvdf.
  apply keeps_bind; [auto with keeps|]. intros required.
  apply keeps_bind; [auto with keeps|]. intros fr.
  destruct (filter _ required); [|auto with keeps].
  apply keeps_bind; [auto with keeps|]. intros d.
  apply keeps_bind; [|auto with keeps].
  apply keeps_for_acc. intros [col rules] c.
  now apply keeps_validate_column.
Qed.

Lemma keeps_clean_dataframe n sch table_name df :
  keeps_frames n (clean_dataframe_for_import sch table_name df).
Proof.
  unfold clean_dataframe_for_import.
  destruct (dict_get table_name sch) as [schema|]; [|auto with keeps].
  apply keeps_bind_fresh; [apply fresh_copy|]. intros c0 _.
  apply keeps_bind; [auto with keeps|]. intros fr.
  apply keeps_bind_fresh; [apply fresh_new_frame|]. intros cdf Hcdf.
  apply keeps_bind; [|auto with keeps].
  apply keeps_for_each. intros [col rules].
  now apply keeps_clean_column.
Qed.

Lemma kept_frame_at {A} (m : M heap A) h df :
  keeps_frames (length (frames h)) m ->
  (df < length (frames h))%nat ->
  frame_at (snd (m h)) df = frame_at h df.
Proof.
  intros K Hdf. destruct (m h) as [res h'] eqn:E.
  destruct (K _ _ _ E (le_n _)) as [H _]. simpl.
  unfold frame_at.
  rewrite <- (nth_firstn_below (frames h') [] Hdf).
  rewrite H, firstn_all. reflexivity.
Qed.

Lemma validate_dataframe_result sch table_name df h out row_errors flag h' :
  validate_dataframe sch table_name df h = (Ok (out, row_errors, flag), h') ->
  out = length (frames h) /\
  exists d, row_errors = repeat d (frame_len (frame_at h df)).
Proof.
  unfold validate_dataframe.
  destruct (dict_get table_name sch) as [schema|]; [|discriminate].
  intros H.
  apply bind_ok in H as (vdf & h1 & Hcopy & H).
  apply bind_ok in H as (required & h2 & Hreq & H).
  apply bind_ok in H as (fr & h3 & Hfr & H).
  destruct (filter _ required); [|discriminate].
  apply bind_ok in H as (d & h4 & Hd & H).
  apply bind_ok in H as (flag' & h5 & Hloop & H).
  injection H as <- <- <- <-.
  unfold copy, bind, read_frame, new_frame in Hcopy. injection Hcopy as <- <-.
  split; [reflexivity|].
  exists d. f_equal.
  unfold lift in Hreq. injection Hreq as _ <-.
  unfold read_frame in Hfr. injection Hfr as <- _.
  unfold frame_at. simpl. rewrite app_nth2 by lia. now rewrite Nat.sub_diag.
Qed.

Lemma clean_dataframe_result sch table_name df h out h' :
  clean_dataframe_for_import sch table_name df h = (Ok out, h') ->
  out = S (length (frames h)).
Proof.
  unfold clean_dataframe_for_import.
  destruct (dict_get table_name sch) as [schema|]; [|discriminate].
  intros H.
  apply bind_ok in H as (c0 & h1 & Hcopy & H).
  apply bind_ok in H as (fr & h2 & Hfr & H).
  apply bind_ok in H as (cdf & h3 & Hnew & H).
  apply bind_ok in H as (u & h4 & Hloop & H).
  injection H as <- _.
  unfold copy, bind, read_frame, new_frame in Hcopy. injection Hcopy as _ <-.
  unfold read_frame in Hfr. injection Hfr as _ <-.
  unfold new_frame in Hnew. injection Hnew as <- _.
  simpl. rewrite length_app. simpl. lia.
Qed.

(** C10: [validate_dataframe] and [clean_dataframe_for_import] work on a
    copy.  Whatever the outcome, the frame object passed in holds after the
    call what it held before, and the frame that is returned is a new
    object, so the coerced cells are in the returned frame only. *)
Theorem batch_operations_keep_input sch table_name df h :
  (df < length (frames h))%nat ->
  frame_at (snd (validate_dataframe sch table_name df h)) df = frame_at h df /\
  frame_at (snd (clean_dataframe_for_import sch table_name df h)) df
    = frame_at h df /\
  (forall out row_errors flag,
     fst (validate_dataframe sch table_name df h) = Ok (out, row_errors, flag) ->
     out <> df) /\
  (forall out,
     fst (clean_dataframe_for_import sch table_name df h) = Ok out ->
     out <> df).
Proof.
  intros Hdf. split; [|split; [|split]].
  - apply kept_frame_at; [apply keeps_validate_dataframe|assumption].
  - apply kept_frame_at; [apply keeps_clean_dataframe|assumption].
  - intros out row_errors flag H.
    destruct (validate_dataframe sch table_name df h) as [res h'] eqn:E.
    simpl in H. subst res.
    apply validate_dataframe_result in E as [-> _]. lia.
  - intros out H.
    destruct (clean_dataframe_for_import sch table_name df h) as [res h'] eqn:E.
    simpl in H. subst res.
    apply clean_dataframe_result in E as ->. lia.
Qed.
End FrameFacts.

Lemma batch_operations_keep_input_witness :
  (0 < length (frames upload_heap))%nat /\
  frame_at
    (snd (validate_dataframe _get_default_schema "food_consumption" 0
            upload_heap)) 0 = upload /\
  frame_at
    (snd (clean_dataframe_for_import _get_default_schema "food_consumption" 0
            upload_heap)) 0 = upload.
Proof.
  assert (H : (0 < length (frames upload_heap))%nat) by (simpl; lia).
  split; [exact H|].
  destruct (batch_operations_keep_input _get_default_schema "food_consumption"
              upload_heap H) as (H1 & H2 & _).
  split; [exact H1|exact H2].
Defined.

(** ** What [clean_dataframe_for_import] returns *)

Section CleanFacts.
Context {B : Builtins}.

Lemma frame_at_with_frame h df fr :
  (df < length (frames h))%nat -> frame_at (with_frame h df fr) df = fr.
Proof. intros H. unfold frame_at, with_frame. simpl. now apply nth_replace_nth. Qed.

Lemma with_frame_same h df : with_frame h df (frame_at h df) = h.
Proof.
  unfold with_frame, frame_at. rewrite replace_nth_same. now destruct h.
Qed.

Lemma with_frame_twice h df fr1 fr2 :
  with_frame (with_frame h df fr1) df fr2 = with_frame h df fr2.
Proof. unfold with_frame. simpl. now rewrite replace_nth_twice. Qed.

Lemma clean_column_effect cdf col rules h :
  clean_column cdf col (CMap rules) h =
  (Ok tt,
   with_frame h cdf
     (if dict_mem col (frame_at h cdf)
      then dict_set col (cleaned rules (column (frame_at h cdf) col)) (frame_at h cdf)
      else frame_at h cdf)).
Proof.
  unfold clean_column, bind, read_frame, lift, rules_dict, set_column, write_frame,
    read_frame, ret, cleaned, with_frame.
  destruct (dict_mem col (frame_at h cdf)) eqn:Em.
  - unfold bind. simpl.
    destruct (is_type (dict_get "type" rules) TyFloat); [reflexivity|].
    destruct (is_type (dict_get "type" rules) TyStr); [reflexivity|].
    rewrite dict_set_unchanged.
    + fold (with_frame h cdf (frame_at h cdf)). now rewrite with_frame_same.
    + unfold column, dict_mem in *. now destruct (dict_get col (frame_at h cdf)).
  - fold (with_frame h cdf (frame_at h cdf)). now rewrite with_frame_same.
Qed.

Lemma clean_loop_effect cdf schema h :
  forallb is_mapping (map snd schema) = true ->
  (cdf < length (frames h))%nat ->
  for_each schema (fun '(col, rules) => clean_column cdf col rules) h =
  (Ok tt, with_frame h cdf (clean_frame schema (frame_at h cdf))).
Proof.
  revert h. induction schema as [|[col rules] rest IH]; intros h Hmaps Hc.
  - simpl. unfold ret. now rewrite with_frame_same.
  - simpl in Hmaps. apply andb_true_iff in Hmaps as [Hm Hmaps].
    destruct rules as [| | |rules]; try discriminate.
    simpl. unfold bind. rewrite clean_column_effect.
    rewrite IH; [|assumption|simpl; now rewrite replace_nth_length].
    rewrite frame_at_with_frame by assumption.
    now rewrite with_frame_twice.
Qed.

Lemma clean_frame_keys schema fr :
  dict_keys (clean_frame schema fr) = dict_keys fr.
Proof.
  revert fr. induction schema as [|[col rules] rest IH]; intros fr; simpl.
  - reflexivity.
  - destruct rules; try apply IH.
    rewrite IH. destruct (dict_mem col fr) eqn:E; [|reflexivity].
    now apply dict_keys_set_present.
Qed.

Lemma clean_frame_column schema fr col :
  unique_keys (dict_keys schema) = true ->
  dict_get col (clean_frame schema fr) =
  match dict_get col schema with
  | Some (CMap rules) => option_map (cleaned rules) (dict_get col fr)
  | _ => dict_get col fr
  end.
Proof.
  revert fr. induction schema as [|[c0 rules0] rest IH]; intros fr Hu.
  - reflexivity.
  - change (unique_keys (c0 :: dict_keys rest) = true) in Hu.
    apply unique_keys_cons in Hu as [Hnotin Hu].
    simpl dict_get.
    destruct (String.eqb_spec col c0) as [->|Hne].
    + destruct rules0 as [v|t|l|rules];
        try (simpl; rewrite IH by assumption;
             now rewrite (dict_get_absent _ _ Hnotin)).
      simpl. rewrite IH by assumption. rewrite (dict_get_absent _ _ Hnotin).
      unfold dict_mem, column.
      destruct (dict_get c0 fr) as [cells|] eqn:E; simpl.
      * apply dict_get_set_eq.
      * assumption.
    + destruct rules0 as [v|t|l|rules]; try (simpl; now apply IH).
      simpl. rewrite IH by assumption.
      destruct (dict_mem c0 fr); [|reflexivity].
      now rewrite dict_get_set_neq.
Qed.

Lemma to_numeric_is_number cells :
  Forall (fun v => is_number v = true) (to_numeric cells).
Proof.
  unfold to_numeric. apply Forall_forall. intros v Hin.
  apply in_map_iff in Hin as [x [<- _]].
  destruct x as [|b|z|f|s]; simpl; try reflexivity.
  now destruct (to_numeric_text s).
Qed.

Lemma fillna_astype cells :
  astype_str (fillna_empty cells) =
  map (fun v => VStr (if isna v then "" else py_str v)) cells.
Proof.
  unfold astype_str, fillna_empty, astype_str_cell. rewrite map_map.
  apply map_ext. intros v. destruct (isna v) eqn:E; [reflexivity|].
  now rewrite E.
Qed.

Lemma astype_str_is_text cells :
  Forall (fun v => is_text v = true) (astype_str (fillna_empty cells)).
Proof.
  rewrite fillna_astype. apply Forall_forall. intros v Hin.
  apply in_map_iff in Hin as [x [<- _]]. reflexivity.
Qed.

(** What [clean_dataframe_for_import] does on a registered table whose rules
    are mappings: it returns, without raising, a frame whose columns are the
    columns of the input that the schema knows, in their order.  A column
    declared [float] holds the cells of the input passed through
    [pd.to_numeric(errors='coerce')], all of them numbers or the NaN marker;
    a column declared [str] holds text only, the empty text where the input
    had a missing value; the loop has no branch for another type, and a
    column of any other declared type holds the cells of the input as they
    were. *)
Lemma clean_dataframe_for_import_result sch table_name schema df h :
  dict_get table_name sch = Some schema ->
  unique_keys (dict_keys schema) = true ->
  forallb is_mapping (map snd schema) = true ->
  exists out h',
    clean_dataframe_for_import sch table_name df h = (Ok out, h') /\
    dict_keys (frame_at h' out) =
      filter (fun col => str_in col (dict_keys schema))
        (dict_keys (frame_at h df)) /\
    forall col rules cells,
      dict_get col schema = Some (CMap rules) ->
      dict_get col (frame_at h df) = Some cells ->
      dict_get col (frame_at h' out) = Some (cleaned rules cells) /\
      (is_type (dict_get "type" rules) TyFloat = true ->
       cleaned rules cells = to_numeric cells /\
       Forall (fun v => is_number v = true) (cleaned rules cells)) /\
      (is_type (dict_get "type" rules) TyFloat = false ->
       is_type (dict_get "type" rules) TyStr = true ->
       cleaned rules cells =
         map (fun v => VStr (if isna v then "" else py_str v)) cells /\
       Forall (fun v => is_text v = true) (cleaned rules cells)) /\
      (is_type (dict_get "type" rules) TyFloat = false ->
       is_type (dict_get "type" rules) TyStr = false ->
       cleaned rules cells = cells).
Proof.
  intros Ht Hu Hmaps.
  unfold clean_dataframe_for_import.
  unfold schemas, table_schema in *. rewrite Ht.
  unfold copy, bind at 1, bind at 1, read_frame, new_frame.
  unfold bind at 1. unfold bind at 1. cbn [frames dicts].
  set (kept := filter _ _).
  set (h2 := {| frames := (frames h ++ [frame_at h df]) ++ [kept]; dicts := dicts h |}).
  set (out := length (frames h ++ [frame_at h df])).
  assert (Hout : (out < length (frames h2))%nat).
  { subst out h2. simpl. rewrite !length_app. simpl. lia. }
  exists out, (with_frame h2 out (clean_frame schema (frame_at h2 out))).
  split.
  { pose proof (@clean_loop_effect out schema h2 Hmaps Hout) as HL.
    unfold bind.
    match goal with |- match ?X with _ => _ end = _ =>
      replace X with (@Ok unit tt,
                      with_frame h2 out (clean_frame schema (frame_at h2 out)))
        by (symmetry; exact HL)
    end.
    reflexivity. }
  rewrite frame_at_with_frame by assumption.
  assert (Hkept : frame_at h2 out = kept).
  { subst out h2. unfold frame_at. simpl.
    rewrite app_nth2 by lia. now rewrite Nat.sub_diag. }
  assert (Hcopy : frame_at {| frames := frames h ++ [frame_at h df]; dicts := dicts h |}
                    (length (frames h)) = frame_at h df).
  { unfold frame_at at 1. simpl. rewrite app_nth2 by lia. now rewrite Nat.sub_diag. }
  rewrite Hkept. split.
  - rewrite clean_frame_keys. subst kept. rewrite Hcopy.
    apply dict_keys_filter_keys.
  - intros col rules cells Hrules Hcells. split.
    + rewrite clean_frame_column by assumption. rewrite Hrules.
      subst kept. rewrite Hcopy.
      rewrite (dict_get_filter_keys (fun c => str_in c (dict_keys schema))).
      assert (Hin : str_in col (dict_keys schema) = true).
      { apply str_in_In. unfold dict_keys.
        clear -Hrules. induction schema as [|[c r] rest IH]; [discriminate|].
        simpl in *. destruct (String.eqb_spec col c); auto. }
      rewrite Hin, Hcells. reflexivity.
    + unfold cleaned. split; [|split].
      * intros ->. split; [reflexivity|apply to_numeric_is_number].
      * intros -> ->. rewrite fillna_astype. split; [reflexivity|].
        rewrite <- fillna_astype. apply astype_str_is_text.
      * intros -> ->. reflexivity.
Qed.
End CleanFacts.

(** C8: the column [count] of the table [stock] is declared [integer], a
    numeric type: the loader turns the name into the type [int], and
    [validate_record] converts a field of that type and reports the text
    [abc] in it.  [clean_dataframe_for_import] has a branch for [float] and
    one for [str] and none for [int]: the text [abc] in the column [count]
    is returned as it is, neither a number nor the missing-value marker. *)
Theorem clean_keeps_text_in_int_column (B : Builtins) :
  process_rules (CMap [("type", CVal (VStr "integer"))])
    = Ok (CMap [("type", CType TyInt)]) /\
  numeric_type [("type", CType TyInt)] = true /\
  dict_get "stock" stock_schemas
    = Some [("count", CMap [("type", CType TyInt)])] /\
  fst (clean_dataframe_for_import stock_schemas "stock" 0 stock_heap) = Ok 2%nat /\
  dict_get "count"
    (frame_at (snd (clean_dataframe_for_import stock_schemas "stock" 0
                      stock_heap)) 2)
  = Some [VStr "abc"; VInt 3] /\
  is_number (VStr "abc") = false /\ isna (VStr "abc") = false /\
  (parse_int "abc" = None ->
   validate_record stock_schemas "stock" [("count", VStr "abc")]
   = (Ok [("count", MustBeValid "count" TyInt)], [("count", VStr "abc")])).
Proof.
  repeat split. intros Hint.
  unfold validate_record, stock_schemas. cbn [dict_get String.eqb Ascii.eqb Bool.eqb].
  cbn [validate_fields]. unfold bind, validate_field, bind, get_state, ret.
  cbv -[parse_int]. rewrite Hint. reflexivity.
Qed.

(** The built-in schema and a batch with a column that it does not know. *)
Lemma clean_dataframe_for_import_result_witness :
  dict_get "food_consumption" _get_default_schema = Some food_schema /\
  unique_keys (dict_keys food_schema) = true /\
  forallb is_mapping (map snd food_schema) = true /\
  exists out h',
    clean_dataframe_for_import _get_default_schema "food_consumption" 0
      upload_heap = (Ok out, h') /\
    dict_keys (frame_at h' out)
      = ["commodity"; "age_group"; "mean_consumption_chronic"].
Proof.
  assert (H1 : dict_get "food_consumption" _get_default_schema
               = Some food_schema) by reflexivity.
  assert (H2 : unique_keys (dict_keys food_schema) = true) by reflexivity.
  assert (H3 : forallb is_mapping (map snd food_schema) = true)
    by reflexivity.
  split; [exact H1|]. split; [exact H2|]. split; [exact H3|].
  destruct (@clean_dataframe_for_import_result example_builtins
              _get_default_schema "food_consumption" food_schema 0%nat
              upload_heap H1 H2 H3)
    as (out & h' & Hrun & Hkeys & _).
  exists out, h'. split; [exact Hrun|].
  rewrite Hkeys. reflexivity.
Defined.

(** ** The error mappings of [validate_dataframe] *)

(** C1: the three rows are validated against the built-in schema.  The first
    row lacks the commodity and the second has a negative consumption; the
    third has nothing wrong.  All three entries of [row_errors] are the one
    dictionary object 0, which ends up holding both messages: the third
    row's mapping is not empty, and the first two name a field of another
    row. *)
Theorem validate_dataframe_rows_share_errors (B : Builtins) :
  validate_dataframe _get_default_schema "food_consumption" 0 three_rows_heap
  = (Ok (1%nat, [0%nat; 0%nat; 0%nat], true),
     {| frames := [three_rows; three_rows];
        dicts := [[("commodity", CannotBeEmpty "commodity");
                   ("mean_consumption_chronic",
                    AtLeast "mean_consumption_chronic" (CVal (VInt 0)))]] |}).
Proof. reflexivity. Qed.


(** ** The record store on the engine it connects to *)

Section StoreFacts.
Context {K : Casts}.

Lemma convert_as_given given :
  forallb (fun '(col, c) => stored_as_given col c) given = true ->
  convert given = Ok given.
Proof.
  induction given as [|[col c] rest IH]; [reflexivity|].
  cbn [forallb convert]. intros H. apply andb_true_iff in H as [Hc Hrest].
  rewrite (IH Hrest).
  assert (Hcast : cast (column_type col) c = Ok c).
  { unfold stored_as_given in Hc. destruct c as [[|b|z|f|s]|t].
    - apply cast_null.
    - destruct (column_type col); discriminate.
    - destruct (column_type col); try discriminate. now apply cast_int32.
    - destruct (column_type col); discriminate.
    - destruct (column_type col); try discriminate. apply cast_text.
    - destruct (column_type col); try discriminate. apply cast_timestamp. }
  now rewrite Hcast.
Qed.

(** On DuckDB [add_record] never returns: the INSERT is refused, or it is
    carried out and the query for the new id raises. *)
Lemma add_record_duckdb_raises record_data now st :
  exists e st',
    add_record duckdb "food_consumption" record_data now st = (Raise e, st').
Proof.
  unfold add_record. simpl. unfold bind.
  destruct (insert_food duckdb (bind_values record_data) now st)
    as [[u|e] st'].
  - simpl. eauto.
  - eauto.
Qed.

(** On an engine with every construct the statements use, the record is
    stored with id 1, version 1 and the time of the call, and found again. *)
Lemma add_then_get_rowid_engine :
  add_record rowid_engine "food_consumption" almonds 100 empty_store
    = (Ok (Some 1%Z), one_record) /\
  get_record_by_id "food_consumption" 1 one_record
    = (Ok (Some (almonds_row 1)), one_record).
Proof.
  split; [|reflexivity].
  cbv -[convert]. rewrite convert_as_given by reflexivity. reflexivity.
Qed.

(** C2: a valid record is added to the empty store.  The statement gives no
    [id], the column has no default on DuckDB, and the INSERT is refused:
    [add_record] raises, returns no id, and stores nothing. *)
Theorem add_record_duckdb_constraint_error :
  add_record duckdb "food_consumption" almonds 100 empty_store
    = (Raise ConstraintError, empty_store) /\
  get_record_by_id "food_consumption" 1 empty_store = (Ok None, empty_store).
Proof.
  split; [|reflexivity].
  cbv -[convert]. rewrite convert_as_given by reflexivity. reflexivity.
Qed.

Lemma update_record_absent_id st record_id record_data now :
  select_by_id (food_consumption st) record_id = None ->
  update_record "food_consumption" record_id record_data now st
    = (Raise TypeError, st).
Proof.
  intros H. unfold update_record. simpl.
  unfold bind, read_version, bind, get_state.
  rewrite H. reflexivity.
Qed.

(** C3: record 7 is not in the table.  [update_record] leaves the store as it
    is, but what leaves the function is the [TypeError] of [None[0]], not a
    result that says the record was not found; [delete_record], next to it,
    tests for the missing row and returns [False]. *)
Theorem update_record_absent_id_type_error :
  select_by_id (food_consumption one_record) 7 = None /\
  update_record "food_consumption" 7 almonds 500 one_record
    = (Raise TypeError, one_record) /\
  delete_record duckdb "food_consumption" 7 500 one_record
    = (Ok false, one_record).
Proof. repeat split. Qed.

(** On DuckDB [delete_record] raises for every record that exists, before
    anything is written. *)
Lemma delete_record_duckdb st record_id now r :
  select_by_id (food_consumption st) record_id = Some r ->
  delete_record duckdb "food_consumption" record_id now st
    = (Raise AttributeError, st).
Proof.
  intros H. unfold delete_record, get_record_by_id, bind, get_state, ret.
  simpl. rewrite H. reflexivity.
Qed.

(** On DuckDB [undo_delete] never returns [True]. *)
Lemma undo_delete_duckdb_never_true id tbl now st :
  fst (undo_delete duckdb id tbl now st) <> Ok true.
Proof.
  unfold undo_delete, bind, get_state.
  destruct (latest id tbl (deleted_records st)) as [i|]; [|simpl; discriminate].
  destruct (nth_error (deleted_records st) i) as [t|]; [|simpl; discriminate].
  destruct (lift (json_loads (record_data t)) st) as [[document|e] st0];
    [|simpl; discriminate].
  destruct (insert_into duckdb tbl document now st0) as [[u|e] st'];
    simpl; discriminate.
Qed.

(** C4: record 1 is in the table.  [delete_record] raises [AttributeError]
    at [record.keys()], the row being a tuple, and writes no tombstone; the
    [undo_delete] that follows finds none and returns [False].  Neither call
    returns [True]. *)
Theorem delete_then_undo_duckdb :
  delete_record duckdb "food_consumption" 1 200 one_record
    = (Raise AttributeError, one_record) /\
  undo_delete duckdb 1 "food_consumption" 300 one_record
    = (Ok false, one_record).
Proof. split; reflexivity. Qed.

(** With every construct available the first [undo_delete] restores the
    latest deletion and removes its tombstone.  A second [undo_delete] right
    after it is refused by the primary key, the restored record having the id
    of the older tombstone; that one stays in the log. *)
Lemma undo_twice_rowid_engine :
  undo_delete rowid_engine 1 "food_consumption" 500 two_tombstones
    = (Ok true,
       {| food_consumption := [almonds_row 2];
          deleted_records := [tomb 1 200] |}) /\
  undo_delete rowid_engine 1 "food_consumption" 600
    {| food_consumption := [almonds_row 2]; deleted_records := [tomb 1 200] |}
    = (Raise ConstraintError,
       {| food_consumption := [almonds_row 2];
          deleted_records := [tomb 1 200] |}).
Proof.
  split; cbv -[convert]; rewrite convert_as_given by reflexivity; reflexivity.
Qed.

(** C5: two tombstones of record 1.  The first [undo_delete] inserts the
    record of the latest tombstone and then raises at the DELETE statement,
    which DuckDB does not parse: no tombstone is removed.  The second
    [undo_delete] selects the same tombstone again and is refused by the
    primary key; the earlier deletion is never restored. *)
Theorem undo_twice_duckdb :
  undo_delete duckdb 1 "food_consumption" 500 two_tombstones
    = (Raise ParserError, restored_latest) /\
  undo_delete duckdb 1 "food_consumption" 600 restored_latest
    = (Raise ConstraintError, restored_latest).
Proof.
  split; cbv -[convert]; rewrite convert_as_given by reflexivity; reflexivity.
Qed.
End StoreFacts.

(** With rows that have [keys()], timestamps fetched as text and the
    conversions of the example engine, the record is moved to the log and
    back. *)
Lemma delete_undo_rowid_engine :
  delete_record rowid_engine "food_consumption" 1 200 one_record
    = (Ok true, {| food_consumption := []; deleted_records := [tomb 1 200] |})
  /\
  undo_delete rowid_engine 1 "food_consumption" 300
    {| food_consumption := []; deleted_records := [tomb 1 200] |}
    = (Ok true, one_record).
Proof. split; reflexivity. Qed.

(** ** Updates that read the same version *)

Lemma assign_app a1 a2 r : assign (a1 ++ a2) r = assign a2 (assign a1 r).
Proof. unfold assign. apply fold_left_app. Qed.

Lemma assign_get_other (a : row) (r : row) col :
  ~ In col (dict_keys a) -> dict_get col (assign a r) = dict_get col r.
Proof.
  revert r. induction a as [|[k c] a IH]; intros r Hn; simpl.
  - reflexivity.
  - unfold assign in *. simpl. rewrite IH by (simpl in Hn; tauto).
    apply dict_get_set_neq. simpl in Hn. intros ->. tauto.
Qed.

Lemma bind_values_keys (record_data : record) :
  dict_keys (bind_values record_data) = dict_keys record_data.
Proof.
  unfold dict_keys, bind_values. rewrite map_map. apply map_ext. now intros [k v].
Qed.

Lemma dict_keys_app {V} (a b : dict V) :
  dict_keys (a ++ b) = dict_keys a ++ dict_keys b.
Proof. unfold dict_keys. apply map_app. Qed.

Lemma updated_version data n now r :
  field_of (updated (data ++ [("version", Val (VInt (n + 1)))]) now r) "version"
  = Val (VInt (n + 1)).
Proof.
  unfold updated, field_of. rewrite !assign_app. unfold assign at 1 2.
  cbn [fold_left].
  rewrite dict_get_set_neq by discriminate.
  now rewrite dict_get_set_eq.
Qed.

Lemma updated_other_column data x now r col :
  col <> "version" -> col <> "updated_at" ->
  dict_get col (updated (data ++ [("version", x)]) now r)
  = dict_get col (assign data r).
Proof.
  intros H1 H2. unfold updated. rewrite !assign_app. unfold assign at 1 2.
  cbn [fold_left].
  rewrite dict_get_set_neq by assumption.
  now rewrite dict_get_set_neq by assumption.
Qed.

Lemma updated_id data x now r :
  ~ In "id" (dict_keys data) ->
  row_id (updated (data ++ [("version", x)]) now r) = row_id r.
Proof.
  intros Hid. unfold row_id, field_of.
  rewrite updated_other_column by discriminate.
  now rewrite assign_get_other.
Qed.

Lemma updated_not_null data x y now r :
  violates_not_null (updated (data ++ [("version", x)]) now r)
  = violates_not_null (updated (data ++ [("version", y)]) now r).
Proof.
  unfold violates_not_null, not_null_columns, field_of. cbn [existsb].
  rewrite !(updated_other_column data x now r) by discriminate.
  rewrite !(updated_other_column data y now r) by discriminate.
  reflexivity.
Qed.

Lemma updated_row_id data x y now r :
  row_id (updated (data ++ [("version", x)]) now r)
  = row_id (updated (data ++ [("version", y)]) now r).
Proof.
  unfold row_id, field_of.
  rewrite (updated_other_column data x now r) by discriminate.
  rewrite (updated_other_column data y now r) by discriminate.
  reflexivity.
Qed.

Lemma find_map_same_key (p : row -> bool) (f : row -> row) rows :
  (forall r, p (f r) = p r) ->
  find p (map f rows) = option_map f (find p rows).
Proof.
  intros H. induction rows as [|r rows IH]; simpl; [reflexivity|].
  rewrite H. destruct (p r); [reflexivity|assumption].
Qed.

Lemma existsb_map_ext {A C} (p : C -> bool) (f g : A -> C) l :
  (forall x, p (f x) = p (g x)) -> existsb p (map f l) = existsb p (map g l).
Proof.
  intros H. induction l as [|x l IH]; simpl; [reflexivity|]. now rewrite H, IH.
Qed.

Lemma ids_unique_map_ext (f g : row -> row) rows :
  (forall r, row_id (f r) = row_id (g r)) ->
  ids_unique (map f rows) = ids_unique (map g rows).
Proof.
  intros H. induction rows as [|r rows IH]; simpl; [reflexivity|].
  rewrite H, IH. destruct (row_id (g r)) as [z|]; [|reflexivity].
  f_equal. f_equal. apply existsb_map_ext. intros x. unfold has_id. now rewrite H.
Qed.

Lemma select_by_id_matches rows record_id r :
  select_by_id rows record_id = Some r ->
  existsb (has_id record_id) rows = true.
Proof.
  intros H. apply find_some in H as [Hin Hr]. apply existsb_exists. eauto.
Qed.

Section UpdateFacts.
Context {K : Casts}.

Lemma convert_keys given converted :
  convert given = Ok converted -> dict_keys converted = dict_keys given.
Proof.
  revert converted. induction given as [|[col c] rest IH]; intros converted.
  - intros H. now injection H as <-.
  - cbn [convert]. destruct (cast (column_type col) c) as [c'|]; [|discriminate].
    destruct (convert rest) as [rest'|]; [|discriminate].
    intros H. injection H as <-. cbn. f_equal. now apply IH.
Qed.

Lemma convert_get given converted k :
  convert given = Ok converted ->
  match dict_get k given with
  | Some c =>
      exists c', cast (column_type k) c = Ok c' /\ dict_get k converted = Some c'
  | None => dict_get k converted = None
  end.
Proof.
  revert converted. induction given as [|[col c] rest IH]; intros converted.
  - intros H. now injection H as <-.
  - cbn [convert]. destruct (cast (column_type col) c) as [c'|] eqn:Ec;
      [|discriminate].
    destruct (convert rest) as [rest'|]; [|discriminate].
    intros H. injection H as <-. cbn [dict_get].
    destruct (String.eqb_spec k col) as [->|Hne]; [eauto|].
    now apply IH.
Qed.

Lemma convert_app a b :
  convert (a ++ b)
  = match convert a with
    | Ok a' =>
        match convert b with
        | Ok b' => Ok (a' ++ b')
        | Raise ex => Raise ex
        end
    | Raise ex => Raise ex
    end.
Proof.
  induction a as [|[col c] a IH]; cbn [List.app convert].
  - now destruct (convert b).
  - destruct (cast (column_type col) c) as [c'|]; [|reflexivity].
    rewrite IH. destruct (convert a) as [a'|]; [|reflexivity].
    now destruct (convert b).
Qed.

(** The version among the converted parameters is the one passed. *)
Lemma convert_update_parameters record_data n converted :
  convert (update_parameters record_data n) = Ok converted ->
  exists data,
    convert (bind_values record_data) = Ok data /\
    converted = data ++ [("version", Val (VInt (n + 1)))].
Proof.
  unfold update_parameters. rewrite convert_app.
  destruct (convert (bind_values record_data)) as [data|]; [|discriminate].
  cbn [convert]. change (column_type "version") with INTEGER.
  destruct (cast INTEGER (Val (VInt (n + 1)))) as [c|] eqn:Ec; [|discriminate].
  apply cast_integer in Ec. subst c. intros H. injection H as <-. eauto.
Qed.

(** What an accepted UPDATE statement has stored. *)
Lemma write_update_accepted record_id record_data cv now st st' :
  write_update record_id record_data cv now st = (Ok tt, st') ->
  exists n,
    cv = Val (VInt n) /\
    unique_keys (dict_keys (update_parameters record_data n) ++ ["updated_at"])
    = true /\
    ((existsb (has_id record_id) (food_consumption st) = false /\ st' = st) \/
     exists data,
       convert (bind_values record_data) = Ok data /\
       st' = {| food_consumption :=
                  map (fun r =>
                         if has_id record_id r
                         then updated (data ++ [("version", Val (VInt (n + 1)))])
                                now r
                         else r) (food_consumption st);
                deleted_records := deleted_records st |}).
Proof.
  unfold write_update, bind, lift, successor, get_state, raise, put_state, ret.
  destruct cv as [[|b|n|f|s]|t]; try discriminate.
  destruct record_data as [|p rest] eqn:Ed; [discriminate|]. rewrite <- Ed.
  fold (update_parameters record_data n).
  destruct (negb (forallb _ _)) eqn:E1; [discriminate|].
  destruct (negb (unique_keys _)) eqn:E2; [discriminate|].
  cbn [orb]. apply negb_false_iff in E2.
  destruct (converts_unused || existsb (has_id record_id) (food_consumption st))
    eqn:E3.
  - destruct (convert (update_parameters record_data n)) as [converted|] eqn:Ec;
      [|discriminate].
    destruct (existsb _ _ || negb _); [discriminate|].
    intros H. injection H as <-. exists n. split; [reflexivity|].
    split; [assumption|]. right.
    apply convert_update_parameters in Ec as (data & Hd & ->).
    exists data. split; [assumption|reflexivity].
  - intros H. injection H as <-. exists n. split; [reflexivity|].
    split; [assumption|]. left. apply orb_false_iff in E3 as [_ E3]. now split.
Qed.

(** An accepted UPDATE leaves every row that had the id with the successor
    of the version that was passed in, whatever version the row had. *)
Lemma write_update_version_at record_id record_data n now st st' p r :
  write_update record_id record_data (Val (VInt n)) now st = (Ok tt, st') ->
  nth_error (food_consumption st) p = Some r ->
  has_id record_id r = true ->
  exists r',
    nth_error (food_consumption st') p = Some r' /\
    field_of r' "version" = Val (VInt (n + 1)).
Proof.
  intros Hw Hp Hr.
  apply write_update_accepted in Hw as (n' & Hn & _ & [[Hno _]|(data & _ & ->)]).
  - assert (existsb (has_id record_id) (food_consumption st) = true).
    { apply existsb_exists. exists r. split; [|assumption].
      eapply nth_error_In; eauto. }
    congruence.
  - injection Hn as <-. cbn [food_consumption].
    rewrite nth_error_map, Hp. cbn [option_map]. rewrite Hr.
    eexists. split; [reflexivity|]. apply updated_version.
Qed.

(** A row that has the successor of the version passed in has it after the
    UPDATE, whether the statement touches the row or not. *)
Lemma write_update_version_kept record_id record_data n now st st' p r :
  write_update record_id record_data (Val (VInt n)) now st = (Ok tt, st') ->
  nth_error (food_consumption st) p = Some r ->
  field_of r "version" = Val (VInt (n + 1)) ->
  exists r',
    nth_error (food_consumption st') p = Some r' /\
    field_of r' "version" = Val (VInt (n + 1)).
Proof.
  intros Hw Hp Hr.
  apply write_update_accepted in Hw as (n' & Hn & _ & [[_ ->]|(data & _ & ->)]).
  - eauto.
  - injection Hn as <-. cbn [food_consumption].
    rewrite nth_error_map, Hp. cbn [option_map].
    destruct (has_id record_id r).
    + eexists. split; [reflexivity|]. apply updated_version.
    + eauto.
Qed.

(** After an accepted UPDATE every row has the successor of the version
    that was passed in, or is a row of before that does not have the id;
    the table has as many rows as before. *)
Lemma write_update_rows record_id record_data n now st st' :
  write_update record_id record_data (Val (VInt n)) now st = (Ok tt, st') ->
  length (food_consumption st') = length (food_consumption st) /\
  forall r',
    In r' (food_consumption st') ->
    field_of r' "version" = Val (VInt (n + 1)) \/
    (In r' (food_consumption st) /\ has_id record_id r' = false).
Proof.
  intros Hw.
  apply write_update_accepted in Hw as (n' & Hn & _ & [[Hno ->]|(data & _ & ->)]).
  - split; [reflexivity|]. intros r' Hin. right. split; [assumption|].
    destruct (has_id record_id r') eqn:E; [|reflexivity].
    assert (existsb (has_id record_id) (food_consumption st) = true)
      by (apply existsb_exists; eauto).
    congruence.
  - injection Hn as <-. cbn [food_consumption]. split; [apply length_map|].
    intros r' Hin. apply in_map_iff in Hin as (r & <- & Hin).
    destruct (has_id record_id r) eqn:E.
    + left. apply updated_version.
    + right. now split.
Qed.

(** With data that does not assign [id], the record of the id is the one
    the accepted UPDATE has written. *)
Lemma write_update_version record_id record_data n now st st' r :
  dict_mem "id" record_data = false ->
  select_by_id (food_consumption st) record_id = Some r ->
  write_update record_id record_data (Val (VInt n)) now st = (Ok tt, st') ->
  exists data,
    convert (bind_values record_data) = Ok data /\
    select_by_id (food_consumption st') record_id
    = Some (updated (data ++ [("version", Val (VInt (n + 1)))]) now r) /\
    version_of st' record_id = Some (Val (VInt (n + 1))).
Proof.
  intros Hid Hsel Hw.
  apply write_update_accepted in Hw
    as (n' & Hn & _ & [[Hno _]|(data & Hd & ->)]).
  { apply select_by_id_matches in Hsel. congruence. }
  injection Hn as <-. exists data. split; [assumption|].
  assert (Hkeys : ~ In "id" (dict_keys data)).
  { rewrite (convert_keys _ Hd), bind_values_keys. intros Hin.
    apply dict_mem_In in Hin. congruence. }
  assert (Hfind : select_by_id
            (map (fun r0 =>
                    if has_id record_id r0
                    then updated (data ++ [("version", Val (VInt (n + 1)))])
                           now r0
                    else r0) (food_consumption st)) record_id
          = Some (updated (data ++ [("version", Val (VInt (n + 1)))]) now r)).
  { unfold select_by_id in *. rewrite find_map_same_key.
    - rewrite Hsel. simpl. apply find_some in Hsel as [_ Hr]. now rewrite Hr.
    - intros r0. destruct (has_id record_id r0) eqn:E; [|assumption].
      unfold has_id in *. now rewrite updated_id. }
  unfold version_of. cbn [food_consumption]. rewrite Hfind.
  split; [reflexivity|]. cbn [option_map]. f_equal. apply updated_version.
Qed.

(** Whether the UPDATE statement is accepted does not depend on the version
    that was read before it, as long as the column takes its successor. *)
Lemma write_update_any_version record_id record_data n m c now st :
  cast INTEGER (Val (VInt (m + 1))) = Ok c ->
  fst (write_update record_id record_data (Val (VInt n)) now st) = Ok tt ->
  fst (write_update record_id record_data (Val (VInt m)) now st) = Ok tt.
Proof.
  intros Hc. pose proof (cast_integer _ Hc) as ->.
  unfold write_update, bind, lift, successor, get_state, raise, put_state, ret.
  destruct record_data as [|p rest] eqn:Ed; [discriminate|]. rewrite <- Ed.
  rewrite !dict_keys_app. cbn [dict_keys map fst].
  destruct (negb _ || negb _); [discriminate|].
  destruct (converts_unused || existsb (has_id record_id) (food_consumption st));
    [|reflexivity].
  rewrite !convert_app.
  destruct (convert (bind_values record_data)) as [data|]; [|discriminate].
  cbn [convert]. change (column_type "version") with INTEGER. rewrite Hc.
  destruct (cast INTEGER (Val (VInt (n + 1)))) as [c|] eqn:En; [|discriminate].
  apply cast_integer in En. subst c.
  fold (updated (data ++ [("version", Val (VInt (n + 1)))]) now).
  fold (updated (data ++ [("version", Val (VInt (m + 1)))]) now).
  set (f1 := fun r : row => if has_id record_id r then _ else r).
  set (f2 := fun r : row => if has_id record_id r then _ else r).
  assert (Hnn : existsb violates_not_null (map f1 (food_consumption st))
                = existsb violates_not_null (map f2 (food_consumption st))).
  { apply existsb_map_ext. intros r. subst f1 f2. cbv beta.
    destruct (has_id record_id r); [|reflexivity]. apply updated_not_null. }
  assert (Hid : ids_unique (map f1 (food_consumption st))
                = ids_unique (map f2 (food_consumption st))).
  { apply ids_unique_map_ext. intros r. subst f1 f2. cbv beta.
    destruct (has_id record_id r); [|reflexivity]. apply updated_row_id. }
  rewrite Hnn, Hid.
  destruct (existsb _ _ || negb _); [discriminate|reflexivity].
Qed.

(** Two updates of record 1 that both read version 1 are both accepted, on
    every engine: their data is text. *)
Lemma stale_updates_accepted :
  let first := [("notes", VStr "first")] in
  let second := [("notes", VStr "second")] in
  let st1 := snd (write_update 1 first (Val (VInt 1)) 200 one_record) in
  let st2 := snd (write_update 1 second (Val (VInt 1)) 300 st1) in
  read_version 1 one_record = (Ok (Val (VInt 1)), one_record) /\
  fst (write_update 1 first (Val (VInt 1)) 200 one_record) = Ok tt /\
  fst (write_update 1 second (Val (VInt 1)) 300 st1) = Ok tt /\
  version_of st1 1 = Some (Val (VInt 2)) /\
  version_of st2 1 = Some (Val (VInt 2)).
Proof.
  assert (H1 : forall now text,
            write_update 1 [("notes", VStr text)] (Val (VInt 1)) now one_record
            = (Ok tt,
               {| food_consumption :=
                    [updated [("notes", Val (VStr text));
                              ("version", Val (VInt 2))] now (almonds_row 1)];
                  deleted_records := [] |})).
  { intros now text. cbv -[convert converts_unused].
    rewrite convert_as_given by reflexivity.
    destruct converts_unused; reflexivity. }
  assert (H2 : forall now now' text text',
            write_update 1 [("notes", VStr text)] (Val (VInt 1)) now
              {| food_consumption :=
                   [updated [("notes", Val (VStr text'));
                             ("version", Val (VInt 2))] now' (almonds_row 1)];
                 deleted_records := [] |}
            = (Ok tt,
               {| food_consumption :=
                    [updated [("notes", Val (VStr text));
                              ("version", Val (VInt 2))] now (almonds_row 1)];
                  deleted_records := [] |})).
  { intros now now' text text'. cbv -[convert converts_unused].
    rewrite convert_as_given by reflexivity.
    destruct converts_unused; reflexivity. }
  intros first second st1 st2. subst first second st1 st2.
  rewrite H1. cbn [fst snd]. rewrite H2. cbn [fst snd].
  repeat split.
Qed.

(** C9, amended: two updates of a record both read version [n] and both
    UPDATE statements are accepted.  Each writes version [n + 1]: after the
    first and after the second, every row of the table has version [n + 1]
    or is a row of before the updates that does not have the id, whatever
    the updates assign; the table has as many rows as before, and one of
    them holds version [n + 1]: one increment is lost.  With updates that do
    not assign [id], the record of the id has version [n + 1] after each.
    The second statement is accepted with every version whose successor the
    column takes; the stored version is never compared with the version
    that was read. *)
Theorem stale_updates_lose_a_version st record_id n first second now1 now2
    st1 st2 :
  read_version record_id st = (Ok (Val (VInt n)), st) ->
  write_update record_id first (Val (VInt n)) now1 st = (Ok tt, st1) ->
  write_update record_id second (Val (VInt n)) now2 st1 = (Ok tt, st2) ->
  (forall r1,
     In r1 (food_consumption st1) ->
     field_of r1 "version" = Val (VInt (n + 1)) \/
     (In r1 (food_consumption st) /\ has_id record_id r1 = false)) /\
  (forall r2,
     In r2 (food_consumption st2) ->
     field_of r2 "version" = Val (VInt (n + 1)) \/
     (In r2 (food_consumption st) /\ has_id record_id r2 = false)) /\
  length (food_consumption st2) = length (food_consumption st) /\
  (exists r2, In r2 (food_consumption st2) /\
              field_of r2 "version" = Val (VInt (n + 1))) /\
  (dict_mem "id" first = false -> dict_mem "id" second = false ->
   version_of st1 record_id = Some (Val (VInt (n + 1))) /\
   version_of st2 record_id = Some (Val (VInt (n + 1)))) /\
  (forall m c,
     cast INTEGER (Val (VInt (m + 1))) = Ok c ->
     fst (write_update record_id second (Val (VInt m)) now2 st1) = Ok tt).
Proof.
  intros Hread Hw1 Hw2.
  assert (Hsel : exists r,
            select_by_id (food_consumption st) record_id = Some r /\
            field_of r "version" = Val (VInt n)).
  { unfold read_version, bind, get_state, ret in Hread.
    destruct (select_by_id (food_consumption st) record_id) as [r|];
      [|discriminate].
    exists r. split; [reflexivity|]. now injection Hread. }
  destruct Hsel as (r & Hsel & Hv).
  destruct (write_update_rows _ _ _ _ _ Hw1) as [Hlen1 Hrows1].
  destruct (write_update_rows _ _ _ _ _ Hw2) as [Hlen2 Hrows2].
  split; [exact Hrows1|]. split; [|split; [|split; [|split]]].
  - intros r2 Hin. destruct (Hrows2 r2 Hin) as [H|[H _]]; [now left|].
    apply (Hrows1 r2 H).
  - congruence.
  - pose proof Hsel as Hfind. apply find_some in Hfind as [Hin Hr].
    apply In_nth_error in Hin as [p Hp].
    destruct (@write_update_version_at record_id first n now1 st st1 p r
                Hw1 Hp Hr) as (r1 & Hp1 & Hv1).
    destruct (@write_update_version_kept record_id second n now2 st1 st2 p r1
                Hw2 Hp1 Hv1) as (r2 & Hp2 & Hv2).
    exists r2. split; [|assumption]. eapply nth_error_In; eauto.
  - intros Hid1 Hid2.
    destruct (@write_update_version record_id first n now1 st st1 r
                Hid1 Hsel Hw1) as (data1 & _ & Hsel1 & Hv1).
    destruct (@write_update_version record_id second n now2 st1 st2 _
                Hid2 Hsel1 Hw2) as (data2 & _ & _ & Hv2).
    split; assumption.
  - intros m c Hc.
    apply (@write_update_any_version record_id second n m c now2 st1 Hc).
    now rewrite Hw2.
Qed.
End UpdateFacts.

(** C9, as stated, fails: two updates of record 1 both read version 1; both
    UPDATE statements are accepted, and the record ends with version 2. *)
Lemma stale_updates_both_succeed :
  let first := [("notes", VStr "first")] in
  let second := [("notes", VStr "second")] in
  let st1 := snd (write_update 1 first (Val (VInt 1)) 200 one_record) in
  let st2 := snd (write_update 1 second (Val (VInt 1)) 300 st1) in
  read_version 1 one_record = (Ok (Val (VInt 1)), one_record) /\
  fst (write_update 1 first (Val (VInt 1)) 200 one_record) = Ok tt /\
  fst (write_update 1 second (Val (VInt 1)) 300 st1) = Ok tt /\
  version_of st1 1 = Some (Val (VInt 2)) /\
  version_of st2 1 = Some (Val (VInt 2)).
Proof. exact (@stale_updates_accepted example_casts). Qed.

Lemma stale_updates_lose_a_version_witness :
  let first := [("notes", VStr "first")] in
  let second := [("notes", VStr "second")] in
  let st1 := snd (write_update 1 first (Val (VInt 1)) 200 one_record) in
  let st2 := snd (write_update 1 second (Val (VInt 1)) 300 st1) in
  read_version 1 one_record = (Ok (Val (VInt 1)), one_record) /\
  write_update 1 first (Val (VInt 1)) 200 one_record = (Ok tt, st1) /\
  write_update 1 second (Val (VInt 1)) 300 st1 = (Ok tt, st2) /\
  version_of st2 1 = Some (Val (VInt (1 + 1))).
Proof.
  intros first second st1 st2.
  assert (H3 : read_version 1 one_record = (Ok (Val (VInt 1)), one_record))
    by reflexivity.
  assert (H4 : write_update 1 first (Val (VInt 1)) 200 one_record
               = (Ok tt, st1)) by reflexivity.
  assert (H5 : write_update 1 second (Val (VInt 1)) 300 st1 = (Ok tt, st2))
    by reflexivity.
  repeat (split; [assumption|]).
  destruct (@stale_updates_lose_a_version example_casts one_record 1 1 first
              second 200 300 st1 st2 H3 H4 H5) as (_ & _ & _ & _ & H & _).
  exact (proj2 (H eq_refl eq_refl)).
Defined.

(** ** More on [validate_record] *)

Section RecordMore.
Context {B : Builtins}.

(** One turn of the loop, without the monad. *)
Lemma validate_field_cases field m errs r :
  validate_field field (CMap m) errs r =
  if is_required m && is_missing r field
  then (Ok (dict_set field (IsRequired field) errs), r)
  else if is_missing r field then (Ok errs, r)
  else
    match (if match dict_get "type" m with Some c => truthy c | None => false end
           then conversion (dict_get "type" m) else None) with
    | Some (ty, convert) =>
        match convert (item r field) with
        | Ok v => (bounds_outcome field m (dict_get "type" m) errs v,
                   dict_set field v r)
        | Raise ValueError | Raise TypeError =>
            (Ok (dict_set field (MustBeValid field ty) errs), r)
        | Raise e => (Raise e, r)
        end
    | None => (bounds_outcome field m (dict_get "type" m) errs (item r field), r)
    end.
Proof.
  unfold validate_field, bind, get_state, ret, put_state, raise.
  destruct (is_required m && is_missing r field); [reflexivity|].
  destruct (is_missing r field); [reflexivity|].
  destruct (if match dict_get "type" m with Some c => truthy c | None => false end
            then conversion (dict_get "type" m) else None) as [[ty convert]|].
  - destruct (convert (item r field)) as [v|e].
    + rewrite check_bounds_state. unfold item at 1.
      now rewrite dict_get_set_eq.
    + destruct e; reflexivity.
  - apply check_bounds_state.
Qed.

Lemma not_missing_present r field :
  is_missing r field = false -> dict_mem field r = true.
Proof.
  unfold is_missing, dict_mem. destruct (dict_get field r); [reflexivity|discriminate].
Qed.

Lemma validate_field_keys field rules errs r res r' :
  validate_field field rules errs r = (res, r') -> dict_keys r' = dict_keys r.
Proof.
  destruct rules as [| | |m];
    try (unfold validate_field, raise; intros H; injection H as _ <-; reflexivity).
  rewrite validate_field_cases.
  destruct (is_required m && is_missing r field).
  { intros H; injection H as _ <-. reflexivity. }
  destruct (is_missing r field) eqn:Em.
  { intros H; injection H as _ <-. reflexivity. }
  destruct (if match dict_get "type" m with Some c => truthy c | None => false end
            then conversion (dict_get "type" m) else None) as [[ty convert]|].
  - destruct (convert (item r field)) as [v|e].
    + intros H; injection H as _ <-.
      apply dict_keys_set_present. now apply not_missing_present.
    + destruct e; intros H; injection H as _ <-; reflexivity.
  - intros H; injection H as _ <-. reflexivity.
Qed.

Lemma validate_fields_keys schema errs r res r' :
  validate_fields schema errs r = (res, r') -> dict_keys r' = dict_keys r.
Proof.
  revert errs r. induction schema as [|[field rules] rest IH]; simpl; intros errs r.
  - unfold ret. intros H; injection H as _ <-. reflexivity.
  - unfold bind.
    destruct (validate_field field rules errs r) as [[e1|x] r1] eqn:E.
    + intros H. rewrite (IH _ _ H). eapply validate_field_keys; eauto.
    + intros H; injection H as _ <-. eapply validate_field_keys; eauto.
Qed.

(** X2: whatever its outcome, [validate_record] adds no key to the
    record and removes none, and a field that the schema of the table does
    not name keeps its value. *)
Theorem validate_record_keeps_other_fields sch table_name r res r' :
  validate_record sch table_name r = (res, r') ->
  dict_keys r' = dict_keys r /\
  forall schema field,
    dict_get table_name sch = Some schema ->
    ~ In field (dict_keys schema) ->
    dict_get field r' = dict_get field r.
Proof.
  unfold validate_record. unfold schemas, table_schema in *.
  destruct (dict_get table_name sch) as [schema|]; intros H.
  - split; [eapply validate_fields_keys; eauto|].
    intros schema' field Hs Hn. injection Hs as <-.
    eapply validate_fields_frame; eauto.
  - injection H as _ <-. split; [reflexivity|]. intros schema field Hs. discriminate.
Qed.

(** Errors: a turn writes the mapping at its own field only, and removes
    nothing from it. *)
Lemma bounds_outcome_errors field m et errs v errs' other :
  bounds_outcome field m et errs v = Ok errs' ->
  other <> field -> dict_get other errs' = dict_get other errs.
Proof.
  unfold bounds_outcome.
  destruct ((is_type et TyInt || is_type et TyFloat) && is_number v).
  2:{ intros H; injection H as <-. reflexivity. }
  intros H Hne.
  destruct (dict_get "min" m) as [lo|].
  - destruct (py_lt v lo) as [below|]; [|discriminate].
    destruct (dict_get "max" m) as [hi|].
    + destruct (py_gt v hi) as [above|]; [|discriminate]. injection H as <-.
      destruct above, below; rewrite ?dict_get_set_neq by assumption; reflexivity.
    + injection H as <-.
      destruct below; rewrite ?dict_get_set_neq by assumption; reflexivity.
  - destruct (dict_get "max" m) as [hi|].
    + destruct (py_gt v hi) as [above|]; [|discriminate]. injection H as <-.
      destruct above; rewrite ?dict_get_set_neq by assumption; reflexivity.
    + injection H as <-. reflexivity.
Qed.

Lemma validate_field_errors field rules errs r errs' r' other :
  validate_field field rules errs r = (Ok errs', r') ->
  other <> field -> dict_get other errs' = dict_get other errs.
Proof.
  destruct rules as [| | |m]; try discriminate.
  rewrite validate_field_cases.
  destruct (is_required m && is_missing r field).
  { intros H Hne; injection H as <- _. now apply dict_get_set_neq. }
  destruct (is_missing r field).
  { intros H; injection H as <- _. reflexivity. }
  destruct (if match dict_get "type" m with Some c => truthy c | None => false end
            then conversion (dict_get "type" m) else None) as [[ty convert]|].
  - destruct (convert (item r field)) as [v|e].
    + intros H Hne. injection H as H _. eapply bounds_outcome_errors; eauto.
    + destruct e; try discriminate; intros H Hne; injection H as <- _;
        now apply dict_get_set_neq.
  - intros H Hne. injection H as H _. eapply bounds_outcome_errors; eauto.
Qed.

Lemma validate_fields_errors schema errs r errs' r' other :
  validate_fields schema errs r = (Ok errs', r') ->
  ~ In other (dict_keys schema) -> dict_get other errs' = dict_get other errs.
Proof.
  revert errs r. induction schema as [|[field rules] rest IH]; simpl; intros errs r.
  - unfold ret. intros H; injection H as <- _. reflexivity.
  - unfold bind.
    destruct (validate_field field rules errs r) as [[e1|x] r1] eqn:E; [|discriminate].
    intros H Hn. rewrite (IH _ _ H) by tauto.
    eapply validate_field_errors; [exact E|]. intros ->. tauto.
Qed.

(** X3: every key of the errors that [validate_record] returns is a
    field of the schema of the table. *)
Theorem validate_record_error_fields sch table_name schema r errs r' field :
  dict_get table_name sch = Some schema ->
  validate_record sch table_name r = (Ok errs, r') ->
  dict_mem field errs = true -> In field (dict_keys schema).
Proof.
  unfold validate_record. unfold schemas, table_schema in *.
  intros -> H Hmem.
  destruct (in_dec string_dec field (dict_keys schema)) as [Hin|Hn]; [assumption|].
  unfold dict_mem in Hmem.
  rewrite (@validate_fields_errors schema [] r errs r' field H Hn) in Hmem.
  discriminate.
Qed.

Lemma is_missing_same r1 r2 field :
  dict_get field r1 = dict_get field r2 -> is_missing r1 field = is_missing r2 field.
Proof. unfold is_missing. now intros ->. Qed.

Lemma required_field_reported schema :
  unique_keys (dict_keys schema) = true ->
  forall errs0 r0 errs r' field rules,
    dict_get field schema = Some (CMap rules) ->
    is_required rules = true -> is_missing r0 field = true ->
    validate_fields schema errs0 r0 = (Ok errs, r') ->
    dict_get field errs = Some (IsRequired field) /\
    dict_get field r' = dict_get field r0.
Proof.
  induction schema as [|[f0 rules0] rest IH]; intros Hu errs0 r0 errs r' field rules
    Hrules Hreq Hmiss Hrun; [discriminate|].
  change (unique_keys (f0 :: dict_keys rest) = true) in Hu.
  apply unique_keys_cons in Hu as [Hnotin Hu].
  simpl in Hrules, Hrun. unfold bind in Hrun.
  destruct (validate_field f0 rules0 errs0 r0) as [[e1|x] r1] eqn:E; [|discriminate].
  destruct (String.eqb_spec field f0) as [->|Hne].
  - injection Hrules as ->.
    rewrite validate_field_cases, Hreq, Hmiss in E. simpl in E.
    injection E as <- <-.
    rewrite (@validate_fields_errors rest _ _ _ _ f0 Hrun Hnotin).
    rewrite (@validate_fields_frame _ rest _ _ _ _ f0 Hrun Hnotin).
    split; [apply dict_get_set_eq|reflexivity].
  - assert (Hsame : dict_get field r1 = dict_get field r0)
      by (eapply validate_field_frame; eauto).
    rewrite <- Hsame.
    eapply IH; eauto.
    now rewrite (is_missing_same r1 r0 field Hsame).
Qed.

(** X4: a required field that is absent from the record, or is
    [None] or the empty text, is reported with the message "is required",
    and the record keeps at that field what it had. *)
Theorem validate_record_reports_required sch table_name schema r errs r' field
    rules :
  dict_get table_name sch = Some schema ->
  unique_keys (dict_keys schema) = true ->
  dict_get field schema = Some (CMap rules) ->
  is_required rules = true -> is_missing r field = true ->
  validate_record sch table_name r = (Ok errs, r') ->
  dict_get field errs = Some (IsRequired field) /\
  dict_get field r' = dict_get field r.
Proof.
  unfold validate_record. unfold schemas, table_schema in *.
  intros -> Hu Hrules Hreq Hmiss Hrun.
  eapply required_field_reported; eauto.
Qed.









End RecordMore.

Lemma validate_record_keeps_other_fields_witness :
  validate_record _get_default_schema "food_consumption" entered_with_source
    = (Ok [], ("source", VStr "survey") :: entered_coerced) /\
  dict_keys (("source", VStr "survey") :: entered_coerced)
    = dict_keys entered_with_source /\
  dict_get "source" (("source", VStr "survey") :: entered_coerced)
    = dict_get "source" entered_with_source.
Proof.
  assert (H : validate_record _get_default_schema "food_consumption"
                entered_with_source
              = (Ok [], ("source", VStr "survey") :: entered_coerced))
    by reflexivity.
  split; [exact H|].
  destruct (@validate_record_keeps_other_fields example_builtins _ _ _ _ _ H)
    as [H1 H2].
  split; [exact H1|].
  apply (H2 food_schema "source"); [reflexivity|].
  simpl. intuition discriminate.
Defined.

Lemma validate_record_error_fields_witness :
  dict_get "food_consumption" _get_default_schema = Some food_schema /\
  validate_record _get_default_schema "food_consumption" incomplete
    = (Ok [("age_group", IsRequired "age_group");
           ("mean_consumption_chronic",
            AtLeast "mean_consumption_chronic" (CVal (VInt 0)))],
       [("commodity", VStr "Almonds");
        ("mean_consumption_chronic", VFloat (FFin (inject_Z (-3))))]) /\
  In "age_group" (dict_keys food_schema).
Proof.
  assert (H1 : dict_get "food_consumption" _get_default_schema
               = Some food_schema) by reflexivity.
  assert (H2 : validate_record _get_default_schema "food_consumption" incomplete
    = (Ok [("age_group", IsRequired "age_group");
           ("mean_consumption_chronic",
            AtLeast "mean_consumption_chronic" (CVal (VInt 0)))],
       [("commodity", VStr "Almonds");
        ("mean_consumption_chronic", VFloat (FFin (inject_Z (-3))))]))
    by reflexivity.
  split; [exact H1|]. split; [exact H2|].
  exact (@validate_record_error_fields example_builtins _ _ _ _ _ _
           "age_group" H1 H2 eq_refl).
Defined.

Lemma validate_record_reports_required_witness :
  dict_get "age_group" food_schema
    = Some (CMap [("type", CType TyStr); ("required", CVal (VBool true))]) /\
  is_missing incomplete "age_group" = true /\
  dict_get "age_group"
    [("age_group", IsRequired "age_group");
     ("mean_consumption_chronic",
      AtLeast "mean_consumption_chronic" (CVal (VInt 0)))]
    = Some (IsRequired "age_group").
Proof.
  split; [reflexivity|]. split; [reflexivity|].
  refine (proj1 (@validate_record_reports_required example_builtins
                   _get_default_schema "food_consumption" food_schema incomplete
                   _ _ "age_group" _ eq_refl eq_refl eq_refl eq_refl eq_refl _)).
  reflexivity.
Defined.


(** ** What the column loop of [validate_dataframe] keeps true *)

Lemma for_acc_invariant {S A C} (J : C -> S -> Prop) (xs : list A)
    (body : A -> C -> M S C) :
  (forall x c s c' s', In x xs -> J c s -> body x c s = (Ok c', s') -> J c' s') ->
  forall c s c' s', J c s -> for_acc xs body c s = (Ok c', s') -> J c' s'.
Proof.
  induction xs as [|x xs IH]; intros Hb c s c' s' HJ Hrun.
  - injection Hrun as <- <-. assumption.
  - simpl in Hrun. apply bind_ok in Hrun as (c1 & s1 & H1 & H2).
    eapply IH; [| |exact H2].
    + intros. eapply Hb; eauto. now right.
    + eapply Hb; eauto. now left.
Qed.

Lemma for_each_invariant {S A} (J : S -> Prop) (xs : list A)
    (body : A -> M S unit) :
  (forall x s u s', In x xs -> J s -> body x s = (Ok u, s') -> J s') ->
  forall s u s', J s -> for_each xs body s = (Ok u, s') -> J s'.
Proof.
  induction xs as [|x xs IH]; intros Hb s u s' HJ Hrun.
  - injection Hrun as _ <-. assumption.
  - simpl in Hrun. apply bind_ok in Hrun as (c1 & s1 & H1 & H2).
    eapply IH; [| |exact H2].
    + intros. eapply Hb; eauto. now right.
    + eapply Hb; eauto. now left.
Qed.

Lemma shape_keys fr : map fst (shape fr) = dict_keys fr.
Proof.
  unfold shape, dict_keys. rewrite map_map. apply map_ext. now intros [c cells].
Qed.

Lemma shape_set_column col cells fr :
  dict_mem col fr = true -> length cells = length (column fr col) ->
  shape (dict_set col cells fr) = shape fr.
Proof.
  unfold dict_mem, column, shape.
  induction fr as [|[c0 cells0] fr IH]; simpl; [discriminate|].
  destruct (String.eqb_spec col c0) as [->|Hne]; simpl; intros Hm Hl.
  - now rewrite Hl.
  - now rewrite IH.
Qed.

Lemma shape_frame_len fr1 fr2 : shape fr1 = shape fr2 -> frame_len fr1 = frame_len fr2.
Proof.
  unfold shape, frame_len. destruct fr1 as [|[c1 x1] fr1], fr2 as [|[c2 x2] fr2];
    simpl; intros H; try discriminate; [reflexivity|]. now injection H.
Qed.

Lemma enumerate_from_In {A} (xs : list A) k i x :
  In (i, x) (enumerate_from k xs) -> nth_error xs (i - k) = Some x /\ (k <= i)%nat.
Proof.
  revert k. induction xs as [|y xs IH]; simpl; intros k; [tauto|].
  intros [H|H].
  - injection H as <- <-. rewrite Nat.sub_diag. simpl. auto.
  - apply IH in H as [H1 H2]. split; [|lia].
    replace (i - k)%nat with (S (i - S k)) by lia. exact H1.
Qed.

Lemma nth_error_repeat {A} (x y : A) n i :
  nth_error (repeat x n) i = Some y -> y = x /\ (i < n)%nat.
Proof.
  revert i. induction n as [|n IH]; intros [|i]; simpl; try discriminate.
  - intros H; injection H as <-. split; [reflexivity|lia].
  - intros H. apply IH in H as [-> Hi]. split; [reflexivity|lia].
Qed.

Lemma dict_at_store h d key msg :
  (d < length (dicts h))%nat ->
  dict_at (snd (dict_store d key msg h)) d = dict_set key msg (dict_at h d).
Proof. intros Hd. unfold dict_at, dict_store. simpl. now apply nth_replace_nth. Qed.

Lemma forallb_dict_set {V} (p : V -> bool) k v (d : dict V) :
  p v = true -> forallb (fun '(_, x) => p x) d = true ->
  forallb (fun '(_, x) => p x) (dict_set k v d) = true.
Proof.
  intros Hv. induction d as [|[k0 v0] d IH]; simpl.
  - now rewrite Hv.
  - destruct (k =? k0); simpl; intros H; apply andb_true_iff in H as [H1 H2].
    + now rewrite Hv, H2.
    + now rewrite H1, IH.
Qed.

Section BatchFacts.
Context {B : Builtins}.

(** Writing a message that is not "is required" for a row keeps the
    invariant and raises the flag. *)
Lemma row_error_invariant vdf d sh n i col msg flag h u h' :
  is_required_message msg = false ->
  batch_invariant vdf d sh n flag h ->
  row_error (repeat d n) i col msg h = (Ok u, h') ->
  batch_invariant vdf d sh n true h'.
Proof.
  intros Hmsg (Hsh & Hv & Hd & Hflag & Hn & Hall). unfold row_error.
  destruct (nth_error (repeat d n) i) as [d'|] eqn:E; [|discriminate].
  apply nth_error_repeat in E as [-> Hi].
  intros H.
  assert (Hh' : h' = snd (dict_store d col msg h)) by (now rewrite H).
  assert (Hat : dict_at h' d = dict_set col msg (dict_at h d))
    by (rewrite Hh'; now apply dict_at_store).
  unfold batch_invariant. rewrite Hat.
  unfold dict_store in H. injection H as _ <-. simpl. unfold frame_at in *. simpl.
  repeat split; auto.
  - rewrite replace_nth_length. assumption.
  - intros _. apply dict_set_not_nil.
  - intros _. lia.
  - apply (forallb_dict_set (fun x => negb (is_required_message x))); [|assumption].
    now rewrite Hmsg.
Qed.

Lemma mark_rows_invariant vdf d sh n col msg test cells flag h flag' h' :
  is_required_message msg = false ->
  batch_invariant vdf d sh n flag h ->
  mark_rows (repeat d n) col msg test cells flag h = (Ok flag', h') ->
  batch_invariant vdf d sh n flag' h'.
Proof.
  intros Hmsg HJ Hrun. unfold mark_rows in Hrun.
  revert flag h flag' h' HJ Hrun.
  apply (for_acc_invariant
           (fun c s => batch_invariant vdf d sh n c s)).
  intros [i val] c s c' s' _ HJ Hrun.
  apply bind_ok in Hrun as (hit & s1 & H1 & H2).
  unfold lift in H1. injection H1 as _ <-.
  destruct hit.
  - apply bind_ok in H2 as (u & s2 & H2 & H3).
    injection H3 as <- <-. eapply row_error_invariant; eauto.
  - injection H2 as <- <-. assumption.
Qed.

Lemma set_column_invariant vdf d sh n col (f : value -> value) flag h u h' :
  batch_invariant vdf d sh n flag h ->
  dict_mem col (frame_at h vdf) = true ->
  set_column vdf col (map f (column (frame_at h vdf) col)) h = (Ok u, h') ->
  batch_invariant vdf d sh n flag h'.
Proof.
  intros (Hsh & Hv & Hd & Hflag & Hn & Hall) Hmem H.
  unfold set_column, bind, read_frame, write_frame in H. injection H as _ <-.
  unfold batch_invariant, frame_at, dict_at in *. simpl.
  rewrite nth_replace_nth by assumption. rewrite replace_nth_length.
  repeat split; auto; try apply Hflag.
  rewrite shape_set_column; [assumption|assumption|apply length_map].
Qed.

Lemma validate_column_invariant vdf d sh n col rules flag h flag' h' :
  (forall m, rules = CMap m -> is_required m = true ->
             str_in col (map fst sh) = true) ->
  batch_invariant vdf d sh n flag h ->
  validate_column vdf (repeat d n) col rules flag h = (Ok flag', h') ->
  batch_invariant vdf d sh n flag' h'.
Proof.
  intros Hreq HJ Hrun. unfold validate_column in Hrun.
  apply bind_ok in Hrun as (m & h0 & H0 & Hrun).
  unfold lift in H0. injection H0 as H0 <-.
  destruct rules as [| | |m']; try discriminate. injection H0 as ->.
  apply bind_ok in Hrun as (fr & h0 & H0 & Hrun).
  unfold read_frame in H0. injection H0 as <- <-.
  assert (Hkeys : dict_keys (frame_at h vdf) = map fst sh).
  { destruct HJ as (Hsh & _). rewrite <- Hsh. symmetry. apply shape_keys. }
  destruct (dict_mem col (frame_at h vdf)) eqn:Emem; simpl in Hrun.
  2:{ destruct (is_required m) eqn:Er.
      - specialize (Hreq m eq_refl Er). rewrite <- Hkeys in Hreq.
        apply str_in_In in Hreq. apply dict_mem_In in Hreq. congruence.
      - injection Hrun as <- <-. assumption. }
  destruct (is_type (dict_get "type" m) TyFloat).
  { apply bind_ok in Hrun as (u & h1 & H1 & Hrun).
    assert (HJ1 : batch_invariant vdf d sh n flag h1)
      by (eapply (set_column_invariant to_numeric_cell); eauto).
    apply bind_ok in Hrun as (fr1 & h1' & H1' & Hrun).
    unfold read_frame in H1'. injection H1' as <- <-.
    apply bind_ok in Hrun as (f1 & h2 & H2 & Hrun).
    assert (HJ2 : batch_invariant vdf d sh n f1 h2).
    { destruct (is_required m).
      - eapply mark_rows_invariant; [| |exact H2]; auto.
      - injection H2 as <- <-. assumption. }
    apply bind_ok in Hrun as (f2 & h3 & H3 & Hrun).
    assert (HJ3 : batch_invariant vdf d sh n f2 h3).
    { destruct (dict_get "min" m).
      - eapply mark_rows_invariant; [| |exact H3]; auto.
      - injection H3 as <- <-. assumption. }
    destruct (dict_get "max" m).
    - eapply mark_rows_invariant; [| |exact Hrun]; auto.
    - injection Hrun as <- <-. assumption. }
  destruct (is_type (dict_get "type" m) TyStr).
  { apply bind_ok in Hrun as (u & h1 & H1 & Hrun).
    assert (HJ1 : batch_invariant vdf d sh n flag h1)
      by (eapply (set_column_invariant astype_str_cell); eauto).
    apply bind_ok in Hrun as (fr1 & h1' & H1' & Hrun).
    unfold read_frame in H1'. injection H1' as <- <-.
    destruct (is_required m).
    - eapply mark_rows_invariant; [| |exact Hrun]; auto.
    - injection Hrun as <- <-. assumption. }
  injection Hrun as <- <-. assumption.
Qed.

Lemma required_columns_sound schema required col m :
  required_columns schema = Ok required ->
  In (col, CMap m) schema -> is_required m = true -> In col required.
Proof.
  revert required. induction schema as [|[c0 rules0] rest IH]; intros required;
    simpl; [tauto|].
  destruct (rules_dict rules0) as [m0|] eqn:E0; [|discriminate].
  destruct (required_columns rest) as [cols|]; [|discriminate].
  intros H [Hin|Hin] Hr.
  - injection Hin as -> ->. simpl in E0. injection E0 as <-.
    rewrite Hr in H. injection H as <-. now left.
  - injection H as <-. specialize (IH cols eq_refl Hin Hr).
    destruct (is_required m0); [now right|assumption].
Qed.

(** What a call of [validate_dataframe] that returns has done. *)
Lemma validate_dataframe_returns sch table_name schema df h out row_errors
    flag h' :
  dict_get table_name sch = Some schema ->
  validate_dataframe sch table_name df h = (Ok (out, row_errors, flag), h') ->
  exists d,
    row_errors = repeat d (frame_len (frame_at h df)) /\
    batch_invariant out d (shape (frame_at h df)) (frame_len (frame_at h df))
      flag h' /\
    forall col m, In (col, CMap m) schema -> is_required m = true ->
                  dict_mem col (frame_at h df) = true.
Proof.
  intros Hs. unfold validate_dataframe. unfold schemas, table_schema in *.
  rewrite Hs. intros H.
  apply bind_ok in H as (vdf & h1 & Hcopy & H).
  apply bind_ok in H as (required & h2 & Hreq & H).
  apply bind_ok in H as (fr & h3 & Hfr & H).
  destruct (filter _ required) eqn:Efilter; [|discriminate].
  apply bind_ok in H as (d & h4 & Hd & H).
  apply bind_ok in H as (flag' & h5 & Hloop & H).
  injection H as <- <- <- <-.
  unfold copy, bind, read_frame, new_frame in Hcopy.
  injection Hcopy as Hvdf Hh1.
  unfold lift in Hreq. injection Hreq as Hreq Hh2.
  unfold read_frame in Hfr. injection Hfr as Hfr Hh3.
  unfold new_dict in Hd. injection Hd as Hd Hh4.
  subst vdf h2 h3 fr d h4.
  set (h0 := {| frames := frames h ++ [frame_at h df]; dicts := dicts h |}) in *.
  subst h1.
  assert (Hcopied : frame_at h0 (length (frames h)) = frame_at h df).
  { unfold frame_at at 1. simpl. rewrite app_nth2 by lia. now rewrite Nat.sub_diag. }
  rewrite Hcopied in *.
  assert (Hpresent : forall col m, In (col, CMap m) schema -> is_required m = true ->
                                   dict_mem col (frame_at h df) = true).
  { intros col m Hin Hr.
    pose proof (required_columns_sound _ _ _ Hreq Hin Hr) as Hc.
    destruct (dict_mem col (frame_at h df)) eqn:Em; [reflexivity|].
    assert (Hf : In col (filter (fun col => negb (dict_mem col (frame_at h df)))
                           required)).
    { apply filter_In. split; [assumption|]. now rewrite Em. }
    rewrite Efilter in Hf. destruct Hf. }
  exists (length (dicts h0)). split; [reflexivity|]. split; [|exact Hpresent].
  revert Hloop.
  apply (for_acc_invariant
           (fun c s => batch_invariant (length (frames h)) (length (dicts h0))
                         (shape (frame_at h df)) (frame_len (frame_at h df)) c s)).
  - intros [col rules] c s c' s' Hin HJ Hstep.
    eapply validate_column_invariant; [|exact HJ|exact Hstep].
    intros m -> Hr. rewrite shape_keys. apply str_in_In. apply dict_mem_In.
    eapply Hpresent; eauto.
  - unfold batch_invariant, frame_at, dict_at. simpl.
    rewrite app_nth2 by lia. rewrite Nat.sub_diag. simpl.
    rewrite app_nth2 by lia. rewrite Nat.sub_diag. simpl.
    rewrite !length_app. simpl.
    repeat split; try lia; try discriminate; try tauto.
Qed.
End BatchFacts.

Lemma existsb_repeat {A} (p : A -> bool) x n :
  existsb p (repeat x n) = (0 <? n)%nat && p x.
Proof.
  induction n as [|n IH]; simpl; [reflexivity|].
  rewrite IH. destruct (p x), n; reflexivity.
Qed.

Lemma dict_get_forallb {V} (p : V -> bool) k v (d : dict V) :
  forallb (fun '(_, x) => p x) d = true -> dict_get k d = Some v -> p v = true.
Proof.
  induction d as [|[k0 v0] d IH]; simpl; [discriminate|].
  intros H. apply andb_true_iff in H as [H1 H2].
  destruct (k =? k0); [intros E; now injection E as <-|auto].
Qed.

Section BatchTheorems.
Context {B : Builtins}.

(** X6: the flag that [validate_dataframe] returns agrees with the
    test the import handler makes on the list of row errors: it is up
    exactly when some entry of [row_errors] holds a message. *)
Theorem has_errors_is_any_errors sch table_name df h out row_errors flag h' :
  validate_dataframe sch table_name df h = (Ok (out, row_errors, flag), h') ->
  flag = any_errors h' row_errors.
Proof.
  intros H.
  destruct (dict_get table_name sch) as [schema|] eqn:Hs.
  2:{ unfold validate_dataframe in H. unfold schemas, table_schema in *.
      rewrite Hs in H. discriminate. }
  destruct (validate_dataframe_returns _ _ _ _ Hs H)
    as (d & -> & (_ & _ & _ & Hflag & Hn & _) & _).
  unfold any_errors. rewrite existsb_repeat.
  destruct (dict_at h' d) as [|p rest] eqn:Ed.
  - rewrite andb_false_r. destruct flag; [|reflexivity].
    destruct Hflag as [Hf _]. now elim (Hf eq_refl).
  - assert (Hne : p :: rest <> []) by discriminate.
    destruct Hflag as [_ Hf]. rewrite (Hf Hne).
    specialize (Hn Hne). apply Nat.ltb_lt in Hn. now rewrite Hn.
Qed.

(** X7: [row_errors] has one entry for each row of the frame, and
    all its entries are one dictionary object: any two of them are the same
    reference and hold the same messages. *)
Theorem row_errors_share_one_mapping sch table_name df h out row_errors flag h' :
  validate_dataframe sch table_name df h = (Ok (out, row_errors, flag), h') ->
  length row_errors = frame_len (frame_at h df) /\
  forall i j di dj,
    nth_error row_errors i = Some di -> nth_error row_errors j = Some dj ->
    di = dj /\ dict_at h' di = dict_at h' dj.
Proof.
  intros H. apply validate_dataframe_result in H as [_ [d ->]].
  split; [apply repeat_length|].
  intros i j di dj Hi Hj.
  apply nth_error_repeat in Hi as [-> _]. apply nth_error_repeat in Hj as [-> _].
  now split.
Qed.

(** X8: the frame that [validate_dataframe] returns has the columns
    of the frame it was given, in the same order and of the same length, and
    so the same number of rows. *)
Theorem validate_dataframe_keeps_shape sch table_name df h out row_errors flag h' :
  validate_dataframe sch table_name df h = (Ok (out, row_errors, flag), h') ->
  shape (frame_at h' out) = shape (frame_at h df) /\
  dict_keys (frame_at h' out) = dict_keys (frame_at h df) /\
  frame_len (frame_at h' out) = frame_len (frame_at h df).
Proof.
  intros H.
  destruct (dict_get table_name sch) as [schema|] eqn:Hs.
  2:{ unfold validate_dataframe in H. unfold schemas, table_schema in *.
      rewrite Hs in H. discriminate. }
  destruct (validate_dataframe_returns _ _ _ _ Hs H)
    as (d & _ & (Hsh & _) & _).
  split; [exact Hsh|]. split.
  - rewrite <- !shape_keys. now rewrite Hsh.
  - now apply shape_frame_len.
Qed.

(** X9: when [validate_dataframe] returns, every required column of
    the schema is in the frame, and no entry of [row_errors] holds the
    message "is required": a missing required column has raised before the
    column loop, whose branch for it is never taken. *)
Theorem validate_dataframe_never_reports_required sch table_name schema df h
    out row_errors flag h' :
  dict_get table_name sch = Some schema ->
  validate_dataframe sch table_name df h = (Ok (out, row_errors, flag), h') ->
  (forall col m, In (col, CMap m) schema -> is_required m = true ->
                 dict_mem col (frame_at h df) = true) /\
  (forall d field msg,
     In d row_errors -> dict_get field (dict_at h' d) = Some msg ->
     is_required_message msg = false).
Proof.
  intros Hs H.
  destruct (validate_dataframe_returns _ _ _ _ Hs H)
    as (d & -> & (_ & _ & _ & _ & _ & Hall) & Hpresent).
  split; [exact Hpresent|].
  intros d' field msg Hin Hget. apply repeat_spec in Hin. subst d'.
  pose proof (dict_get_forallb (fun x => negb (is_required_message x)) _ _ Hall Hget)
    as Hp.
  now apply negb_true_iff in Hp.
Qed.

(** ** Cleaning twice *)




Lemma dict_mem_set {V} k k' (v : V) d :
  dict_mem k d = true -> dict_mem k' (dict_set k v d) = dict_mem k' d.
Proof.
  intros Hk. unfold dict_mem.
  destruct (String.eqb_spec k' k) as [->|Hne].
  - rewrite dict_get_set_eq. unfold dict_mem in Hk.
    now destruct (dict_get k d).
  - now rewrite dict_get_set_neq.
Qed.

Lemma column_set_same col cells (fr : frame) :
  column (dict_set col cells fr) col = cells.
Proof. unfold column. now rewrite dict_get_set_eq. Qed.

Lemma column_set_other col col' cells (fr : frame) :
  col' <> col -> column (dict_set col cells fr) col' = column fr col'.
Proof. intros H. unfold column. now rewrite dict_get_set_neq. Qed.













End BatchTheorems.

Lemma has_errors_is_any_errors_witness :
  fst (validate_dataframe _get_default_schema "food_consumption" 0
         three_rows_heap) = Ok (1%nat, [0%nat; 0%nat; 0%nat], true) /\
  true = any_errors
           (snd (validate_dataframe _get_default_schema "food_consumption" 0
                   three_rows_heap)) [0%nat; 0%nat; 0%nat].
Proof.
  split; [reflexivity|].
  apply (@has_errors_is_any_errors example_builtins _get_default_schema
           "food_consumption" 0%nat three_rows_heap 1%nat).
  reflexivity.
Defined.

Lemma row_errors_share_one_mapping_witness :
  fst (validate_dataframe _get_default_schema "food_consumption" 0
         three_rows_heap) = Ok (1%nat, [0%nat; 0%nat; 0%nat], true) /\
  length [0%nat; 0%nat; 0%nat] = frame_len (frame_at three_rows_heap 0).
Proof.
  split; [reflexivity|].
  refine (proj1 (@row_errors_share_one_mapping example_builtins
                   _get_default_schema "food_consumption" 0%nat three_rows_heap
                   1%nat [0%nat; 0%nat; 0%nat] true
                   (snd (validate_dataframe _get_default_schema
                           "food_consumption" 0 three_rows_heap)) _)).
  reflexivity.
Defined.

Lemma validate_dataframe_keeps_shape_witness :
  fst (validate_dataframe _get_default_schema "food_consumption" 0 upload_heap)
    = Ok (1%nat, [0%nat; 0%nat], false) /\
  dict_keys
    (frame_at (snd (validate_dataframe _get_default_schema "food_consumption" 0
                      upload_heap)) 1)
  = dict_keys (frame_at upload_heap 0).
Proof.
  split; [reflexivity|].
  refine (proj1 (proj2 (@validate_dataframe_keeps_shape example_builtins
                          _get_default_schema "food_consumption" 0%nat
                          upload_heap 1%nat [0%nat; 0%nat] false
                          (snd (validate_dataframe _get_default_schema
                                  "food_consumption" 0 upload_heap)) _))).
  reflexivity.
Defined.

Lemma validate_dataframe_never_reports_required_witness :
  dict_get "food_consumption" _get_default_schema = Some food_schema /\
  fst (validate_dataframe _get_default_schema "food_consumption" 0
         three_rows_heap) = Ok (1%nat, [0%nat; 0%nat; 0%nat], true) /\
  dict_mem "commodity" (frame_at three_rows_heap 0) = true /\
  is_required_message (CannotBeEmpty "commodity") = false.
Proof.
  split; [reflexivity|]. split; [reflexivity|].
  destruct (@validate_dataframe_never_reports_required example_builtins
              _get_default_schema "food_consumption" food_schema 0%nat
              three_rows_heap 1%nat [0%nat; 0%nat; 0%nat] true
              (snd (validate_dataframe _get_default_schema "food_consumption" 0
                      three_rows_heap)) eq_refl eq_refl) as [H1 H2].
  split.
  - apply (H1 "commodity"
             [("type", CType TyStr); ("required", CVal (VBool true))]);
      [now left|reflexivity].
  - apply (H2 0%nat "commodity"); [now left|reflexivity].
Defined.


Section CleanBatch.
Context {B : Builtins}.

(** ** A batch without errors *)

(** Once the flag is up it stays up. *)
Lemma mark_rows_from_true row_errors col msg (test : value -> result bool)
    (rows : list (nat * value)) h flag' h' :
  for_acc rows
    (fun '(i, val) has_errors =>
       bind (lift (test val))
         (fun hit : bool =>
            if hit
            then bind (row_error row_errors i col msg) (fun _ => ret true)
            else ret has_errors)) true h = (Ok flag', h') ->
  flag' = true.
Proof.
  revert h. induction rows as [|[i val] rows IH]; intros h; simpl.
  - unfold ret. now intros H; injection H as <- _.
  - intros H. apply bind_ok in H as (f1 & h1 & H1 & H2).
    apply bind_ok in H1 as (hit & h0 & H0 & H1).
    destruct hit.
    + apply bind_ok in H1 as (u & h2 & _ & H1). injection H1 as <- <-.
      now apply IH in H2.
    + injection H1 as <- <-. now apply IH in H2.
Qed.

(** A pass that leaves the flag down has found no cell to mark, and has
    written nothing. *)
Lemma mark_rows_clean row_errors col msg test cells flag h h' :
  mark_rows row_errors col msg test cells flag h = (Ok false, h') ->
  flag = false /\ h' = h /\ forall v, In v cells -> test v = Ok false.
Proof.
  unfold mark_rows, enumerate. generalize 0%nat as k.
  revert flag h. induction cells as [|val cells IH]; intros flag h k; simpl.
  - unfold ret. intros H; injection H as <- <-. repeat split. intros v [].
  - intros H. apply bind_ok in H as (f1 & h1 & H1 & H2).
    apply bind_ok in H1 as (hit & h0 & H0 & H1).
    unfold lift in H0. injection H0 as H0 <-.
    destruct hit.
    + apply bind_ok in H1 as (u & h2 & _ & H1). injection H1 as <- <-.
      apply mark_rows_from_true in H2. discriminate.
    + injection H1 as <- <-. apply IH in H2 as (-> & -> & Hall).
      repeat split. intros v [<-|Hin]; auto.
Qed.

Lemma set_column_frame vdf col cells h :
  (vdf < length (frames h))%nat ->
  frame_at (snd (set_column vdf col cells h)) vdf
  = dict_set col cells (frame_at h vdf) /\
  length (frames (snd (set_column vdf col cells h))) = length (frames h) /\
  fst (set_column vdf col cells h) = Ok tt.
Proof.
  intros Hv. unfold set_column, bind, read_frame, write_frame, frame_at. simpl.
  rewrite nth_replace_nth by assumption. rewrite replace_nth_length. auto.
Qed.

(** One turn of the column loop that leaves the flag down. *)
Lemma validate_column_clean vdf row_errors col rules flag h h' :
  (vdf < length (frames h))%nat ->
  validate_column vdf row_errors col rules flag h = (Ok false, h') ->
  flag = false /\
  length (frames h') = length (frames h) /\
  (forall c, dict_mem c (frame_at h' vdf) = dict_mem c (frame_at h vdf)) /\
  (forall c, c <> col ->
             column (frame_at h' vdf) c = column (frame_at h vdf) c) /\
  (forall m, rules = CMap m -> dict_mem col (frame_at h vdf) = true ->
             column_in_order m (column (frame_at h' vdf) col)).
Proof.
  intros Hv Hrun. unfold validate_column in Hrun.
  apply bind_ok in Hrun as (m & h0 & H0 & Hrun).
  unfold lift in H0. injection H0 as H0 <-.
  destruct rules as [| | |m']; try discriminate. injection H0 as ->.
  apply bind_ok in Hrun as (fr & h0 & H0 & Hrun).
  unfold read_frame in H0. injection H0 as <- <-.
  destruct (dict_mem col (frame_at h vdf)) eqn:Emem; cbn [negb] in Hrun.
  2:{ destruct (is_required m) eqn:Er.
      - apply bind_ok in Hrun as (u & h1 & _ & Hrun). discriminate.
      - injection Hrun as -> <-. repeat split. intros m0 _ Hc. congruence. }
  destruct (is_type (dict_get "type" m) TyFloat) eqn:Ef.
  { apply bind_ok in Hrun as (u & h1 & H1 & Hrun).
    destruct (@set_column_frame vdf col (to_numeric (column (frame_at h vdf) col))
                h Hv) as (Hfr & Hlen & _).
    rewrite H1 in Hfr, Hlen. cbn [snd] in Hfr, Hlen.
    apply bind_ok in Hrun as (fr1 & h1' & H1' & Hrun).
    unfold read_frame in H1'. injection H1' as <- <-.
    apply bind_ok in Hrun as (f1 & h2 & H2 & Hrun).
    apply bind_ok in Hrun as (f2 & h3 & H3 & Hrun).
    assert (Hmax : f2 = false /\ h' = h3 /\
                   forall hi v, dict_get "max" m = Some hi ->
                     In v (column (frame_at h1 vdf) col) ->
                     isna v = false -> py_gt v hi = Ok false).
    { destruct (dict_get "max" m) as [hi|].
      - apply mark_rows_clean in Hrun as (-> & -> & Hall).
        repeat split. intros hi' v Hhi Hin Hna. injection Hhi as <-.
        specialize (Hall v Hin). now rewrite Hna in Hall.
      - injection Hrun as -> <-. repeat split. discriminate. }
    destruct Hmax as (-> & -> & Hmax).
    assert (Hmin : f1 = false /\ h3 = h2 /\
                   forall lo v, dict_get "min" m = Some lo ->
                     In v (column (frame_at h1 vdf) col) ->
                     isna v = false -> py_lt v lo = Ok false).
    { destruct (dict_get "min" m) as [lo|].
      - apply mark_rows_clean in H3 as (-> & -> & Hall).
        repeat split. intros lo' v Hlo Hin Hna. injection Hlo as <-.
        specialize (Hall v Hin). now rewrite Hna in Hall.
      - injection H3 as -> <-. repeat split. discriminate. }
    destruct Hmin as (-> & -> & Hmin).
    assert (Hreq : flag = false /\ h2 = h1 /\
                   (is_required m = true ->
                    forall v, In v (column (frame_at h1 vdf) col) ->
                              isna v = false)).
    { destruct (is_required m).
      - apply mark_rows_clean in H2 as (-> & -> & Hall).
        repeat split. intros _ v Hin. specialize (Hall v Hin). congruence.
      - injection H2 as -> <-. repeat split. discriminate. }
    destruct Hreq as (-> & -> & Hreq).
    split; [reflexivity|]. split; [exact Hlen|]. rewrite Hfr.
    split; [intros c; now apply dict_mem_set|].
    split; [intros c Hc; now apply column_set_other|].
    intros m0 Hm0 _. injection Hm0 as <-.
    unfold column_in_order. rewrite Ef.
    rewrite Hfr in Hreq, Hmin, Hmax. split; [|auto].
    rewrite column_set_same. apply Forall_forall. apply to_numeric_is_number. }
  destruct (is_type (dict_get "type" m) TyStr) eqn:Es.
  { apply bind_ok in Hrun as (u & h1 & H1 & Hrun).
    destruct (@set_column_frame vdf col (astype_str (column (frame_at h vdf) col))
                h Hv) as (Hfr & Hlen & _).
    rewrite H1 in Hfr, Hlen. cbn [snd] in Hfr, Hlen.
    apply bind_ok in Hrun as (fr1 & h1' & H1' & Hrun).
    unfold read_frame in H1'. injection H1' as <- <-.
    assert (Hreq : flag = false /\ h' = h1 /\
                   (is_required m = true ->
                    forall v, In v (column (frame_at h1 vdf) col) ->
                      match v with
                      | VStr s => Ok ((s =? "") || isspace s)
                      | _ => Raise AttributeError
                      end = Ok false)).
    { destruct (is_required m).
      - apply mark_rows_clean in Hrun as (-> & -> & Hall). repeat split.
        intros _. exact Hall.
      - injection Hrun as -> <-. repeat split. discriminate. }
    destruct Hreq as (-> & -> & Hreq).
    split; [reflexivity|]. split; [exact Hlen|]. rewrite Hfr.
    split; [intros c; now apply dict_mem_set|].
    split; [intros c Hc; now apply column_set_other|].
    intros m0 Hm0 _. injection Hm0 as <-.
    unfold column_in_order. rewrite Ef, Es.
    rewrite Hfr, column_set_same in Hreq. rewrite column_set_same.
    intros v Hin. pose proof Hin as Hin'.
    unfold astype_str in Hin'. apply in_map_iff in Hin' as (v0 & Hv0 & _).
    assert (Htext : forall s, v = VStr s ->
              exists s0, v = VStr s0 /\
                (is_required m = true -> s0 <> "" /\ isspace s0 = false)).
    { intros s ->. exists s. split; [reflexivity|]. intros Hr.
      specialize (Hreq Hr _ Hin). cbn in Hreq. injection Hreq as Hreq.
      apply orb_false_iff in Hreq as [Hne Hsp].
      split; [now apply String.eqb_neq|assumption]. }
    unfold astype_str_cell in Hv0.
    destruct (isna v0); [destruct str_keeps_missing eqn:Ek|].
    - right. subst v. split; [reflexivity|]. split; [|reflexivity].
      destruct (is_required m) eqn:Er; [|reflexivity].
      specialize (Hreq eq_refl _ Hin). discriminate Hreq.
    - left. eapply Htext. symmetry. exact Hv0.
    - left. eapply Htext. symmetry. exact Hv0. }
  injection Hrun as -> <-. repeat split.
  intros m0 Hm0 _. injection Hm0 as <-.
  unfold column_in_order. now rewrite Ef, Es.
Qed.

(** The column loop that ends with the flag down. *)
Lemma validate_columns_clean vdf row_errors (schema : table_schema) :
  unique_keys (dict_keys schema) = true ->
  forall flag h h',
    (vdf < length (frames h))%nat ->
    for_acc schema
      (fun '(col, rules) has_errors =>
         validate_column vdf row_errors col rules has_errors) flag h
    = (Ok false, h') ->
    flag = false /\
    length (frames h') = length (frames h) /\
    (forall c, dict_mem c (frame_at h' vdf) = dict_mem c (frame_at h vdf)) /\
    (forall c, ~ In c (dict_keys schema) ->
               column (frame_at h' vdf) c = column (frame_at h vdf) c) /\
    (forall col m, In (col, CMap m) schema ->
                   dict_mem col (frame_at h vdf) = true ->
                   column_in_order m (column (frame_at h' vdf) col)).
Proof.
  induction schema as [|[c0 rules0] rest IH]; intros Hu flag h h' Hv Hrun.
  - injection Hrun as <- <-. repeat split. intros col m [].
  - change (unique_keys (c0 :: dict_keys rest) = true) in Hu.
    apply unique_keys_cons in Hu as [Hnotin Hu].
    cbn [for_acc] in Hrun. apply bind_ok in Hrun as (f1 & h1 & H1 & H2).
    assert (Hv1 : (vdf < length (frames h1))%nat).
    { destruct (@keeps_validate_column B 0 vdf row_errors c0 rules0 flag
                  (Nat.le_0_l _) h (Ok f1) h1 H1 (Nat.le_0_l _)) as [_ Hle].
      lia. }
    destruct (IH Hu f1 h1 h' Hv1 H2) as (-> & Hl2 & Hm2 & Hc2 & Hin2).
    destruct (@validate_column_clean vdf row_errors c0 rules0 flag h h1 Hv H1)
      as (-> & Hl1 & Hm1 & Hc1 & Hin1).
    split; [reflexivity|]. split; [congruence|].
    split; [intros c; now rewrite Hm2, Hm1|].
    split.
    + intros c Hc. cbn [dict_keys map fst] in Hc.
      rewrite Hc2 by (intros Hin; apply Hc; now right).
      rewrite Hc1 by (intros ->; apply Hc; now left). reflexivity.
    + intros col m [Hhead|Htail] Hmem.
      * injection Hhead as -> ->. rewrite Hc2 by assumption.
        now apply Hin1.
      * apply Hin2; [assumption|]. now rewrite Hm1.
Qed.

(** X10: a batch that [validate_dataframe] returns with the flag down meets
    the rules that the function tests.  For every column of the schema that
    is in the frame, the returned frame has in a float column numbers only,
    none missing when the column is required and none below [min] or above
    [max]; in a required text column it has text only, neither empty nor
    blank, white space being that of Unicode; in an optional text column it
    has text or, where [astype(str)] keeps missing values (pandas 3), the
    missing-value marker. *)
Theorem validate_dataframe_clean_is_valid (sch : schemas) table_name
    (schema : table_schema) df h out row_errors h' :
  dict_get table_name sch = Some schema ->
  unique_keys (dict_keys schema) = true ->
  validate_dataframe sch table_name df h = (Ok (out, row_errors, false), h') ->
  forall col m,
    In (col, CMap m) schema -> dict_mem col (frame_at h df) = true ->
    column_in_order m (column (frame_at h' out) col).
Proof.
  intros Hs Hu. unfold validate_dataframe. unfold schemas, table_schema in *.
  rewrite Hs. intros H.
  apply bind_ok in H as (vdf & h1 & Hcopy & H).
  apply bind_ok in H as (required & h2 & Hreq & H).
  apply bind_ok in H as (fr & h3 & Hfr & H).
  destruct (filter _ required) eqn:Efilter; [|discriminate].
  apply bind_ok in H as (d & h4 & Hd & H).
  apply bind_ok in H as (flag' & h5 & Hloop & H).
  injection H as <- <- -> <-.
  unfold copy, bind, read_frame, new_frame in Hcopy.
  injection Hcopy as Hvdf Hh1.
  unfold lift in Hreq. injection Hreq as Hreq Hh2.
  unfold read_frame in Hfr. injection Hfr as Hfr Hh3.
  unfold new_dict in Hd. injection Hd as Hd Hh4.
  subst vdf h2 h3 fr d h1.
  assert (Hv : (length (frames h) < length (frames h4))%nat).
  { subst h4. cbn [frames]. rewrite length_app. simpl. lia. }
  assert (Hcopied : frame_at h4 (length (frames h)) = frame_at h df).
  { subst h4. unfold frame_at at 1. cbn [frames].
    rewrite app_nth2 by lia. now rewrite Nat.sub_diag. }
  destruct (@validate_columns_clean (length (frames h)) _ schema Hu false h4 h5
              Hv Hloop) as (_ & _ & _ & _ & Hall).
  intros col m Hin Hmem. apply Hall; [assumption|]. now rewrite Hcopied.
Qed.
End CleanBatch.

Lemma validate_dataframe_clean_is_valid_witness :
  fst (validate_dataframe _get_default_schema "food_consumption" 0 upload_heap)
    = Ok (1%nat, [0%nat; 0%nat], false) /\
  dict_mem "commodity" (frame_at upload_heap 0) = true /\
  column_in_order [("type", CType TyStr); ("required", CVal (VBool true))]
    (column
       (frame_at (snd (validate_dataframe _get_default_schema
                         "food_consumption" 0 upload_heap)) 1)
       "commodity").
Proof.
  split; [reflexivity|]. split; [reflexivity|].
  refine (@validate_dataframe_clean_is_valid example_builtins
            _get_default_schema "food_consumption" food_schema 0%nat upload_heap
            1%nat [0%nat; 0%nat]
            (snd (validate_dataframe _get_default_schema "food_consumption" 0
                    upload_heap))
            eq_refl eq_refl _ "commodity" _ _ _).
  - reflexivity.
  - now left.
  - reflexivity.
Defined.

(** ** Updating a record that exists *)

Lemma assign_get_in (a : row) (r : row) k c :
  unique_keys (dict_keys a) = true ->
  dict_get k a = Some c -> dict_get k (assign a r) = Some c.
Proof.
  revert r. induction a as [|[k0 c0] a IH]; intros r Hu Hg; [discriminate|].
  simpl in Hu. apply andb_true_iff in Hu as [Hn Hu'].
  simpl in Hg. unfold assign. simpl. fold (assign a (dict_set k0 c0 r)).
  destruct (k =? k0) eqn:Ek.
  - apply String.eqb_eq in Ek. subst k0. injection Hg as <-.
    rewrite assign_get_other; [apply dict_get_set_eq|].
    intros Hin. apply str_in_In in Hin. rewrite Hin in Hn. discriminate.
  - now apply IH.
Qed.

Lemma dict_get_bind_values k (record_data : record) :
  dict_get k (bind_values record_data) = option_map Val (dict_get k record_data).
Proof.
  induction record_data as [|[k0 v0] d IH]; simpl; [reflexivity|].
  destruct (k =? k0); auto.
Qed.

Lemma unique_keys_app_l ks1 ks2 :
  unique_keys (ks1 ++ ks2) = true -> unique_keys ks1 = true.
Proof.
  induction ks1 as [|k ks1 IH]; simpl; [reflexivity|].
  intros H. apply andb_true_iff in H as [H1 H2].
  rewrite IH by assumption. rewrite andb_true_r.
  apply negb_true_iff. apply negb_true_iff in H1.
  unfold str_in in *. rewrite existsb_app in H1.
  now apply orb_false_iff in H1 as [H1 _].
Qed.

Lemma unique_keys_app_disjoint ks1 ks2 k :
  unique_keys (ks1 ++ ks2) = true -> In k ks1 -> ~ In k ks2.
Proof.
  induction ks1 as [|k1 ks1 IH]; simpl; [contradiction|].
  intros H [->|Hin] Hk2.
  - apply andb_true_iff in H as [H1 _]. apply negb_true_iff in H1.
    assert (str_in k (ks1 ++ ks2) = true)
      by (apply str_in_In, in_app_iff; now right).
    congruence.
  - apply andb_true_iff in H as [_ H2]. now apply (IH H2 Hin).
Qed.

Lemma dict_get_In_keys {V} k (d : dict V) v :
  dict_get k d = Some v -> In k (dict_keys d).
Proof.
  intros H. apply dict_mem_In. unfold dict_mem. now rewrite H.
Qed.

Lemma updated_updated_at converted now r :
  dict_get "updated_at" (updated converted now r) = Some (Time now).
Proof.
  unfold updated. rewrite assign_app. unfold assign at 1. simpl.
  apply dict_get_set_eq.
Qed.

Lemma updated_version_get data n now r :
  dict_get "version" (updated (data ++ [("version", Val (VInt (n + 1)))]) now r)
  = Some (Val (VInt (n + 1))).
Proof.
  unfold updated. rewrite !assign_app. unfold assign at 1 2. cbn [fold_left].
  rewrite dict_get_set_neq by discriminate. apply dict_get_set_eq.
Qed.

Section UpdateExisting.
Context {K : Casts}.

(** X13: [update_record] on a record that is in the table, with data that
    does not assign [id]: when the call returns, the version read was an
    integer, the record has the next version and the time of the call in
    [updated_at], and every column of the data holds what the engine made of
    the given value when it converted it to the type of the column; its
    other columns, the other records, the number of records and the log of
    deletions are as before. *)
Theorem update_record_existing record_id record_data now st st' r :
  dict_mem "id" record_data = false ->
  select_by_id (food_consumption st) record_id = Some r ->
  update_record "food_consumption" record_id record_data now st = (Ok tt, st') ->
  exists n r',
    field_of r "version" = Val (VInt n) /\
    select_by_id (food_consumption st') record_id = Some r' /\
    dict_get "version" r' = Some (Val (VInt (n + 1))) /\
    dict_get "updated_at" r' = Some (Time now) /\
    (forall k v, dict_get k record_data = Some v ->
                 exists c, cast (column_type k) (Val v) = Ok c /\
                           dict_get k r' = Some c) /\
    (forall col, col <> "version" -> col <> "updated_at" ->
                 dict_mem col record_data = false ->
                 dict_get col r' = dict_get col r) /\
    (forall other, other <> record_id ->
                   select_by_id (food_consumption st') other
                   = select_by_id (food_consumption st) other) /\
    length (food_consumption st') = length (food_consumption st) /\
    deleted_records st' = deleted_records st.
Proof.
  intros Hid Hsel. unfold update_record. simpl.
  unfold bind at 1. unfold read_version, bind, get_state, ret. rewrite Hsel.
  intros Hw. pose proof Hw as Hw'.
  apply write_update_accepted in Hw as (n & Hv & Hu & Hst).
  rewrite Hv in Hw'.
  destruct (@write_update_version K record_id record_data n now st st' r
              Hid Hsel Hw') as (data & Hd & Hfound & _).
  assert (Hst' : st' = {| food_consumption :=
                            map (fun r0 =>
                                   if has_id record_id r0
                                   then updated
                                          (data ++ [("version", Val (VInt (n + 1)))])
                                          now r0
                                   else r0) (food_consumption st);
                          deleted_records := deleted_records st |}).
  { destruct Hst as [[Hno _]|(data' & Hd' & ->)].
    - apply select_by_id_matches in Hsel. congruence.
    - rewrite Hd in Hd'. now injection Hd' as <-. }
  clear Hst.
  assert (Hkeys : dict_keys data = dict_keys record_data).
  { now rewrite (convert_keys _ Hd), bind_values_keys. }
  unfold update_parameters in Hu. rewrite dict_keys_app, bind_values_keys in Hu.
  rewrite <- app_assoc in Hu. cbn [dict_keys map fst List.app] in Hu.
  exists n, (updated (data ++ [("version", Val (VInt (n + 1)))]) now r).
  split; [assumption|]. split; [assumption|].
  split; [apply updated_version_get|]. split; [apply updated_updated_at|].
  split; [|split; [|split; [|split]]].
  - intros k v Hk.
    pose proof (@convert_get K _ _ k Hd) as Hg.
    rewrite dict_get_bind_values, Hk in Hg. cbn [option_map] in Hg.
    destruct Hg as (c & Hc & Hgc). exists c. split; [assumption|].
    assert (Hin : In k (dict_keys record_data))
      by (eapply dict_get_In_keys; eauto).
    pose proof (@unique_keys_app_disjoint _ _ k Hu Hin) as Hnot.
    rewrite updated_other_column.
    + apply assign_get_in; [|assumption].
      rewrite Hkeys. now apply unique_keys_app_l in Hu.
    + intros ->. apply Hnot. now left.
    + intros ->. apply Hnot. right. now left.
  - intros col H1 H2 Hm. rewrite updated_other_column by assumption.
    apply assign_get_other. rewrite Hkeys. intros Hin.
    apply dict_mem_In in Hin. congruence.
  - intros other Hne. subst st'. cbn [food_consumption]. unfold select_by_id.
    rewrite find_map_same_key.
    + destruct (find (has_id other) (food_consumption st)) as [r0|] eqn:Ef;
        [|reflexivity].
      simpl. apply find_some in Ef as [_ Hr0].
      destruct (has_id record_id r0) eqn:E; [|reflexivity].
      unfold has_id in *. destruct (row_id r0); [|discriminate].
      apply Z.eqb_eq in Hr0, E. congruence.
    + intros r0. destruct (has_id record_id r0) eqn:E; [|reflexivity].
      unfold has_id. rewrite updated_id; [reflexivity|].
      rewrite Hkeys. intros Hin. apply dict_mem_In in Hin. congruence.
  - subst st'. cbn [food_consumption]. apply length_map.
  - subst st'. reflexivity.
Qed.
End UpdateExisting.

Lemma update_record_existing_witness :
  exists n r',
    field_of (almonds_row 1) "version" = Val (VInt n) /\
    select_by_id
      (food_consumption
         (snd (update_record "food_consumption" 1 [("notes", VStr "raw")] 500
                 one_record))) 1 = Some r' /\
    dict_get "version" r' = Some (Val (VInt (n + 1))) /\
    dict_get "notes" r' = Some (Val (VStr "raw")).
Proof.
  assert (Hrun : update_record "food_consumption" 1 [("notes", VStr "raw")]
                   500 one_record
                 = (Ok tt,
                    snd (update_record "food_consumption" 1
                           [("notes", VStr "raw")] 500 one_record)))
    by reflexivity.
  destruct (@update_record_existing example_casts 1 [("notes", VStr "raw")]
              500 one_record
              (snd (update_record "food_consumption" 1 [("notes", VStr "raw")]
                      500 one_record))
              (almonds_row 1) eq_refl eq_refl Hrun)
    as (n & r' & H1 & H2 & H3 & _ & H5 & _).
  exists n, r'. repeat split; try assumption.
  destruct (H5 "notes" (VStr "raw") eq_refl) as (c & Hc & Hg).
  injection Hc as <-. exact Hg.
Defined.

(** ** Undoing when there is nothing to undo *)

Lemma latest_from_some id tbl i ts p :
  latest_from id tbl i ts (Some p) <> None.
Proof.
  revert i p. induction ts as [|t ts IH]; intros i p; simpl; [discriminate|].
  destruct (matches id tbl t); [|apply IH].
  destruct p as [j a]. destruct (goes_before a (time_of (deleted_at t)));
    apply IH.
Qed.

Lemma latest_from_none id tbl i ts :
  latest_from id tbl i ts None = None <->
  forallb (fun t => negb (matches id tbl t)) ts = true.
Proof.
  revert i. induction ts as [|t ts IH]; intros i; simpl; [tauto|].
  destruct (matches id tbl t); simpl.
  - split; [|discriminate]. intros H. now apply latest_from_some in H.
  - apply IH.
Qed.

Lemma latest_from_bound id tbl i ts best j a :
  latest_from id tbl i ts best = Some (j, a) ->
  best = Some (j, a) \/ (i <= j < i + length ts)%nat.
Proof.
  revert i best. induction ts as [|t ts IH]; intros i best; simpl; [auto|].
  intros H. apply IH in H as [H|H]; [|right; lia].
  destruct (matches id tbl t); [|auto].
  destruct best as [[j0 a0]|].
  - destruct (goes_before a0 (time_of (deleted_at t))); [|auto].
    injection H as <- <-. right. lia.
  - injection H as <- <-. right. lia.
Qed.

(** An INSERT either appends one row to its table or leaves the store as it
    is. *)
Lemma insert_food_outcome {K : Casts} e given now st res st' :
  insert_food e given now st = (res, st') ->
  (exists ex, res = Raise ex /\ st' = st) \/
  exists r,
    res = Ok tt /\
    st' = {| food_consumption := food_consumption st ++ [r];
             deleted_records := deleted_records st |}.
Proof.
  unfold insert_food, bind, get_state, raise, put_state, lift.
  destruct given as [|p given']; [intros H; injection H as <- <-; left; eauto|].
  destruct (negb (forallb _ _)); [intros H; injection H as <- <-; left; eauto|].
  destruct (convert (p :: given')) as [converted|ex];
    [|intros H; injection H as <- <-; left; eauto].
  match goal with |- context [violates_not_null ?r] => set (row := r) end.
  destruct (violates_not_null row) eqn:Ev;
    [intros H; injection H as <- <-; left; eauto|].
  destruct (row_id row) as [z|] eqn:Er;
    [|intros H; injection H as <- <-; left; eauto].
  destruct (existsb (has_id z) (food_consumption st)) eqn:Ex;
    [intros H; injection H as <- <-; left; eauto|].
  intros H; injection H as <- <-. right. exists row. auto.
Qed.

Lemma insert_log_outcome {K : Casts} given now st res st' :
  insert_log given now st = (res, st') ->
  (exists ex, res = Raise ex /\ st' = st) \/
  exists t,
    res = Ok tt /\
    st' = {| food_consumption := food_consumption st;
             deleted_records := deleted_records st ++ [t] |}.
Proof.
  unfold insert_log, bind, get_state, raise, put_state, lift.
  destruct given as [|p given']; [intros H; injection H as <- <-; left; eauto|].
  destruct (negb (forallb _ _)); [intros H; injection H as <- <-; left; eauto|].
  destruct (given_or _ "original_id" _ _) as [id|ex];
    [|intros H; injection H as <- <-; left; eauto].
  destruct (given_or _ "table_name" _ _) as [name|ex];
    [|intros H; injection H as <- <-; left; eauto].
  destruct (given_or _ "record_data" _ _) as [data|ex];
    [|intros H; injection H as <- <-; left; eauto].
  destruct (given_or _ "deleted_at" _ _) as [at_|ex];
    [|intros H; injection H as <- <-; left; eauto].
  intros H; injection H as <- <-. right. eauto.
Qed.

Section UndoFacts.
Context {K : Casts}.

(** X14: [undo_delete] returns [False] exactly when the log holds
    no deletion of that id and table, and then the store is as it was. *)
Theorem undo_delete_false_iff e id tbl now st :
  (fst (undo_delete e id tbl now st) = Ok false <->
   forallb (fun t => negb (matches id tbl t)) (deleted_records st) = true) /\
  (fst (undo_delete e id tbl now st) = Ok false ->
   snd (undo_delete e id tbl now st) = st).
Proof.
  unfold undo_delete, bind, get_state, ret, raise, put_state, latest.
  destruct (latest_from id tbl 0 (deleted_records st) None) as [[i a]|] eqn:El.
  - pose proof El as Hb. apply latest_from_bound in Hb as [Hb|Hb]; [discriminate|].
    destruct (nth_error (deleted_records st) i) as [t|] eqn:En.
    2:{ apply nth_error_None in En. lia. }
    assert (Hno : forallb (fun t => negb (matches id tbl t)) (deleted_records st)
                  <> true).
    { intros H. apply latest_from_none with (i := 0%nat) in H. congruence. }
    destruct (lift (json_loads (record_data t)) st) as [[document|ex] st0].
    + destruct (insert_into e tbl document now st0) as [[u|ex] st1]; simpl.
      * destruct (delete_limit e); simpl; split;
          try (split; [discriminate|intros H; contradiction]); discriminate.
      * split; [split; [discriminate|intros H; contradiction]|discriminate].
    + simpl. split; [split; [discriminate|intros H; contradiction]|discriminate].
  - simpl. apply latest_from_none in El. split; [tauto|reflexivity].
Qed.

(** ** Deleting and undoing on DuckDB *)

(** X15: on DuckDB [delete_record] on [food_consumption] changes nothing
    and never returns [True]: for a record that is in the table it raises
    [AttributeError] at [record.keys()]; on [deleted_records], which has no
    column [id], its first statement is refused.  [undo_delete] never
    returns [True] either, whatever the table: for [food_consumption] it
    leaves the log of deletions as it is, and for [deleted_records] it
    leaves the records as they are and adds at most one row to the log,
    the document it has inserted before its DELETE statement is refused. *)
Theorem duckdb_delete_and_undo_keep_tombstones tbl record_id now st :
  snd (delete_record duckdb "food_consumption" record_id now st) = st /\
  fst (delete_record duckdb "food_consumption" record_id now st) <> Ok true /\
  (forall r, select_by_id (food_consumption st) record_id = Some r ->
             fst (delete_record duckdb "food_consumption" record_id now st)
             = Raise AttributeError) /\
  delete_record duckdb "deleted_records" record_id now st
  = (Raise BinderError, st) /\
  fst (undo_delete duckdb record_id tbl now st) <> Ok true /\
  deleted_records (snd (undo_delete duckdb record_id "food_consumption" now st))
  = deleted_records st /\
  food_consumption (snd (undo_delete duckdb record_id "deleted_records" now st))
  = food_consumption st /\
  exists added,
    deleted_records (snd (undo_delete duckdb record_id "deleted_records" now st))
    = deleted_records st ++ added /\
    (length added <= 1)%nat.
Proof.
  split; [|split; [|split; [|split; [|split; [|split; [|split]]]]]].
  - unfold delete_record, get_record_by_id, bind, get_state, ret, raise, lift.
    simpl. destruct (select_by_id (food_consumption st) record_id); reflexivity.
  - unfold delete_record, get_record_by_id, bind, get_state, ret, raise, lift.
    simpl.
    destruct (select_by_id (food_consumption st) record_id); simpl; discriminate.
  - intros r Hr. now rewrite (delete_record_duckdb st record_id now Hr).
  - reflexivity.
  - apply undo_delete_duckdb_never_true.
  - unfold undo_delete, bind, get_state, ret, raise, put_state, lift.
    destruct (latest record_id _ (deleted_records st)) as [i|]; [|reflexivity].
    destruct (nth_error (deleted_records st) i) as [t|]; [|reflexivity].
    destruct (json_loads (record_data t)) as [document|ex]; [|reflexivity].
    unfold insert_into. simpl.
    destruct (insert_food duckdb document now st) as [res st1] eqn:Ei.
    apply insert_food_outcome in Ei as [(ex & -> & ->)|(r & -> & ->)];
      reflexivity.
  - unfold undo_delete, bind, get_state, ret, raise, put_state, lift.
    destruct (latest record_id _ (deleted_records st)) as [i|]; [|reflexivity].
    destruct (nth_error (deleted_records st) i) as [t|]; [|reflexivity].
    destruct (json_loads (record_data t)) as [document|ex]; [|reflexivity].
    unfold insert_into. simpl.
    destruct (insert_log document now st) as [res st1] eqn:Ei.
    apply insert_log_outcome in Ei as [(ex & -> & ->)|(t' & -> & ->)];
      reflexivity.
  - unfold undo_delete, bind, get_state, ret, raise, put_state, lift.
    destruct (latest record_id _ (deleted_records st)) as [i|];
      [|exists []; simpl; rewrite app_nil_r; auto].
    destruct (nth_error (deleted_records st) i) as [t|];
      [|exists []; simpl; rewrite app_nil_r; auto].
    destruct (json_loads (record_data t)) as [document|ex];
      [|exists []; simpl; rewrite app_nil_r; auto].
    unfold insert_into. simpl.
    destruct (insert_log document now st) as [res st1] eqn:Ei.
    apply insert_log_outcome in Ei as [(ex & -> & ->)|(t' & -> & ->)].
    + exists []. simpl. rewrite app_nil_r. auto.
    + exists [t']. simpl. auto.
Qed.
End UndoFacts.

Lemma undo_delete_false_iff_witness :
  forallb (fun t => negb (matches 1 "food_consumption" t))
    (deleted_records one_record) = true /\
  fst (undo_delete duckdb 1 "food_consumption" 300 one_record) = Ok false /\
  snd (undo_delete duckdb 1 "food_consumption" 300 one_record) = one_record.
Proof.
  split; [reflexivity|].
  destruct (@undo_delete_false_iff example_casts duckdb 1 "food_consumption"
              300 one_record) as [[_ H1] H2].
  assert (H : fst (undo_delete duckdb 1 "food_consumption" 300 one_record)
              = Ok false) by (apply H1; reflexivity).
  split; [exact H|exact (H2 H)].
Defined.

Lemma duckdb_delete_and_undo_keep_tombstones_witness :
  select_by_id (food_consumption one_record) 1 = Some (almonds_row 1) /\
  fst (delete_record duckdb "food_consumption" 1 200 one_record)
    = Raise AttributeError.
Proof.
  split; [reflexivity|].
  destruct (@duckdb_delete_and_undo_keep_tombstones example_casts
              "food_consumption" 1 200 one_record) as (_ & _ & H & _).
  apply (H (almonds_row 1)). reflexivity.
Defined.

(** ** What the loader keeps of the document *)

Lemma process_rules_same rules processed :
  process_rules rules = Ok processed -> same_but_type rules processed.
Proof.
  destruct rules as [v|t|l|m]; simpl; try discriminate.
  - destruct (existsb is_type_key l); [discriminate|].
    intros H; injection H as <-. reflexivity.
  - destruct (dict_get "type" m) as [[[| | | |t]| | |]|] eqn:Et; try discriminate.
    + destruct (convert_type_name (lower t)) as [ty|] eqn:Ec;
        intros H; injection H as <-; cbn [same_but_type].
      * split; [apply dict_keys_set_present; unfold dict_mem; now rewrite Et|].
        split; [intros k Hk; now apply dict_get_set_neq|].
        apply dict_get_set_eq.
      * split; [reflexivity|]. split; [reflexivity|]. assumption.
    + intros H; injection H as <-. cbn [same_but_type]. split; [reflexivity|].
      split; [reflexivity|]. assumption.
Qed.

Lemma dict_set_fresh {V} k (v : V) d :
  ~ In k (dict_keys d) -> dict_set k v d = d ++ [(k, v)].
Proof.
  induction d as [|[k0 v0] d IH]; simpl; [reflexivity|].
  intros H. destruct (String.eqb_spec k k0) as [->|Hne]; [tauto|].
  rewrite IH; [reflexivity|tauto].
Qed.

Lemma unique_keys_middle a k b :
  unique_keys (a ++ k :: b) = true -> ~ In k a.
Proof.
  intros Hu Hin.
  apply (unique_keys_app_disjoint a (k :: b) k Hu Hin). now left.
Qed.

Lemma dict_get_unique {V} k (v : V) d :
  unique_keys (dict_keys d) = true -> In (k, v) d -> dict_get k d = Some v.
Proof.
  induction d as [|[k0 v0] d IH]; simpl; [tauto|].
  intros Hu [Hin|Hin].
  - injection Hin as -> ->. now rewrite String.eqb_refl.
  - apply andb_true_iff in Hu as [Hn Hu].
    destruct (String.eqb_spec k k0) as [->|Hne]; [|auto].
    apply negb_true_iff in Hn.
    assert (str_in k0 (dict_keys d) = true).
    { apply str_in_In. unfold dict_keys. apply in_map_iff. now exists (k0, v). }
    congruence.
Qed.

Lemma process_fields_appends fields :
  forall processed_table t,
    unique_keys (dict_keys processed_table ++ dict_keys fields) = true ->
    process_fields fields processed_table = Ok t ->
    exists new,
      t = processed_table ++ new /\
      dict_keys new = dict_keys fields /\
      forall field rules, In (field, rules) fields ->
        exists processed, In (field, processed) new /\
                          process_rules rules = Ok processed.
Proof.
  induction fields as [|[f rules] rest IH]; intros acc t Hu; simpl.
  - intros H; injection H as <-. exists []. rewrite app_nil_r.
    repeat split. intros field rules [].
  - destruct (process_rules rules) as [pr|] eqn:Ep; [|discriminate].
    cbn [dict_keys map fst] in Hu. fold (dict_keys rest) in Hu.
    rewrite (dict_set_fresh f pr acc) by (eapply unique_keys_middle; eauto).
    intros H. apply IH in H as (new & -> & Hk & Hall).
    + exists ((f, pr) :: new). rewrite <- app_assoc. split; [reflexivity|].
      split; [simpl; now rewrite Hk|].
      intros field rules' [Hin|Hin].
      * injection Hin as <- <-. exists pr. split; [now left|assumption].
      * destruct (Hall _ _ Hin) as (p & Hp1 & Hp2). exists p.
        split; [now right|assumption].
    + unfold dict_keys in *. rewrite map_app, <- app_assoc. exact Hu.
Qed.

Lemma process_tables_appends tables :
  forall processed_schema s,
    unique_keys (dict_keys processed_schema ++ dict_keys tables) = true ->
    process_tables tables processed_schema = Ok s ->
    exists new,
      s = processed_schema ++ new /\
      dict_keys new = dict_keys tables /\
      forall table_name table, In (table_name, table) tables ->
        exists fields t, table = CMap fields /\ In (table_name, t) new /\
                         process_fields fields [] = Ok t.
Proof.
  induction tables as [|[tn table] rest IH]; intros acc s Hu; simpl.
  - intros H; injection H as <-. exists []. rewrite app_nil_r.
    repeat split. intros tn table [].
  - destruct table as [| | |fields]; try discriminate.
    destruct (process_fields fields []) as [t|] eqn:Ep; [|discriminate].
    cbn [dict_keys map fst] in Hu. fold (dict_keys rest) in Hu.
    rewrite (dict_set_fresh tn t acc) by (eapply unique_keys_middle; eauto).
    intros H. apply IH in H as (new & -> & Hk & Hall).
    + exists ((tn, t) :: new). rewrite <- app_assoc. split; [reflexivity|].
      split; [simpl; now rewrite Hk|].
      intros tn' table' [Hin|Hin].
      * injection Hin as <- <-. exists fields, t. repeat split; [now left|assumption].
      * destruct (Hall _ _ Hin) as (fs & t' & H1 & H2 & H3). exists fs, t'.
        repeat split; [assumption|now right|assumption].
    + unfold dict_keys in *. rewrite map_app, <- app_assoc. exact Hu.
Qed.

(** X1: the loader keeps the structure of the document.  When the
    tables of the document have distinct names and so have the fields of each
    table, as the keys of a parsed mapping have, and processing returns, the
    loaded schema has the tables of the document in their order, each table
    has its fields in their order, and each rules object has its keys and
    its entries; the entry [type] alone is replaced, by the type object, when
    it names a type the loader knows, and is the text of the document when
    it names another. *)
Theorem process_schema_keeps_structure tables s :
  unique_keys (dict_keys tables) = true ->
  (forall table_name fields, In (table_name, CMap fields) tables ->
                             unique_keys (dict_keys fields) = true) ->
  process_schema (CMap tables) = Ok s ->
  dict_keys s = dict_keys tables /\
  forall table_name table, In (table_name, table) tables ->
    exists fields t,
      table = CMap fields /\
      dict_get table_name s = Some t /\
      dict_keys t = dict_keys fields /\
      forall field rules, In (field, rules) fields ->
        exists processed,
          dict_get field t = Some processed /\ same_but_type rules processed.
Proof.
  intros Hu Hfields H. simpl in H.
  apply process_tables_appends in H as (new & -> & Hk & Hall); [|exact Hu].
  simpl. split; [exact Hk|].
  intros tn table Hin. destruct (Hall _ _ Hin) as (fields & t & -> & Ht & Hp).
  exists fields, t. split; [reflexivity|].
  split; [apply dict_get_unique; [now rewrite Hk|assumption]|].
  pose proof (Hfields _ _ Hin) as Huf.
  apply process_fields_appends in Hp as (newf & -> & Hkf & Hallf); [|exact Huf].
  simpl. split; [exact Hkf|].
  intros field rules Hinf. destruct (Hallf _ _ Hinf) as (pr & Hpr & Hproc).
  exists pr. split; [apply dict_get_unique; [now rewrite Hkf|assumption]|].
  now apply process_rules_same.
Qed.

Lemma process_schema_keeps_structure_witness :
  unique_keys (dict_keys two_tables) = true /\
  exists s,
    process_schema (CMap two_tables) = Ok s /\
    dict_keys s = ["food_consumption"; "stock"].
Proof.
  split; [reflexivity|].
  exists [("food_consumption",
           [("commodity", CMap [("type", CType TyStr);
                                ("required", CVal (VBool true))]);
            ("mean_consumption_chronic",
             CMap [("type", CType TyFloat); ("min", CVal (VInt 0))])]);
          ("stock", [("count", CMap [("type", CType TyInt)])])].
  split; [reflexivity|].
  refine (proj1 (@process_schema_keeps_structure two_tables _ eq_refl _ eq_refl)).
  intros tn fields [H|[H|[]]]; injection H as <- <-; reflexivity.
Defined.

(** ** Import into the store *)

Lemma dict_mem_set_any {V} k k' (v : V) d :
  dict_mem k' (dict_set k v d) = (k' =? k) || dict_mem k' d.
Proof.
  unfold dict_mem. destruct (String.eqb_spec k' k) as [->|Hne].
  - now rewrite dict_get_set_eq.
  - now rewrite dict_get_set_neq.
Qed.

Lemma row_to_dict_mem_from (df : frame) i k (d0 : record) :
  dict_mem k (fold_left (fun d '(col, cells) => dict_set col (nth i cells VNone) d)
                df d0)
  = dict_mem k d0 || dict_mem k df.
Proof.
  revert d0. induction df as [|[col cells] df IH]; intros d0; simpl.
  - now rewrite orb_false_r.
  - rewrite IH, dict_mem_set_any.
    assert (H : dict_mem k ((col, cells) :: df) = (k =? col) || dict_mem k df).
    { unfold dict_mem. cbn [dict_get]. now destruct (k =? col). }
    rewrite H. destruct (k =? col); destruct (dict_mem k d0); reflexivity.
Qed.

Lemma row_to_dict_mem (df : frame) i k :
  dict_mem k (row_to_dict df i) = dict_mem k df.
Proof. unfold row_to_dict. now rewrite row_to_dict_mem_from. Qed.

Lemma import_record_mem df i k :
  dict_mem k (import_record df i) = str_in k import_columns && dict_mem k df.
Proof.
  unfold import_record, dict_mem. rewrite dict_get_filter_keys.
  destruct (str_in k import_columns); [|reflexivity]. simpl.
  fold (dict_mem k (row_to_dict df i)). fold (dict_mem k df).
  now rewrite row_to_dict_mem.
Qed.

Lemma import_record_columns df i :
  forallb (fun col => str_in col food_columns) (dict_keys (import_record df i))
  = true.
Proof.
  apply forallb_forall. intros k Hk. unfold import_record in Hk.
  unfold dict_keys in Hk. apply in_map_iff in Hk as [[k' v] [<- Hin]].
  apply filter_In in Hin as [_ Hin]. cbn [fst].
  apply str_in_In in Hin. apply (proj2 (str_in_In k' food_columns)).
  unfold import_columns in Hin. unfold food_columns.
  cbn [In] in *. intuition.
Qed.

Section ImportFacts.
Context {K : Casts}.

(** On DuckDB a record without [id] is refused, whatever else it holds: by
    the conversion of a value, or by the NOT NULL constraint of the primary
    key. *)
Lemma add_record_duckdb_without_id record_data now st :
  record_data <> [] ->
  forallb (fun col => str_in col food_columns) (dict_keys record_data) = true ->
  dict_mem "id" record_data = false ->
  add_record duckdb "food_consumption" record_data now st
  = (Raise (refusal record_data), st).
Proof.
  intros Hne Hcols Hid. unfold add_record. simpl. unfold bind at 1.
  assert (Hins : insert_food duckdb (bind_values record_data) now st
                 = (Raise (refusal record_data), st)).
  { unfold insert_food, bind, get_state, raise, lift, refusal.
    destruct (bind_values record_data) as [|p rest] eqn:Eb.
    { destruct record_data; [congruence|discriminate]. }
    rewrite <- Eb. rewrite bind_values_keys, Hcols. cbn [negb].
    destruct (convert (bind_values record_data)) as [converted|ex] eqn:Ec;
      [|reflexivity].
    cbn [rowid_alias duckdb andb].
    pose proof (@convert_get K _ _ "id" Ec) as Hg.
    rewrite dict_get_bind_values in Hg.
    unfold dict_mem in Hid.
    destruct (dict_get "id" record_data); [discriminate|]. cbn [option_map] in Hg.
    unfold violates_not_null, not_null_columns. cbn [existsb].
    unfold field_of at 1. unfold food_columns. cbn [map dict_get].
    rewrite String.eqb_refl, Hg. reflexivity. }
  now rewrite Hins.
Qed.

Lemma import_record_refused df i now st :
  dict_mem "commodity" df = true ->
  add_record duckdb "food_consumption" (import_record df i) now st
  = (Raise (refusal (import_record df i)), st).
Proof.
  intros Hc. apply add_record_duckdb_without_id.
  - intros Hnil. pose proof (import_record_mem df i "commodity") as H.
    rewrite Hnil, Hc in H. discriminate H.
  - apply import_record_columns.
  - rewrite import_record_mem. reflexivity.
Qed.

(** X16: [import_csv_data] on DuckDB stores nothing, whatever the frame.
    For [food_consumption] it raises for a frame without the column
    [commodity] or [age_group], returns [True] for a frame without rows, and
    otherwise raises at the first row, which has no [id]: the exception
    [refusal] is that of the first value of the row that the engine does not
    convert to the type of its column, and the violated NOT NULL constraint
    of the primary key when it converts them all.  For any other table it
    returns [False]. *)
Theorem import_csv_data_duckdb tbl df clock st :
  import_csv_data duckdb tbl df clock st =
  if tbl =? "food_consumption" then
    if negb (dict_mem "commodity" df)
    then (Raise (MissingCsvColumn "commodity"), st)
    else if negb (dict_mem "age_group" df)
    then (Raise (MissingCsvColumn "age_group"), st)
    else if (frame_len df =? 0)%nat then (Ok true, st)
    else (Raise (refusal (import_record df 0)), st)
  else (Ok false, st).
Proof.
  unfold import_csv_data. destruct (tbl =? "food_consumption") eqn:Et; [|reflexivity].
  apply String.eqb_eq in Et. subst tbl.
  cbn [for_each]. unfold bind, ret, raise.
  destruct (dict_mem "commodity" df) eqn:Hc; [|reflexivity].
  destruct (dict_mem "age_group" df) eqn:Ha; [|reflexivity].
  cbn [negb].
  destruct (frame_len df) as [|n] eqn:En; [reflexivity|].
  cbn [Nat.eqb seq]. unfold import_rows. cbn [for_each]. unfold bind.
  pose proof (@import_record_refused df 0 (clock 0%nat) st Hc) as Hr.
  unfold import_record in Hr. unfold import_record. now rewrite Hr.
Qed.

(** The second loop on DuckDB: the first row is refused. *)
Lemma import_rows_duckdb df clock st :
  dict_mem "commodity" df = true ->
  import_rows duckdb "food_consumption" df clock (seq 0 (frame_len df)) st
  = if (frame_len df =? 0)%nat then (Ok tt, st)
    else (Raise (refusal (import_record df 0)), st).
Proof.
  intros Hc. destruct (frame_len df) as [|n]; [reflexivity|].
  cbn [Nat.eqb seq]. unfold import_rows. cbn [for_each]. unfold bind.
  pose proof (@import_record_refused df 0 (clock 0%nat) st Hc) as Hr.
  unfold import_record in Hr. unfold import_record. now rewrite Hr.
Qed.
End ImportFacts.

(** ** The handlers of the entry form and of the import *)

Section HandlerFacts.
Context {B : Builtins} {K : Casts}.

Lemma validate_record_keys sch table_name r res r' :
  validate_record sch table_name r = (res, r') -> dict_keys r' = dict_keys r.
Proof.
  unfold validate_record. unfold schemas, table_schema in *.
  destruct (dict_get table_name sch) as [schema|]; intros H.
  - eapply validate_fields_keys; eauto.
  - now injection H as _ <-.
Qed.

(** X20: the entry form on DuckDB never stores a record.
    [handle_add_record] lets an exception of the validator through, such as
    the [OverflowError] of an integer too large for a float, shows the
    messages when there are any, and for a record without messages shows
    "Error adding record" with the exception of [add_record]: the coerced
    record has no [id], and the exception [refusal] is that of the first of
    its values that the engine does not convert to the type of its column,
    and the violated NOT NULL constraint of the primary key when it converts
    them all.  The store is the same in each case. *)
Theorem handle_add_record_duckdb sch f now st :
  handle_add_record duckdb sch f now st =
  match validate_record sch "food_consumption" (form_record f) with
  | (Raise ex, _) => (Raise ex, st)
  | (Ok [], coerced) => (Ok (AddFailed (refusal coerced)), st)
  | (Ok errs, _) => (Ok (ValidationErrors errs), st)
  end.
Proof.
  unfold handle_add_record.
  destruct (validate_record sch "food_consumption" (form_record f))
    as [[errs|ex] coerced] eqn:Ev; [|reflexivity].
  destruct errs as [|p rest]; [|reflexivity].
  apply validate_record_keys in Ev. cbn in Ev.
  rewrite add_record_duckdb_without_id; [reflexivity| | |].
  - intros Hnil. rewrite Hnil in Ev. discriminate Ev.
  - rewrite Ev. reflexivity.
  - destruct (dict_mem "id" coerced) eqn:Hm; [|reflexivity].
    apply dict_mem_In in Hm. rewrite Ev in Hm. cbn [In] in Hm.
    repeat (destruct Hm as [Hm|Hm]; [discriminate Hm|]). destruct Hm.
Qed.

(** X21: the import handler blocks exactly the batches for which
    the preview warned.  After a preview that ended in the warning, the
    import answers "Cannot import data with validation errors" and changes
    nothing; after a preview that ended in success, it never gives that
    answer. *)
Theorem import_blocked_iff_preview_warned e sch clock df s s1 :
  (preview_csv_data sch df s = (Ok PreviewWarnings, s1) ->
   handle_import e sch clock s1 = (Ok ImportBlocked, s1)) /\
  (preview_csv_data sch df s = (Ok PreviewValid, s1) ->
   fst (handle_import e sch clock s1) <> Ok ImportBlocked).
Proof.
  unfold preview_csv_data.
  destruct (validate_dataframe sch "food_consumption" df (objects s))
    as [[[[vdf row_errors] flag]|ex] h] eqn:Ev.
  2:{ split; discriminate. }
  destruct (dict_get "food_consumption" sch) as [schema|] eqn:Hs.
  2:{ unfold validate_dataframe in Ev. unfold schemas, table_schema in *.
      rewrite Hs in Ev. discriminate. }
  destruct (validate_dataframe_returns _ _ _ _ Hs Ev)
    as (d & -> & (Hsh & _ & _ & Hflag & Hn & _) & _).
  apply shape_frame_len in Hsh.
  split; intros H; destruct flag; try discriminate H; injection H as <-;
    unfold handle_import; cbn [objects preview_data validation_errors].
  - destruct Hflag as [Hf _]. specialize (Hf eq_refl). specialize (Hn Hf).
    assert (He : frame_empty (frame_at h vdf) = false).
    { unfold frame_empty. destruct (frame_at h vdf) as [|c fr] eqn:E.
      - simpl in Hsh. lia.
      - rewrite Hsh. apply Nat.eqb_neq. lia. }
    rewrite He. unfold any_errors. rewrite existsb_repeat.
    apply Nat.ltb_lt in Hn. rewrite Hn.
    destruct (dict_at h d); [congruence|reflexivity].
  - destruct (frame_empty (frame_at h vdf)); [simpl; discriminate|].
    unfold any_errors. rewrite existsb_repeat.
    destruct (dict_at h d) as [|p rest] eqn:Ed.
    + rewrite andb_false_r.
      destruct (clean_dataframe_for_import _ _ _ _) as [[clean|ex] h1];
        [|simpl; discriminate].
      destruct (import_csv_data _ _ _ _ _) as [[[|]|ex] st1];
        simpl; discriminate.
    + destruct Hflag as [_ Hf]. assert (false = true) by (apply Hf; discriminate).
      discriminate.
Qed.

(** X22: the import handler on DuckDB never changes the database,
    and when it reports an import, it reports the import of no record. *)
Theorem handle_import_duckdb sch clock s :
  database (snd (handle_import duckdb sch clock s)) = database s /\
  forall n, fst (handle_import duckdb sch clock s) = Ok (Imported n) -> n = 0%nat.
Proof.
  unfold handle_import.
  destruct (frame_empty _); [split; [reflexivity|discriminate]|].
  destruct (any_errors _ _); [split; [reflexivity|discriminate]|].
  destruct (clean_dataframe_for_import _ _ _ _) as [[clean|ex] h1];
    [|split; [reflexivity|discriminate]].
  unfold import_csv_data. rewrite String.eqb_refl. cbn [for_each].
  unfold bind, ret, raise.
  destruct (dict_mem "commodity" (frame_at h1 clean)) eqn:Hc;
    [|split; [reflexivity|discriminate]].
  destruct (dict_mem "age_group" (frame_at h1 clean)) eqn:Ha;
    [|split; [reflexivity|discriminate]].
  rewrite (@import_rows_duckdb K (frame_at h1 clean) clock (database s) Hc).
  destruct (frame_len (frame_at h1 clean)) as [|n] eqn:En; cbn [Nat.eqb].
  - split; [reflexivity|]. intros n H. now injection H as <-.
  - split; [reflexivity|discriminate].
Qed.
End HandlerFacts.

(** ** Version history *)

(** X18: [get_versions] never changes the store; for an id that is
    not in the table it returns the empty list, and on DuckDB it raises
    [TypeError] for every id that is, the fetched row being a tuple. *)
Theorem get_versions_outcome e tbl record_id st :
  snd (get_versions e tbl record_id st) = st /\
  (select_by_id (food_consumption st) record_id = None ->
   get_versions e "food_consumption" record_id st = (Ok [], st)) /\
  (forall r, select_by_id (food_consumption st) record_id = Some r ->
     get_versions duckdb "food_consumption" record_id st = (Raise TypeError, st)).
Proof.
  split; [|split].
  - unfold get_versions, get_record_by_id, bind, get_state, ret, raise, lift.
    destruct (tbl =? "food_consumption").
    + destruct (select_by_id (food_consumption st) record_id) as [r|];
        [|reflexivity].
      destruct (subscript e r "version"); [|reflexivity].
      destruct (subscript e r "updated_at"); reflexivity.
    + destruct (tbl =? "deleted_records"); reflexivity.
  - intros H. unfold get_versions, get_record_by_id, bind, get_state, ret.
    rewrite String.eqb_refl, H. reflexivity.
  - intros r H. unfold get_versions, get_record_by_id, bind, get_state, ret.
    rewrite String.eqb_refl, H. reflexivity.
Qed.

Lemma import_blocked_iff_preview_warned_witness :
  fst (preview_csv_data _get_default_schema 0 three_rows_session)
    = Ok PreviewWarnings /\
  handle_import duckdb _get_default_schema (fun i => 100 + Z.of_nat i)%Z
    (snd (preview_csv_data _get_default_schema 0 three_rows_session))
  = (Ok ImportBlocked,
     snd (preview_csv_data _get_default_schema 0 three_rows_session)).
Proof.
  split; [reflexivity|].
  destruct (@import_blocked_iff_preview_warned example_builtins example_casts duckdb
              _get_default_schema (fun i => 100 + Z.of_nat i)%Z 0%nat
              three_rows_session
              (snd (preview_csv_data _get_default_schema 0 three_rows_session)))
    as [H _].
  apply H. reflexivity.
Defined.

Lemma get_versions_outcome_witness :
  select_by_id (food_consumption one_record) 1 = Some (almonds_row 1) /\
  get_versions duckdb "food_consumption" 1 one_record
    = (Raise TypeError, one_record).
Proof.
  split; [reflexivity|].
  destruct (get_versions_outcome duckdb "food_consumption" 1 one_record)
    as (_ & _ & H).
  apply (H (almonds_row 1)). reflexivity.
Defined.

(** ** The summary of a validation *)

Lemma append_assoc (a b c : string) :
  String.append (String.append a b) c = String.append a (String.append b c).
Proof. induction a as [|ch a IH]; simpl; [reflexivity|now rewrite IH]. Qed.

Lemma append_empty (a : string) : String.append a "" = a.
Proof. induction a as [|ch a IH]; simpl; [reflexivity|now rewrite IH]. Qed.

Lemma count_errors_enumerate_from i (validation_errors : list (dict string)) :
  length (filter (fun '(_, errors) => has_messages errors)
            (enumerate_from i validation_errors))
  = count_errors validation_errors.
Proof.
  unfold count_errors. revert i.
  induction validation_errors as [|errors rest IH]; intros i; simpl;
    [reflexivity|].
  destruct errors; simpl; now rewrite IH.
Qed.

(** The loop adds the items of the first rows with messages, until five are
    shown. *)
Lemma show_rows_spec rows message error_shown :
  (error_shown <= 5)%nat ->
  show_rows rows message error_shown =
  (String.append message
     (join (map (fun '(i, errors) => row_item i errors)
              (firstn (5 - error_shown)
                 (filter (fun '(_, errors) => has_messages errors) rows)))),
   Nat.min 5 (error_shown
              + length (filter (fun '(_, errors) => has_messages errors) rows))).
Proof.
  revert message error_shown.
  induction rows as [|[i errors] rows IH]; intros message k Hk.
  - cbn [show_rows filter length]. rewrite firstn_nil.
    cbn [map join fold_right]. rewrite append_empty, Nat.add_0_r.
    now rewrite Nat.min_r by lia.
  - cbn [show_rows filter]. destruct errors as [|p rest].
    + cbn [has_messages]. now apply IH.
    + cbn [has_messages]. destruct (k <? 5)%nat eqn:E.
      * apply Nat.ltb_lt in E. rewrite IH by lia.
        replace (5 - k)%nat with (S (5 - (k + 1))) by lia.
        cbn [firstn map join fold_right length]. rewrite append_assoc.
        f_equal. f_equal. lia.
      * apply Nat.ltb_ge in E. rewrite IH by lia.
        replace (5 - k)%nat with 0%nat by lia.
        cbn [firstn map join fold_right length Nat.sub].
        f_equal. rewrite !Nat.min_l by lia. reflexivity.
Qed.

(** The test for the empty list is subsumed by the count. *)
Lemma format_validation_message_count validation_errors :
  format_validation_message validation_errors =
  if (count_errors validation_errors =? 0)%nat then valid_message
  else
    let '(message, error_shown) :=
      show_rows (enumerate validation_errors)
        (String.append "<div class='alert alert-danger'><strong>"
           (String.append (str_nat (count_errors validation_errors))
              " validation errors found:</strong><ul>")) 0 in
    String.append
      (if (error_shown <? count_errors validation_errors)%nat
       then String.append message
              (String.append "<li>...and "
                 (String.append
                    (str_nat (count_errors validation_errors - error_shown))
                    " more errors</li>"))
       else message)
      "</ul></div>".
Proof. destruct validation_errors; reflexivity. Qed.

Lemma format_validation_message_items validation_errors :
  format_validation_message validation_errors =
  if (count_errors validation_errors =? 0)%nat then valid_message
  else
    String.append "<div class='alert alert-danger'><strong>"
      (String.append (str_nat (count_errors validation_errors))
         (String.append " validation errors found:</strong><ul>"
            (String.append (join (shown_items validation_errors))
               (String.append
                  (if (5 <? count_errors validation_errors)%nat
                   then String.append "<li>...and "
                          (String.append
                             (str_nat (count_errors validation_errors - 5))
                             " more errors</li>")
                   else "")
                  "</ul></div>")))).
Proof.
  rewrite format_validation_message_count.
  destruct (count_errors validation_errors =? 0)%nat eqn:E0; [reflexivity|].
  unfold enumerate. rewrite show_rows_spec by lia.
  rewrite count_errors_enumerate_from.
  cbn [Nat.add Nat.sub]. fold (enumerate validation_errors).
  fold (shown_items validation_errors).
  destruct (5 <? count_errors validation_errors)%nat eqn:E5.
  - pose proof E5 as H5. apply Nat.ltb_lt in E5.
    rewrite (Nat.min_l 5 (count_errors validation_errors)) by lia.
    rewrite H5. rewrite !append_assoc. reflexivity.
  - apply Nat.ltb_ge in E5.
    rewrite (Nat.min_r 5 (count_errors validation_errors)) by lia.
    rewrite Nat.ltb_irrefl. rewrite !append_assoc. reflexivity.
Qed.

(** X19: [format_validation_message] in closed form.  The message
    is the success text exactly when no row has a message; otherwise it is
    the count of rows with messages, the items of the first five such rows
    in order, the line "...and k more errors" when there are more than five,
    [k] being the count less five, and the closing tags. *)
Theorem format_validation_message_summary validation_errors :
  format_validation_message validation_errors =
  (if (count_errors validation_errors =? 0)%nat then valid_message
   else
     String.append "<div class='alert alert-danger'><strong>"
       (String.append (str_nat (count_errors validation_errors))
          (String.append " validation errors found:</strong><ul>"
             (String.append (join (shown_items validation_errors))
                (String.append
                   (if (5 <? count_errors validation_errors)%nat
                    then String.append "<li>...and "
                           (String.append
                              (str_nat (count_errors validation_errors - 5))
                              " more errors</li>")
                    else "")
                   "</ul></div>"))))) /\
  length (shown_items validation_errors)
  = Nat.min 5 (count_errors validation_errors) /\
  (format_validation_message validation_errors = valid_message <->
   count_errors validation_errors = 0%nat).
Proof.
  split; [apply format_validation_message_items|]. split.
  - unfold shown_items. rewrite length_map, length_firstn.
    unfold enumerate. now rewrite count_errors_enumerate_from.
  - rewrite format_validation_message_items.
    destruct (count_errors validation_errors =? 0)%nat eqn:E0.
    + apply Nat.eqb_eq in E0. tauto.
    + apply Nat.eqb_neq in E0. split; [|contradiction].
      unfold valid_message. cbn [String.append]. intros H. discriminate H.
Qed.

(** ** The application on DuckDB *)

Section ApplicationFacts.
Context {B : Builtins} {K : Casts}.

Lemma write_update_raise record_id record_data cv now st ex st' :
  write_update record_id record_data cv now st = (Raise ex, st') -> st' = st.
Proof.
  unfold write_update, bind, lift, get_state, raise, put_state, ret.
  destruct (successor cv) as [next|]; [|now intros H; injection H as _ <-].
  destruct record_data as [|p rest] eqn:Ed; [now intros H; injection H as _ <-|].
  rewrite <- Ed.
  destruct (negb _ || negb _); [now intros H; injection H as _ <-|].
  destruct (converts_unused || _); [|discriminate].
  destruct (convert _) as [converted|ex']; [|now intros H; injection H as _ <-].
  destruct (existsb _ _ || negb _); [now intros H; injection H as _ <-|].
  discriminate.
Qed.

(** An update that does not assign [id] keeps the ids of the table and the
    log of deletions, whether it returns or raises. *)
Lemma update_record_ids tbl record_id record_data now st :
  dict_mem "id" record_data = false ->
  record_ids (snd (update_record tbl record_id record_data now st))
  = record_ids st /\
  deleted_records (snd (update_record tbl record_id record_data now st))
  = deleted_records st.
Proof.
  intros Hid. unfold update_record.
  destruct (tbl =? "food_consumption"); [|now split].
  unfold bind at 1. unfold read_version, bind, get_state, ret, raise.
  destruct (select_by_id (food_consumption st) record_id) as [r|]; [|now split].
  destruct (write_update record_id record_data (field_of r "version") now st)
    as [[u|ex] st'] eqn:Ew.
  - destruct u.
    apply write_update_accepted in Ew
      as (n & _ & _ & [[_ ->]|(data & Hd & ->)]); [now split|].
    cbn [snd]. unfold record_ids. cbn [food_consumption deleted_records].
    split; [|reflexivity]. rewrite map_map. apply map_ext. intros r0.
    destruct (has_id record_id r0); [|reflexivity]. apply updated_id.
    rewrite (convert_keys _ Hd), bind_values_keys. intros Hin.
    apply dict_mem_In in Hin. congruence.
  - apply write_update_raise in Ew. subst st'. now split.
Qed.

Lemma form_record_no_id f : dict_mem "id" (form_record f) = false.
Proof. reflexivity. Qed.

Lemma handle_delete_record_duckdb record_id now d :
  snd (handle_delete_record duckdb record_id now d) = d /\
  fst (handle_delete_record duckdb record_id now d) <> Ok RecordDeleted.
Proof.
  destruct d as [st l]. unfold handle_delete_record.
  destruct record_id as [record_id|]; [|split; [reflexivity|discriminate]].
  assert (Hdel : snd (delete_record duckdb "food_consumption" record_id now st)
                 = st /\
                 fst (delete_record duckdb "food_consumption" record_id now st)
                 <> Ok true).
  { destruct (select_by_id (food_consumption st) record_id) as [r|] eqn:Es.
    - rewrite (delete_record_duckdb st record_id now Es).
      split; [reflexivity|discriminate].
    - unfold delete_record, get_record_by_id, bind, get_state, ret.
      rewrite String.eqb_refl, Es. split; [reflexivity|discriminate]. }
  destruct Hdel as [Hst Hres].
  unfold on_store, get_record_by_id, get_state, ret.
  rewrite String.eqb_refl. unfold bind. cbn [stored deleted].
  destruct (delete_record duckdb "food_consumption" record_id now st)
    as [[[|]|ex] st'].
  - now elim Hres.
  - cbn [snd] in Hst. subst st'. split; [reflexivity|discriminate].
  - cbn [snd] in Hst. subst st'. split; [reflexivity|discriminate].
Qed.

Lemma handle_undo_delete_nothing_listed e now st :
  handle_undo_delete e now {| stored := st; deleted := [] |}
  = (Ok NothingToRestore, {| stored := st; deleted := [] |}).
Proof. reflexivity. Qed.

Lemma handle_add_record_duckdb_store sch f now st :
  snd (handle_add_record duckdb sch f now st) = st.
Proof.
  unfold handle_add_record.
  destruct (validate_record sch "food_consumption" (form_record f))
    as [[errs|ex] coerced] eqn:Ev; [|reflexivity].
  destruct errs as [|p rest]; [|reflexivity].
  apply validate_record_keys in Ev. cbn in Ev.
  rewrite add_record_duckdb_without_id; [reflexivity| | |].
  - intros Hnil. rewrite Hnil in Ev. discriminate Ev.
  - rewrite Ev. reflexivity.
  - destruct (dict_mem "id" coerced) eqn:Hm; [|reflexivity].
    apply dict_mem_In in Hm. rewrite Ev in Hm. cbn [In] in Hm.
    repeat (destruct Hm as [Hm|Hm]; [discriminate Hm|]). destruct Hm.
Qed.

Lemma handle_import_duckdb_database sch clock s :
  database (snd (handle_import duckdb sch clock s)) = database s.
Proof.
  unfold handle_import.
  destruct (frame_empty _); [reflexivity|].
  destruct (any_errors _ _); [reflexivity|].
  destruct (clean_dataframe_for_import _ _ _ _) as [[clean|ex] h1];
    [|reflexivity].
  unfold import_csv_data. rewrite String.eqb_refl. cbn [for_each].
  unfold bind, ret, raise.
  destruct (dict_mem "commodity" (frame_at h1 clean)) eqn:Hc; [|reflexivity].
  destruct (dict_mem "age_group" (frame_at h1 clean)) eqn:Ha; [|reflexivity].
  rewrite (@import_rows_duckdb K (frame_at h1 clean) clock (database s) Hc).
  destruct (frame_len (frame_at h1 clean)); reflexivity.
Qed.

Lemma preview_csv_data_database sch df s :
  database (snd (preview_csv_data sch df s)) = database s.
Proof.
  unfold preview_csv_data.
  destruct (validate_dataframe sch "food_consumption" df (objects s))
    as [[[[vdf row_errors] flag]|ex] h]; reflexivity.
Qed.

(** One event on DuckDB. *)
Lemma react_duckdb sch a ev :
  deleted_list a = [] ->
  record_ids (database (entry (react duckdb sch a ev)))
  = record_ids (database (entry a)) /\
  deleted_records (database (entry (react duckdb sch a ev)))
  = deleted_records (database (entry a)) /\
  deleted_list (react duckdb sch a ev) = [].
Proof.
  intros Hl. destruct ev as [f now|df|clock|record_id edited now|record_id now|now];
    cbn [react].
  - cbn [entry deleted_list with_database database].
    rewrite handle_add_record_duckdb_store. auto.
  - cbn [new_frame entry deleted_list]. rewrite preview_csv_data_database.
    cbn [database]. auto.
  - cbn [entry deleted_list]. rewrite handle_import_duckdb_database. auto.
  - unfold in_display, save_edited_record.
    destruct record_id as [record_id|].
    + unfold bind, on_store, ret. cbn [stored deleted].
      destruct (@update_record_ids "food_consumption" record_id
                  (form_record edited) now (database (entry a))
                  (form_record_no_id edited)) as [H1 H2].
      destruct (update_record "food_consumption" record_id (form_record edited)
                  now (database (entry a))) as [[u|ex] st'];
        cbn [snd] in H1, H2; cbn [entry deleted_list with_database database
                                    stored deleted]; auto.
    + cbn [ret entry deleted_list with_database database stored deleted]. auto.
  - unfold in_display.
    destruct (handle_delete_record_duckdb record_id now
                {| stored := database (entry a); deleted := deleted_list a |})
      as [Hs _].
    destruct (handle_delete_record duckdb record_id now _) as [res d].
    cbn [snd] in Hs. subst d.
    cbn [entry deleted_list with_database database stored deleted]. auto.
  - unfold in_display. rewrite Hl, handle_undo_delete_nothing_listed.
    cbn [entry deleted_list with_database database stored deleted]. auto.
Qed.

(** X23: through the application on DuckDB no record is created
    and none is removed.  Whatever the user does, adding through the form,
    previewing and importing a batch, saving an edit, deleting, undoing, in
    any order and number, the table holds the ids it held, in the same
    order, the log of deletions is as it was, and the list of deletions that
    the display offers for undoing stays empty. *)
Theorem app_on_duckdb_keeps_records sch events a :
  deleted_list a = [] ->
  record_ids (database (entry (run duckdb sch events a)))
  = record_ids (database (entry a)) /\
  deleted_records (database (entry (run duckdb sch events a)))
  = deleted_records (database (entry a)) /\
  deleted_list (run duckdb sch events a) = [].
Proof.
  unfold run. revert a. induction events as [|ev events IH]; intros a Hl.
  - auto.
  - cbn [fold_left].
    destruct (react_duckdb sch a ev Hl) as (H1 & H2 & H3).
    destruct (IH _ H3) as (I1 & I2 & I3).
    split; [congruence|]. split; [congruence|assumption].
Qed.
End ApplicationFacts.

Lemma app_on_duckdb_keeps_records_witness :
  deleted_list almonds_app = [] /\
  record_ids
    (database
       (entry (run duckdb _get_default_schema
                 [AddRecord almonds_form 200; DeleteRecord (Some 1%Z) 300;
                  UndoDelete 400; SaveEdit (Some 1%Z) almonds_form 500]
                 almonds_app)))
  = [Some 1%Z].
Proof.
  split; [reflexivity|].
  exact (proj1 (@app_on_duckdb_keeps_records example_builtins example_casts
                  _get_default_schema
                  [AddRecord almonds_form 200; DeleteRecord (Some 1%Z) 300;
                   UndoDelete 400; SaveEdit (Some 1%Z) almonds_form 500]
                  almonds_app eq_refl)).
Defined.

Section RecordReturns.
Context {B : Builtins} {K : Casts}.

(** ** [validate_record] returns *)







End RecordReturns.


(** ** [validate_dataframe] returns *)







Section BatchReturns.
Context {B : Builtins}.







Lemma required_columns_complete (schema : table_schema) required col :
  required_columns schema = Ok required -> In col required ->
  exists m, In (col, CMap m) schema /\ is_required m = true.
Proof.
  revert required. induction schema as [|[c0 rules0] rest IH]; intros required;
    simpl.
  - intros H; injection H as <-. intros [].
  - destruct (rules_dict rules0) as [m0|] eqn:E0; [|discriminate].
    destruct (required_columns rest) as [cols|]; [|discriminate].
    intros H Hin. injection H as <-.
    destruct rules0 as [| | |m']; try discriminate. injection E0 as ->.
    destruct (is_required m0) eqn:Er.
    + destruct Hin as [<-|Hin].
      * exists m0. split; [now left|assumption].
      * destruct (IH cols eq_refl Hin) as (m & H1 & H2). exists m.
        split; [now right|assumption].
    + destruct (IH cols eq_refl Hin) as (m & H1 & H2). exists m.
      split; [now right|assumption].
Qed.

End BatchReturns.


